(** * Release assessment portal: request lifecycle, submission form,
      listing filter and report export.

    Shallow embedding of the TypeScript sources
      - src/types/index.ts          (module [Types])
      - pages/RequestDetail.tsx     (module [RequestDetail])
      - pages/NewAssessment.tsx     (module [NewAssessment])
      - pages/Dashboard.tsx         (module [Dashboard])
      - pages/Results.tsx           (module [Results])
    together with what they call: the JavaScript runtime (module [Js] for
    strings, module [Number] for numbers, module [JSON] for
    [JSON.stringify] and [JSON.parse], module [Runtime] for the
    formatting of dates) and the backend client (module [Backend]).  Module [Fixtures] holds sample
    data and module [Spec] the vocabulary of the statements; the
    properties follow, one section per page.

    Conventions.  A JavaScript string is a [string]: a sequence of code
    units, here the code units below 256.  A number that the backend
    delivers is a [Number.number]; a count or a byte size that the
    browser computes is a [Z].  React state is passed explicitly; a call to the backend is a value of a call type and
    the backend's answer is an argument of the handler. *)

From Stdlib Require Import String Ascii List ZArith Lia Bool Arith Sorted.
From Stdlib Require Import DecimalString DecimalPos DecimalN DecimalZ DecimalFacts.
Import ListNotations.
Open Scope string_scope.
Set Warnings "-register-all".

(* ================================================================== *)
(** * Runtime primitives *)

Module Js.

(** [s.includes(t)]: [t] occurs in [s] as a contiguous run. *)
Fixpoint includes (s t : string) : bool :=
  if String.prefix t s then true
  else match s with
       | EmptyString => false
       | String _ s' => includes s' t
       end.

(** [a.includes(x)] on an array of strings. *)
Fixpoint array_includes (a : list string) (x : string) : bool :=
  match a with
  | [] => false
  | y :: a' => if String.eqb y x then true else array_includes a' x
  end.

(** Lower-case mapping of one code unit (Basic Latin and Latin-1). *)
Definition lower_unit (c : ascii) : ascii :=
  let n := nat_of_ascii c in
  if ((65 <=? n) && (n <=? 90)
      || ((192 <=? n) && (n <=? 222) && negb (n =? 215)))%nat
  then ascii_of_nat (n + 32)
  else c.

(** [s.toLowerCase()] *)
Fixpoint toLowerCase (s : string) : string :=
  match s with
  | EmptyString => EmptyString
  | String c s' => String (lower_unit c) (toLowerCase s')
  end.

(** Upper-case mapping of one code unit.  The three Latin-1 letters whose
    upper case lies outside Latin-1 are left as they are. *)
Definition upper_unit (c : ascii) : ascii :=
  let n := nat_of_ascii c in
  if ((97 <=? n) && (n <=? 122)
      || ((224 <=? n) && (n <=? 254) && negb (n =? 247)))%nat
  then ascii_of_nat (n - 32)
  else c.

(** [s.toUpperCase()] *)
Fixpoint toUpperCase (s : string) : string :=
  match s with
  | EmptyString => EmptyString
  | String c s' => String (upper_unit c) (toUpperCase s')
  end.

(** [a < b] on strings: lexicographic on code units. *)
Definition string_lt (a b : string) : bool :=
  match String.compare a b with Lt => true | _ => false end.

(** [a >= b] on strings is [!(a < b)]. *)
Definition string_ge (a b : string) : bool := negb (string_lt a b).

(** The text after the prefix [p] of [s], when [s] starts with [p]. *)
Fixpoint strip_prefix (p s : string) : option string :=
  match p with
  | EmptyString => Some s
  | String a p' =>
      match s with
      | EmptyString => None
      | String b s' => if Ascii.eqb a b then strip_prefix p' s' else None
      end
  end.

(** [s.replace(pat, rep)] with a string pattern and a replacement free
    of [$]: the first occurrence of [pat] is replaced. *)
Fixpoint replace_first (pat rep s : string) : string :=
  match strip_prefix pat s with
  | Some rest => rep ++ rest
  | None =>
      match s with
      | EmptyString => EmptyString
      | String c s' => String c (replace_first pat rep s')
      end
  end.

(** [s.slice(0, n)] *)
Definition slice0 (n : nat) (s : string) : string := String.substring 0 n s.

(** Truthiness of a string: the empty string is falsy. *)
Definition truthy (s : string) : bool := negb (String.eqb s "").

(** [Number::toString] on an integer of magnitude below 10^21: an
    optional minus sign and the decimal digits. *)
Definition number_to_string (n : Z) : string :=
  match n with
  | Z0 => "0"
  | Zpos p => NilEmpty.string_of_uint (Pos.to_uint p)
  | Zneg p => String "-" (NilEmpty.string_of_uint (Pos.to_uint p))
  end.

End Js.

(* ================================================================== *)
(** * The Number type of the runtime *)

Module Number.

(** A Number.  A finite number other than zero is given by the decimal
    that [Number::toString] prints for it, the shortest one that denotes
    it: its sign, the digits [s] of that decimal as a number that is not
    a multiple of 10, and the power of ten [e], for the value
    [s * 10^e]. *)
Inductive number :=
| NaN
| Infinity (negative : bool)
| Zero (negative : bool)
| Finite (negative : bool) (s : positive) (e : Z).

(** The same Number, as data; unlike [===], it holds of NaN and NaN
    and tells zero from negative zero. *)
Definition eqb (x y : number) : bool :=
  match x, y with
  | NaN, NaN => true
  | Infinity a, Infinity b => Bool.eqb a b
  | Zero a, Zero b => Bool.eqb a b
  | Finite a s e, Finite b s' e' =>
      Bool.eqb a b && Pos.eqb s s' && Z.eqb e e'
  | _, _ => false
  end.

(** [Number.isFinite] *)
Definition isFinite (x : number) : bool :=
  match x with
  | NaN | Infinity _ => false
  | Zero _ | Finite _ _ _ => true
  end.

(** The decimal digits of [s], most significant first. *)
Definition digits_of (s : positive) : string :=
  NilEmpty.string_of_uint (Pos.to_uint s).

Fixpoint zeros (n : nat) : string :=
  match n with
  | O => ""
  | S n' => String "0" (zeros n')
  end.

(** The first [n] code units of a text and the rest of it. *)
Fixpoint split_at (n : nat) (ds : string) : string * string :=
  match n, ds with
  | S n', String c r => let (a, b) := split_at n' r in (String c a, b)
  | _, _ => ("", ds)
  end.

(** [e], the sign of the exponent and its digits. *)
Definition exponent_part (x : Z) : string :=
  "e" ++ (if (x <? 0)%Z then "-" else "+")
  ++ Js.number_to_string (Z.abs x).

(** [Number::toString(x)], radix 10, on a positive finite number: with
    [k] the number of digits of [s] and [n = e + k], the digits
    followed by zeros, the digits around a decimal point, the digits
    after [0.] and zeros, or the exponent notation. *)
Definition toString_finite (s : positive) (e : Z) : string :=
  let ds := digits_of s in
  let k := Z.of_nat (String.length ds) in
  let n := (e + k)%Z in
  if ((k <=? n) && (n <=? 21))%Z then ds ++ zeros (Z.to_nat (n - k))
  else if ((0 <? n) && (n <=? 21))%Z then
    let (a, b) := split_at (Z.to_nat n) ds in a ++ "." ++ b
  else if ((-6 <? n) && (n <=? 0))%Z then
    "0." ++ zeros (Z.to_nat (- n)) ++ ds
  else
    match ds with
    | EmptyString => EmptyString
    | String c EmptyString => String c (exponent_part (n - 1))
    | String c r => String c ("." ++ r ++ exponent_part (n - 1))
    end.

(** [Number::toString(x)], which is also what a template literal puts
    for a number. *)
Definition toString (x : number) : string :=
  match x with
  | NaN => "NaN"
  | Infinity false => "Infinity"
  | Infinity true => "-Infinity"
  | Zero _ => "0"
  | Finite false s e => toString_finite s e
  | Finite true s e => String "-" (toString_finite s e)
  end.

Definition is_digit (c : ascii) : bool :=
  ((48 <=? nat_of_ascii c) && (nat_of_ascii c <=? 57))%nat.

(** The longest run of digits at the head of a text, and the rest. *)
Fixpoint digit_run (s : string) : string * string :=
  match s with
  | EmptyString => ("", "")
  | String c r =>
      if is_digit c
      then let (ds, rest) := digit_run r in (String c ds, rest)
      else ("", s)
  end.

(** The number a run of digits denotes. *)
Definition natural (ds : string) : N :=
  match NilEmpty.uint_of_string ds with
  | Some d => Pos.of_uint d
  | None => 0%N
  end.

(** A run of digits without its trailing zeros, and their count. *)
Fixpoint strip_trailing (ds : string) : string * nat :=
  match ds with
  | EmptyString => ("", 0)
  | String c r =>
      let (core, t) := strip_trailing r in
      match core with
      | EmptyString =>
          if Ascii.eqb c "0" then ("", S t) else (String c "", t)
      | String _ _ => (String c core, t)
      end
  end.

(** The decimal of sign [negative], digits [ds] and power of ten [e],
    exactly. *)
Definition decimal (negative : bool) (ds : string) (e : Z) : number :=
  let (core, t) := strip_trailing ds in
  match natural core with
  | N0 => Zero negative
  | Npos s => Finite negative s (e + Z.of_nat t)
  end.

Definition of_Z (z : Z) : number :=
  decimal (z <? 0)%Z (Js.number_to_string (Z.abs z)) 0.

(** The integer part of a JSON number: [0], or digits that do not start
    with [0]. *)
Definition int_ok (ds : string) : bool :=
  match ds with
  | EmptyString => false
  | String c EmptyString => true
  | String c _ => negb (Ascii.eqb c "0")
  end.

(** The optional fraction of a JSON number: its digits, none when there
    is no fraction. *)
Definition fraction (s : string) : option (string * string) :=
  match s with
  | String c r =>
      if Ascii.eqb c "."
      then match digit_run r with
           | (EmptyString, _) => None
           | (ds, rest) => Some (ds, rest)
           end
      else Some ("", s)
  | EmptyString => Some ("", "")
  end.

(** The optional exponent of a JSON number, 0 when there is none. *)
Definition exponent (s : string) : option (Z * string) :=
  match s with
  | String c r =>
      if Ascii.eqb c "e" || Ascii.eqb c "E"
      then
        let (negative, r1) :=
          match r with
          | String g r' =>
              if Ascii.eqb g "-" then (true, r')
              else if Ascii.eqb g "+" then (false, r')
              else (false, r)
          | EmptyString => (false, r)
          end in
        match digit_run r1 with
        | (EmptyString, _) => None
        | (ds, rest) =>
            Some (if negative then (- Z.of_N (natural ds))%Z
                  else Z.of_N (natural ds), rest)
        end
      else Some (0%Z, s)
  | EmptyString => Some (0%Z, "")
  end.

(** How the runtime turns the decimal a text denotes into a Number: the
    nearest Number, given as above by the shortest decimal that denotes
    it; a decimal out of range gives an infinity.  A decimal is a Number
    of the runtime when the rounding leaves it as it is. *)
Definition Rounding := number -> number.

(** A JSON number after its sign. *)
Definition parse_unsigned (round : Rounding) (negative : bool) (s : string)
  : option (number * string) :=
  let (ip, s2) := digit_run s in
  if int_ok ip then
    match fraction s2 with
    | Some (fp, s3) =>
        match exponent s3 with
        | Some (x, s4) =>
            Some (round (decimal negative (ip ++ fp)
                           (x - Z.of_nat (String.length fp))), s4)
        | None => None
        end
    | None => None
    end
  else None.

(** The JSON number at the head of a text, as a Number, and the text
    after it; [None] where the text does not start with a JSON
    number. *)
Definition parse (round : Rounding) (s : string)
  : option (number * string) :=
  match s with
  | String c r =>
      if Ascii.eqb c "-" then parse_unsigned round true r
      else parse_unsigned round false s
  | EmptyString => None
  end.

(** The numbers that [Number::toString] and the reading of a JSON
    number take into each other in a runtime of rounding [round]: the
    finite Numbers of that runtime other than negative zero.  A Number
    of the runtime is left as it is by the rounding, and the digits of a
    finite one end in no zero. *)
Definition well_formed (round : Rounding) (x : number) : bool :=
  match x with
  | NaN | Infinity _ | Zero true => false
  | Zero false => eqb (round x) x
  | Finite _ s _ =>
      (snd (strip_trailing (digits_of s)) =? 0)%nat && eqb (round x) x
  end.

(** Digits only. *)
Fixpoint all_digits (s : string) : bool :=
  match s with
  | EmptyString => true
  | String c r => is_digit c && all_digits r
  end.

(** What may follow a number in a text: nothing, or a code unit that
    continues neither its digits nor the number. *)
Definition ends_number (rest : string) : bool :=
  match rest with
  | EmptyString => true
  | String c _ =>
      negb (is_digit c || Ascii.eqb c "." || Ascii.eqb c "e"
            || Ascii.eqb c "E")
  end.

(** A rounding that leaves every decimal as it is.  The rounding to
    binary64 does so on the decimals of at most 15 significant digits
    within its range. *)
Definition exact : Rounding := fun x => x.

End Number.

(* ================================================================== *)
(** * [JSON.stringify(value, null, 2)] and [JSON.parse(text)] *)

Module JSON.

(** The values [JSON.parse] builds.  The members of an object are kept
    in the order in which the object enumerates its keys. *)
Inductive value :=
| Null
| Bool (b : bool)
| Number (n : Number.number)
| Str (s : string)
| Array (elements : list value)
| Object (members : list (string * value)).

Definition dquote : ascii := "034"%char.
Definition backslash : ascii := "092"%char.
Definition LF : ascii := "010"%char.
Definition nl : string := String LF "".

Definition hex_digit (n : nat) : ascii :=
  match n with
  | 0 => "0" | 1 => "1" | 2 => "2" | 3 => "3" | 4 => "4" | 5 => "5"
  | 6 => "6" | 7 => "7" | 8 => "8" | 9 => "9" | 10 => "a" | 11 => "b"
  | 12 => "c" | 13 => "d" | 14 => "e" | _ => "f"
  end%char.

(** One code unit inside [QuoteJSONString]. *)
Definition escape_unit (c : ascii) : string :=
  if Ascii.eqb c dquote then String backslash (String dquote "")
  else if Ascii.eqb c backslash then String backslash (String backslash "")
  else if Ascii.eqb c "008" then "\b"
  else if Ascii.eqb c "009" then "\t"
  else if Ascii.eqb c "010" then "\n"
  else if Ascii.eqb c "012" then "\f"
  else if Ascii.eqb c "013" then "\r"
  else if (nat_of_ascii c <? 32)%nat
       then "\u00" ++ String (hex_digit (nat_of_ascii c / 16))
                        (String (hex_digit (nat_of_ascii c mod 16)) "")
       else String c "".

Fixpoint escape (s : string) : string :=
  match s with
  | EmptyString => EmptyString
  | String c s' => escape_unit c ++ escape s'
  end.

(** [QuoteJSONString] *)
Definition quote (s : string) : string :=
  String dquote (escape s ++ String dquote "").

(** The gap of [JSON.stringify(_, null, 2)]. *)
Definition gap : string := "  ".

(** [SerializeJSONProperty] with the current indentation.  A number
    that is not finite is written as [null]. *)
Fixpoint serialize (indent : string) (v : value) : string :=
  match v with
  | Null => "null"
  | Bool true => "true"
  | Bool false => "false"
  | Number n => if Number.isFinite n then Number.toString n else "null"
  | Str s => quote s
  | Array [] => "[]"
  | Array elements =>
      let inner := indent ++ gap in
      "[" ++ nl ++ inner
      ++ String.concat ("," ++ nl ++ inner) (map (serialize inner) elements)
      ++ nl ++ indent ++ "]"
  | Object [] => "{}"
  | Object members =>
      let inner := indent ++ gap in
      "{" ++ nl ++ inner
      ++ String.concat ("," ++ nl ++ inner)
           (map (fun m => quote (fst m) ++ ": " ++ serialize inner (snd m))
                members)
      ++ nl ++ indent ++ "}"
  end.

Definition stringify (v : value) : string := serialize "" v.

(** JSON white space: space, tab, line feed, carriage return. *)
Definition is_ws (c : ascii) : bool :=
  Ascii.eqb c " " || Ascii.eqb c "009" || Ascii.eqb c "010"
  || Ascii.eqb c "013".

Fixpoint skip_ws (s : string) : string :=
  match s with
  | EmptyString => EmptyString
  | String c r => if is_ws c then skip_ws r else s
  end.

Definition strip_prefix := Js.strip_prefix.

Definition hex_value (c : ascii) : option nat :=
  let n := nat_of_ascii c in
  if ((48 <=? n) && (n <=? 57))%nat then Some (n - 48)
  else if ((97 <=? n) && (n <=? 102))%nat then Some (n - 87)
  else if ((65 <=? n) && (n <=? 70))%nat then Some (n - 55)
  else None.

(** The code unit of [\uXXXX]; [None] when it is not hexadecimal or the
    unit is not below 256. *)
Definition unicode_escape (h1 h2 h3 h4 : ascii) : option ascii :=
  match hex_value h1, hex_value h2, hex_value h3, hex_value h4 with
  | Some a, Some b, Some c, Some d =>
      if ((a =? 0) && (b =? 0))%nat then Some (ascii_of_nat (c * 16 + d))
      else None
  | _, _, _, _ => None
  end.

Definition simple_escape (e : ascii) : option ascii :=
  if Ascii.eqb e dquote then Some dquote
  else if Ascii.eqb e backslash then Some backslash
  else if Ascii.eqb e "/" then Some "/"%char
  else if Ascii.eqb e "b" then Some "008"%char
  else if Ascii.eqb e "f" then Some "012"%char
  else if Ascii.eqb e "n" then Some "010"%char
  else if Ascii.eqb e "r" then Some "013"%char
  else if Ascii.eqb e "t" then Some "009"%char
  else None.

Definition cons_result (c : ascii) (r : option (string * string))
  : option (string * string) :=
  match r with
  | Some (str, rest) => Some (String c str, rest)
  | None => None
  end.

(** The characters of a string literal after its opening quote: the
    string denoted and the text after the closing quote. *)
Fixpoint parse_chars (s : string) : option (string * string) :=
  match s with
  | EmptyString => None
  | String c r =>
      if Ascii.eqb c dquote then Some ("", r)
      else if Ascii.eqb c backslash then
        match r with
        | EmptyString => None
        | String e r1 =>
            if Ascii.eqb e "u" then
              match r1 with
              | String h1 (String h2 (String h3 (String h4 r2))) =>
                  match unicode_escape h1 h2 h3 h4 with
                  | Some u => cons_result u (parse_chars r2)
                  | None => None
                  end
              | _ => None
              end
            else
              match simple_escape e with
              | Some u => cons_result u (parse_chars r1)
              | None => None
              end
        end
      else if (nat_of_ascii c <? 32)%nat then None
      else cons_result c (parse_chars r)
  end.

Definition parse_literal (s : string) : option (value * string) :=
  match strip_prefix "null" s with
  | Some r => Some (Null, r)
  | None =>
      match strip_prefix "true" s with
      | Some r => Some (Bool true, r)
      | None =>
          match strip_prefix "false" s with
          | Some r => Some (Bool false, r)
          | None => None
          end
      end
  end.

(** Defining a property on the object under construction: a key already
    present keeps its place and takes the new value. *)
Fixpoint set_member (k : string) (v : value) (ms : list (string * value))
  : list (string * value) :=
  match ms with
  | [] => [(k, v)]
  | (k', v') :: ms' =>
      if String.eqb k' k then (k', v) :: ms'
      else (k', v') :: set_member k v ms'
  end.

Definition starts_number (c : ascii) : bool :=
  Ascii.eqb c "-" || Number.is_digit c.

(** The JSON value at the head of the text and the text after it, in a
    runtime that rounds the decimals of the text by [round]. *)
Fixpoint parse_value (round : Number.Rounding) (fuel : nat) (s : string)
    {struct fuel} : option (value * string) :=
  match fuel with
  | O => None
  | S fuel' =>
      match skip_ws s with
      | EmptyString => None
      | String c r =>
          if Ascii.eqb c dquote then
            match parse_chars r with
            | Some (str, rest) => Some (Str str, rest)
            | None => None
            end
          else if Ascii.eqb c "[" then
            match strip_prefix "]" (skip_ws r) with
            | Some rest => Some (Array [], rest)
            | None => parse_elements round fuel' r []
            end
          else if Ascii.eqb c "{" then
            match strip_prefix "}" (skip_ws r) with
            | Some rest => Some (Object [], rest)
            | None => parse_members round fuel' r []
            end
          else if starts_number c then
            match Number.parse round (String c r) with
            | Some (n, rest) => Some (Number n, rest)
            | None => None
            end
          else parse_literal (String c r)
      end
  end
with parse_elements (round : Number.Rounding) (fuel : nat) (s : string)
       (acc : list value) {struct fuel} : option (value * string) :=
  match fuel with
  | O => None
  | S fuel' =>
      match parse_value round fuel' s with
      | None => None
      | Some (v, rest) =>
          match skip_ws rest with
          | EmptyString => None
          | String c rest' =>
              if Ascii.eqb c ","
              then parse_elements round fuel' rest' (acc ++ [v])
              else if Ascii.eqb c "]" then Some (Array (acc ++ [v]), rest')
              else None
          end
      end
  end
with parse_members (round : Number.Rounding) (fuel : nat) (s : string)
       (acc : list (string * value)) {struct fuel}
  : option (value * string) :=
  match fuel with
  | O => None
  | S fuel' =>
      match strip_prefix (String dquote "") (skip_ws s) with
      | None => None
      | Some r =>
          match parse_chars r with
          | None => None
          | Some (key, rest) =>
              match strip_prefix ":" (skip_ws rest) with
              | None => None
              | Some rest1 =>
                  match parse_value round fuel' rest1 with
                  | None => None
                  | Some (v, rest2) =>
                      match skip_ws rest2 with
                      | EmptyString => None
                      | String c rest3 =>
                          if Ascii.eqb c ","
                          then parse_members round fuel' rest3
                                 (set_member key v acc)
                          else if Ascii.eqb c "}"
                          then Some (Object (set_member key v acc), rest3)
                          else None
                      end
                  end
              end
          end
      end
  end.

(** [JSON.parse(text)] in a runtime that rounds by [round]; [None]
    stands for the [SyntaxError]. *)
Definition parse (round : Number.Rounding) (text : string) : option value :=
  match parse_value round (S (String.length text)) text with
  | Some (v, rest) =>
      match skip_ws rest with
      | EmptyString => Some v
      | String _ _ => None
      end
  | None => None
  end.

Fixpoint distinct (ks : list string) : bool :=
  match ks with
  | [] => true
  | k :: ks' => negb (Js.array_includes ks' k) && distinct ks'
  end.

(** The values of a runtime that rounds by [round] in which every
    number is finite and not negative zero: no object has a key twice,
    as in every object, and every number is one that
    [Number.well_formed] admits. *)
Fixpoint well_formed (round : Number.Rounding) (v : value) : bool :=
  match v with
  | Null | Bool _ | Str _ => true
  | Number n => Number.well_formed round n
  | Array elements => forallb (well_formed round) elements
  | Object members =>
      distinct (map fst members)
      && forallb (fun m => well_formed round (snd m)) members
  end.

(** Number of nodes, counting each child once more for its place. *)
Fixpoint size (v : value) : nat :=
  match v with
  | Null | Bool _ | Number _ | Str _ => 1
  | Array elements =>
      S (list_sum (map (fun x => S (size x)) elements))
  | Object members =>
      S (list_sum (map (fun m => S (size (snd m))) members))
  end.

(** Where a serialized value ends: at the end of the text, before a
    comma or before a line feed. *)
Definition delimited (rest : string) : bool :=
  match rest with
  | EmptyString => true
  | String c _ => Ascii.eqb c "," || Ascii.eqb c LF
  end.

(** White space only. *)
Definition blank (w : string) : Prop := skip_ws w = "".

(** Parsing the serialization of [x], at any indentation and before
    any delimited remainder, gives [x] back and leaves the remainder. *)
Definition round_trips (round : Number.Rounding) (x : value) : Prop :=
  forall fuel ind rest,
    size x <= fuel -> well_formed round x = true -> blank ind ->
    delimited rest = true ->
    parse_value round fuel (serialize ind x ++ rest) = Some (x, rest).

(** Induction over values, with the hypothesis on every child. *)
Section Induction.
Variable P : value -> Prop.
Hypothesis HNull : P Null.
Hypothesis HBool : forall b, P (Bool b).
Hypothesis HNumber : forall n, P (Number n).
Hypothesis HStr : forall s, P (Str s).
Hypothesis HArray : forall xs, Forall P xs -> P (Array xs).
Hypothesis HObject :
  forall ms, Forall (fun m => P (snd m)) ms -> P (Object ms).

Fixpoint value_induction (v : value) : P v :=
  match v with
  | Null => HNull
  | Bool b => HBool b
  | Number n => HNumber n
  | Str s => HStr s
  | Array xs =>
      HArray xs
        ((fix go (l : list value) : Forall P l :=
            match l with
            | [] => Forall_nil P
            | x :: l' => Forall_cons x (value_induction x) (go l')
            end) xs)
  | Object ms =>
      HObject ms
        ((fix go (l : list (string * value))
            : Forall (fun m => P (snd m)) l :=
            match l with
            | [] => Forall_nil _
            | (k, x) :: l' =>
                Forall_cons (k, x) (value_induction x) (go l')
            end) ms)
  end.
End Induction.

End JSON.

(* ================================================================== *)
(** * src/types/index.ts *)

Module Types.

Inductive ReportType := API | Database | API_Database.
Inductive Environment :=
  Development | Test | Staging | Production | Not_Applicable.
Inductive RequestStatus := Queued | Running | Completed | Failed.

(** The string literal each member of the union stands for. *)
Definition report_type_label (t : ReportType) : string :=
  match t with
  | API => "API" | Database => "Database" | API_Database => "API + Database"
  end.

Definition environment_label (e : Environment) : string :=
  match e with
  | Development => "Development" | Test => "Test" | Staging => "Staging"
  | Production => "Production" | Not_Applicable => "Not Applicable"
  end.

Definition status_label (s : RequestStatus) : string :=
  match s with
  | Queued => "Queued" | Running => "Running"
  | Completed => "Completed" | Failed => "Failed"
  end.

Record Release := {
  rel_id : string;
  version : string;
  release_date : string;
  is_active : bool;
  rel_created_at : string
}.

(** The optional joined [current_release] / [target_release] members are
    never populated by the pages and are left out. *)
Record AssessmentRequest := {
  id : string;
  user_id : string;
  report_type : ReportType;
  current_release_id : string;
  target_release_id : string;
  environment : Environment;
  title : option string;
  description : option string;
  status : RequestStatus;
  error_message : option string;
  email_notification : bool;
  inapp_notification : bool;
  created_at : string;
  updated_at : string;
  completed_at : option string
}.

Record AuthUser := {
  auth_id : string;
  email : string;
  auth_created_at : string
}.

Inductive RiskLevel := Low | Medium | High.
Inductive ChangeType := Added | Modified | Removed.

Definition risk_level_label (r : RiskLevel) : string :=
  match r with Low => "Low" | Medium => "Medium" | High => "High" end.

Definition change_type_label (c : ChangeType) : string :=
  match c with
  | Added => "Added" | Modified => "Modified" | Removed => "Removed"
  end.

Record AssessmentSummary := {
  api_endpoints_modified : Number.number;
  api_endpoints_added : Number.number;
  api_endpoints_removed : Number.number;
  database_tables_modified : Number.number;
  database_tables_added : Number.number;
  database_tables_removed : Number.number;
  risk_level : RiskLevel;
  breaking_changes : bool;
  key_findings : list string
}.

(** [ApiChange.details] *)
Record ApiChangeDetails := {
  parameters_changed : option (list string);
  response_schema_changed : option bool;
  api_breaking_changes : option (list string)
}.

Record ApiChange := {
  endpoint : string;
  method : string;
  api_change_type : ChangeType;
  api_summary : string;
  api_details : option ApiChangeDetails
}.

(** [DatabaseChange.details] *)
Record DatabaseChangeDetails := {
  columns_added : option (list string);
  columns_removed : option (list string);
  columns_modified : option (list string);
  indexes_changed : option (list string)
}.

Record DatabaseChange := {
  table_name : string;
  db_change_type : ChangeType;
  db_summary : string;
  db_details : option DatabaseChangeDetails
}.

(** A member that the table lets be NULL, as the client delivers it:
    not a key of the object ([undefined] when read), [null], or a
    value. *)
Inductive Nullable (A : Type) : Type :=
| Undefined
| IsNull
| Defined (a : A).
Arguments Undefined {A}.
Arguments IsNull {A}.
Arguments Defined {A} a.

(** [raw_data] is a [Record<string, unknown>]: the members of an
    object.  The columns [api_changes] and [database_changes] of the
    table may be NULL. *)
Record AssessmentResults := {
  res_id : string;
  request_id : string;
  summary : AssessmentSummary;
  api_changes : Nullable (list ApiChange);
  database_changes : Nullable (list DatabaseChange);
  raw_data : list (string * JSON.value);
  generated_at : string
}.

End Types.

(* ================================================================== *)
(** * The backend client, as far as the pages use it *)

Module Backend.
Import Types.

(** The object handed to [.update(...)]: a partial request row.  A
    column that is [None] is absent from the object and is not written. *)
Record RequestPatch := {
  p_user_id : option string;
  p_report_type : option ReportType;
  p_current_release_id : option string;
  p_target_release_id : option string;
  p_environment : option Environment;
  p_title : option (option string);
  p_description : option (option string);
  p_status : option RequestStatus;
  p_error_message : option (option string);
  p_email_notification : option bool;
  p_inapp_notification : option bool;
  p_created_at : option string;
  p_updated_at : option string;
  p_completed_at : option (option string)
}.

Definition or_keep {A} (new : option A) (old : A) : A :=
  match new with Some x => x | None => old end.

(** What an update with patch [p] writes into one row. *)
Definition apply_patch (p : RequestPatch) (r : AssessmentRequest)
  : AssessmentRequest :=
  {| id := id r;
     user_id := or_keep (p_user_id p) (user_id r);
     report_type := or_keep (p_report_type p) (report_type r);
     current_release_id :=
       or_keep (p_current_release_id p) (current_release_id r);
     target_release_id :=
       or_keep (p_target_release_id p) (target_release_id r);
     environment := or_keep (p_environment p) (environment r);
     title := or_keep (p_title p) (title r);
     description := or_keep (p_description p) (description r);
     status := or_keep (p_status p) (status r);
     error_message := or_keep (p_error_message p) (error_message r);
     email_notification :=
       or_keep (p_email_notification p) (email_notification r);
     inapp_notification :=
       or_keep (p_inapp_notification p) (inapp_notification r);
     created_at := or_keep (p_created_at p) (created_at r);
     updated_at := or_keep (p_updated_at p) (updated_at r);
     completed_at := or_keep (p_completed_at p) (completed_at r) |}.

(** [from('assessment_requests').update(p).eq('id', i)] on the table. *)
Definition update_eq_id (p : RequestPatch) (i : string)
    (table : list AssessmentRequest) : list AssessmentRequest :=
  map (fun r => if String.eqb (id r) i then apply_patch p r else r) table.

End Backend.

(* ================================================================== *)
(** * pages/RequestDetail.tsx *)

Module RequestDetail.
Import Types Backend.

(** The [useState] cells of the component. *)
Record State := {
  request : option AssessmentRequest;
  loading : bool;
  error : string;
  toast : option string;
  cancelConfirm : bool;
  canceling : bool
}.

(** What a handler asks of the outside world. *)
Inductive Effect :=
| Update (table : string) (patch : RequestPatch) (eq_id : string)
| NavigateAfter (ms : Z) (path : string).

Definition cancel_patch : RequestPatch :=
  {| p_user_id := None; p_report_type := None;
     p_current_release_id := None; p_target_release_id := None;
     p_environment := None; p_title := None; p_description := None;
     p_status := Some Failed;
     p_error_message := Some (Some "Canceled by user");
     p_email_notification := None; p_inapp_notification := None;
     p_created_at := None; p_updated_at := None; p_completed_at := None |}.

(** [handleCancel].  [resp] is the [error] member of the backend's
    answer to the update.  The result is the state after the [finally]
    block and the effects in the order they were issued. *)
Definition handleCancel (st : State) (resp : option string)
  : State * list Effect :=
  match request st with
  | None => (st, [])
  | Some req =>
      let upd := Update "assessment_requests" cancel_patch (id req) in
      match resp with
      | None =>
          ({| request := request st; loading := loading st;
              error := error st; toast := Some "Request canceled";
              cancelConfirm := false; canceling := false |},
           [upd; NavigateAfter 1500 "/dashboard"])
      | Some _ =>
          ({| request := request st; loading := loading st;
              error := error st; toast := Some "Failed to cancel request";
              cancelConfirm := false; canceling := false |},
           [upd])
      end
  end.

(** The controls of the actions row and of the confirmation modal. *)
Inductive Control :=
| ViewResultsLink (to : string)
| ShareLinkButton
| CancelButton
| KeepRequestButton
| ConfirmCancelButton (disabled : bool).

Inductive View :=
| Skeleton
| LoadError (message : string)
| Detail (actions : list Control) (modal : list Control).

Definition actions_row (req : AssessmentRequest) : list Control :=
  let isCompleted := String.eqb (status_label (status req)) "Completed" in
  (if isCompleted
   then [ViewResultsLink ("/request/" ++ id req ++ "/results")] else [])
  ++ [ShareLinkButton]
  ++ (if String.eqb (status_label (status req)) "Queued"
         || String.eqb (status_label (status req)) "Running"
      then [CancelButton] else []).

Definition cancel_modal (st : State) : list Control :=
  if cancelConfirm st
  then [KeepRequestButton; ConfirmCancelButton (canceling st)]
  else [].

(** The component's render. *)
Definition render (st : State) : View :=
  if loading st then Skeleton
  else
    match request st with
    | None =>
        LoadError (if Js.truthy (error st) then error st
                   else "Request not found")
    | Some req =>
        if Js.truthy (error st) then LoadError (error st)
        else Detail (actions_row req) (cancel_modal st)
    end.

Definition is_cancel (c : Control) : bool :=
  match c with CancelButton => true | _ => false end.

(** Whether the cancel control is part of the rendered page. *)
Definition cancel_control_rendered (v : View) : bool :=
  match v with
  | Detail actions _ => existsb is_cancel actions
  | _ => false
  end.

(** The updates among a handler's effects. *)
Definition updates_of (es : list Effect)
  : list (string * RequestPatch * string) :=
  flat_map (fun e => match e with
                     | Update t p i => [(t, p, i)]
                     | NavigateAfter _ _ => []
                     end) es.

End RequestDetail.

(* ================================================================== *)
(** * pages/NewAssessment.tsx *)

Module NewAssessment.
Import Types.

(** The members of a DOM [File] the page reads. *)
Record File := {
  name : string;
  size : Z;
  type : string
}.

(** [reportType] is [ReportType | '']: the empty string is [None]. *)
Record FormData := {
  reportType : option ReportType;
  currentReleaseId : string;
  targetReleaseId : string;
  title : string;
  environment : Environment;
  description : string;
  emailNotification : bool;
  inappNotification : bool
}.

(** [FormErrors]: every key is optional. *)
Record FormErrors := {
  e_reportType : option string;
  e_currentReleaseId : option string;
  e_targetReleaseId : option string;
  e_title : option string;
  e_description : option string;
  e_attachments : option string
}.

Definition no_errors : FormErrors :=
  {| e_reportType := None; e_currentReleaseId := None;
     e_targetReleaseId := None; e_title := None; e_description := None;
     e_attachments := None |}.

Definition set_reportType (e : FormErrors) (m : option string) :=
  {| e_reportType := m; e_currentReleaseId := e_currentReleaseId e;
     e_targetReleaseId := e_targetReleaseId e; e_title := e_title e;
     e_description := e_description e; e_attachments := e_attachments e |}.
Definition set_currentReleaseId (e : FormErrors) (m : option string) :=
  {| e_reportType := e_reportType e; e_currentReleaseId := m;
     e_targetReleaseId := e_targetReleaseId e; e_title := e_title e;
     e_description := e_description e; e_attachments := e_attachments e |}.
Definition set_targetReleaseId (e : FormErrors) (m : option string) :=
  {| e_reportType := e_reportType e;
     e_currentReleaseId := e_currentReleaseId e;
     e_targetReleaseId := m; e_title := e_title e;
     e_description := e_description e; e_attachments := e_attachments e |}.
Definition set_title (e : FormErrors) (m : option string) :=
  {| e_reportType := e_reportType e;
     e_currentReleaseId := e_currentReleaseId e;
     e_targetReleaseId := e_targetReleaseId e; e_title := m;
     e_description := e_description e; e_attachments := e_attachments e |}.
Definition set_description (e : FormErrors) (m : option string) :=
  {| e_reportType := e_reportType e;
     e_currentReleaseId := e_currentReleaseId e;
     e_targetReleaseId := e_targetReleaseId e; e_title := e_title e;
     e_description := m; e_attachments := e_attachments e |}.
Definition set_attachments (e : FormErrors) (m : option string) :=
  {| e_reportType := e_reportType e;
     e_currentReleaseId := e_currentReleaseId e;
     e_targetReleaseId := e_targetReleaseId e; e_title := e_title e;
     e_description := e_description e; e_attachments := m |}.

Definition present {A} (o : option A) : nat :=
  match o with Some _ => 1 | None => 0 end.

(** [Object.keys(errors).length] *)
Definition keys_length (e : FormErrors) : nat :=
  present (e_reportType e) + present (e_currentReleaseId e)
  + present (e_targetReleaseId e) + present (e_title e)
  + present (e_description e) + present (e_attachments e).

(** [releases.find((r) => r.id === i)] *)
Definition find_release (releases : list Release) (i : string)
  : option Release :=
  List.find (fun r => String.eqb (rel_id r) i) releases.

Definition target_order_message : string :=
  "Target release must be newer than current release".

Definition MB : Z := 1024 * 1024.

(** [attachments.reduce((sum, file) => sum + file.size, 0)] *)
Definition totalSize (attachments : list File) : Z :=
  fold_left (fun sum file => (sum + size file)%Z) attachments 0%Z.

(** [validate]: the errors handed to [setErrors] and the returned flag. *)
Definition validate (formData : FormData) (releases : list Release)
    (attachments : list File) : FormErrors * bool :=
  let newErrors := no_errors in
  let newErrors :=
    match reportType formData with
    | None => set_reportType newErrors (Some "Please select a report type")
    | Some _ => newErrors
    end in
  let newErrors :=
    if negb (Js.truthy (currentReleaseId formData))
    then set_currentReleaseId newErrors
           (Some "Please select your current release")
    else newErrors in
  let newErrors :=
    if negb (Js.truthy (targetReleaseId formData))
    then set_targetReleaseId newErrors
           (Some "Please select a target release")
    else newErrors in
  let newErrors :=
    if Js.truthy (currentReleaseId formData)
       && Js.truthy (targetReleaseId formData)
    then
      match find_release releases (currentReleaseId formData),
            find_release releases (targetReleaseId formData) with
      | Some currentRelease, Some targetRelease =>
          if Js.string_ge (version currentRelease) (version targetRelease)
          then set_targetReleaseId newErrors (Some target_order_message)
          else newErrors
      | _, _ => newErrors
      end
    else newErrors in
  let newErrors :=
    if Js.truthy (title formData)
       && (100 <? String.length (title formData))%nat
    then set_title newErrors (Some "Title cannot exceed 100 characters")
    else newErrors in
  let newErrors :=
    if Js.truthy (description formData)
       && (1000 <? String.length (description formData))%nat
    then set_description newErrors
           (Some "Description cannot exceed 1000 characters")
    else newErrors in
  let total := totalSize attachments in
  let newErrors :=
    if (5 <? List.length attachments)%nat
    then set_attachments newErrors (Some "Maximum 5 files allowed")
    else newErrors in
  let newErrors :=
    if (50 * MB <? total)%Z
    then set_attachments newErrors
           (Some "Total file size cannot exceed 50MB")
    else newErrors in
  (newErrors, (keys_length newErrors =? 0)%nat).

Definition validTypes : list string :=
  ["application/pdf"; "text/plain"; "text/markdown"; "application/json";
   "application/xml"; "text/xml"].

(** The predicate of the [files.filter] in [handleFileChange]. *)
Definition valid_file (file : File) : bool :=
  Js.array_includes validTypes (type file) && (size file <=? 10 * MB)%Z.

Definition rejected_message : string :=
  "Some files were rejected. Only PDF, TXT, MD, JSON, XML files up to 10MB are allowed.".

(** [handleFileChange]: the new [errors] and [attachments] states, given
    the previous ones and the files of the change event. *)
Definition handleFileChange (errors : FormErrors) (attachments : list File)
    (files : list File) : FormErrors * list File :=
  let validFiles := filter valid_file files in
  let errors' :=
    if (List.length validFiles <? List.length files)%nat
    then set_attachments errors (Some rejected_message)
    else set_attachments errors None in
  (errors', (attachments ++ validFiles)%list).

(** [handleSubmit]: the [errors] state and whether the confirmation
    dialog is opened. *)
Definition handleSubmit (formData : FormData) (releases : list Release)
    (attachments : list File) (showConfirm : bool) : FormErrors * bool :=
  let (newErrors, ok) := validate formData releases attachments in
  (newErrors, if ok then true else showConfirm).

(** The row object of the request insert. *)
Record RequestInsert := {
  i_user_id : string;
  i_report_type : option ReportType;
  i_current_release_id : string;
  i_target_release_id : string;
  i_title : option string;
  i_environment : Environment;
  i_description : option string;
  i_email_notification : bool;
  i_inapp_notification : bool
}.

(** The row object of an attachment insert. *)
Record AttachmentInsert := {
  a_request_id : string;
  a_filename : string;
  a_file_path : string;
  a_file_size : Z;
  a_file_type : string
}.

Inductive Call :=
| InsertRequest (row : RequestInsert)
| StorageUpload (bucket : string) (path : string) (file : File)
| InsertAttachment (row : AttachmentInsert).

(** The answer to [insert(...).select('id').single()]: an error, with
    its message when it is an [Error] instance, or the new row's id. *)
Inductive InsertAnswer :=
| InsertFailed (message : option string)
| Inserted (new_id : string).

Inductive ToastType := success | error.

Record Outcome := {
  calls : list Call;
  toast : option (string * ToastType);
  navigate_to : option string
}.

(** [x || null] on a string *)
Definition or_null (s : string) : option string :=
  if Js.truthy s then Some s else None.

(** [`${user.id}/${data.id}/${file.name}`] *)
Definition filePath (user : AuthUser) (request_id : string) (file : File)
  : string :=
  auth_id user ++ "/" ++ request_id ++ "/" ++ name file.

(** The body of the [for (const file of attachments)] loop. *)
Definition upload_calls (user : AuthUser) (request_id : string)
    (file : File) : list Call :=
  [ StorageUpload "attachments" (filePath user request_id file) file;
    InsertAttachment
      {| a_request_id := request_id; a_filename := name file;
         a_file_path := filePath user request_id file;
         a_file_size := size file; a_file_type := type file |} ].

(** [handleConfirm].  The client reports a failed upload or attachment
    insert in its answer, which the page does not read, so only the
    answer to the request insert is an argument.  The [finally] block
    resets [submitting] and [showConfirm] in every case. *)
Definition handleConfirm (user : option AuthUser) (formData : FormData)
    (attachments : list File) (answer : InsertAnswer) : Outcome :=
  match user with
  | None => {| calls := []; toast := None; navigate_to := None |}
  | Some u =>
      let insert :=
        InsertRequest
          {| i_user_id := auth_id u;
             i_report_type := reportType formData;
             i_current_release_id := currentReleaseId formData;
             i_target_release_id := targetReleaseId formData;
             i_title := or_null (title formData);
             i_environment := environment formData;
             i_description := or_null (description formData);
             i_email_notification := emailNotification formData;
             i_inapp_notification := inappNotification formData |} in
      match answer with
      | InsertFailed m =>
          {| calls := [insert];
             toast := Some (match m with
                            | Some msg => msg
                            | None => "Failed to submit request"
                            end, error);
             navigate_to := None |}
      | Inserted new_id =>
          {| calls :=
               insert :: flat_map (upload_calls u new_id) attachments;
             toast :=
               Some ("Assessment request submitted successfully. Request #"
                     ++ Js.toUpperCase (Js.slice0 8 new_id), success);
             navigate_to := Some ("/request/" ++ new_id) |}
      end
  end.

(** The storage uploads among a list of calls: path and file. *)
Definition uploads_of (cs : list Call) : list (string * File) :=
  flat_map (fun c => match c with
                     | StorageUpload _ p f => [(p, f)]
                     | _ => []
                     end) cs.

End NewAssessment.

(* ================================================================== *)
(** * pages/Dashboard.tsx *)

Module Dashboard.
Import Types.

(** The query of [fetchData] for the request list. *)
Record Query := {
  q_table : string;
  q_select : string;
  q_order_column : string;
  q_ascending : bool
}.

Definition fetch_requests_query : Query :=
  {| q_table := "assessment_requests"; q_select := "*";
     q_order_column := "created_at"; q_ascending := false |}.

(** [req.title?.toLowerCase().includes(searchTerm.toLowerCase()) ?? false] *)
Definition title_matches (req : AssessmentRequest) (searchTerm : string)
  : bool :=
  match Types.title req with
  | None => false
  | Some t => Js.includes (Js.toLowerCase t) (Js.toLowerCase searchTerm)
  end.

Definition matchesSearch (req : AssessmentRequest) (searchTerm : string)
  : bool :=
  Js.includes (id req) searchTerm || title_matches req searchTerm.

Definition matchesStatus (req : AssessmentRequest) (statusFilter : string)
  : bool :=
  String.eqb statusFilter "all"
  || String.eqb (status_label (status req)) statusFilter.

Definition filteredRequests (requests : list AssessmentRequest)
    (searchTerm statusFilter : string) : list AssessmentRequest :=
  filter (fun req => matchesSearch req searchTerm
                     && matchesStatus req statusFilter) requests.

End Dashboard.

(* ================================================================== *)
(** * The runtime's date formatting *)

Module Runtime.

(** What the page needs of the runtime it runs in:
    [s => new Date(s).toLocaleString()], which depends on the default
    locale and on the time zone. *)
Record Locale := {
  date_toLocaleString : string -> string
}.

Fixpoint all_digits (s : string) : bool :=
  match s with
  | EmptyString => true
  | String c r =>
      (48 <=? nat_of_ascii c)%nat && (nat_of_ascii c <=? 57)%nat
      && all_digits r
  end.

Definition two_digits (s : string) : nat :=
  match s with
  | String a (String b EmptyString) =>
      (nat_of_ascii a - 48) * 10 + (nat_of_ascii b - 48)
  | _ => 0
  end.

Definition days_in_month (y m : nat) : nat :=
  match m with
  | 2 => if ((y mod 4 =? 0) && (negb (y mod 100 =? 0) || (y mod 400 =? 0)))%nat
         then 29 else 28
  | 4 | 6 | 9 | 11 => 30
  | _ => 31
  end.

Definition four_digits (s : string) : nat :=
  two_digits (String.substring 0 2 s) * 100
  + two_digits (String.substring 2 2 s).

(** After an optional fraction of a second: a designator of the zone
    UTC, or none, which means the zone of the runtime. *)
Definition utc_suffix (s : string) : bool :=
  let z := match s with
           | String "." r =>
               (fix drop (t : string) : string :=
                  match t with
                  | String c t' =>
                      if ((48 <=? nat_of_ascii c)
                          && (nat_of_ascii c <=? 57))%nat
                      then drop t' else t
                  | EmptyString => EmptyString
                  end) r
           | _ => s
           end in
  String.eqb z "Z" || String.eqb z "+00:00" || String.eqb z "".

(** [new Date(s).toLocaleString()] in a runtime whose locale is en-GB
    and whose zone is UTC, on the ISO-8601 texts
    [YYYY-MM-DDTHH:MM:SS], an optional fraction, then [Z], [+00:00] or
    nothing, which is how the backend writes a [timestamptz].  The texts
    of other shapes are not covered: they are answered like a text that
    is not a date. *)
Definition toLocaleString_enGB_UTC (s : string) : string :=
  let year := String.substring 0 4 s in
  let month := String.substring 5 2 s in
  let day := String.substring 8 2 s in
  let hour := String.substring 11 2 s in
  let minute := String.substring 14 2 s in
  let second := String.substring 17 2 s in
  if (19 <=? String.length s)%nat
     && all_digits (year ++ month ++ day ++ hour ++ minute ++ second)
     && String.eqb (String.substring 4 1 s) "-"
     && String.eqb (String.substring 7 1 s) "-"
     && String.eqb (String.substring 10 1 s) "T"
     && String.eqb (String.substring 13 1 s) ":"
     && String.eqb (String.substring 16 1 s) ":"
     && utc_suffix (String.substring 19 (String.length s - 19) s)
     && (1 <=? two_digits month)%nat && (two_digits month <=? 12)%nat
     && (1 <=? two_digits day)%nat
     && (two_digits day
         <=? days_in_month (four_digits year) (two_digits month))%nat
     && (two_digits hour <=? 23)%nat && (two_digits minute <=? 59)%nat
     && (two_digits second <=? 59)%nat
  then day ++ "/" ++ month ++ "/" ++ year ++ ", "
       ++ hour ++ ":" ++ minute ++ ":" ++ second
  else "Invalid Date".

Definition enGB_UTC : Locale :=
  {| date_toLocaleString := toLocaleString_enGB_UTC |}.

End Runtime.

(* ================================================================== *)
(** * pages/Results.tsx *)

Module Results.
Import Types.

(** ** The object behind an [AssessmentResults] value

    A member that is [undefined] is not a key of the object.  The keys
    come in the order of the interface, which is the order of the
    columns of the table. *)

Definition optional {A} (k : string) (enc : A -> JSON.value)
    (o : option A) : list (string * JSON.value) :=
  match o with
  | Some x => [(k, enc x)]
  | None => []
  end.

Definition nullable {A} (k : string) (enc : A -> JSON.value)
    (o : Nullable A) : list (string * JSON.value) :=
  match o with
  | Undefined => []
  | IsNull => [(k, JSON.Null)]
  | Defined x => [(k, enc x)]
  end.

Definition strings (l : list string) : JSON.value :=
  JSON.Array (map JSON.Str l).

Definition summary_object (m : AssessmentSummary) : JSON.value :=
  JSON.Object
    [ ("api_endpoints_modified", JSON.Number (api_endpoints_modified m));
      ("api_endpoints_added", JSON.Number (api_endpoints_added m));
      ("api_endpoints_removed", JSON.Number (api_endpoints_removed m));
      ("database_tables_modified",
       JSON.Number (database_tables_modified m));
      ("database_tables_added", JSON.Number (database_tables_added m));
      ("database_tables_removed", JSON.Number (database_tables_removed m));
      ("risk_level", JSON.Str (risk_level_label (risk_level m)));
      ("breaking_changes", JSON.Bool (breaking_changes m));
      ("key_findings", strings (key_findings m)) ].

Definition api_details_object (d : ApiChangeDetails) : JSON.value :=
  JSON.Object
    (optional "parameters_changed" strings (parameters_changed d)
     ++ optional "response_schema_changed" JSON.Bool
          (response_schema_changed d)
     ++ optional "breaking_changes" strings (api_breaking_changes d)).

Definition api_change_object (c : ApiChange) : JSON.value :=
  JSON.Object
    ([ ("endpoint", JSON.Str (endpoint c));
       ("method", JSON.Str (method c));
       ("change_type", JSON.Str (change_type_label (api_change_type c)));
       ("summary", JSON.Str (api_summary c)) ]
     ++ optional "details" api_details_object (api_details c)).

Definition db_details_object (d : DatabaseChangeDetails) : JSON.value :=
  JSON.Object
    (optional "columns_added" strings (columns_added d)
     ++ optional "columns_removed" strings (columns_removed d)
     ++ optional "columns_modified" strings (columns_modified d)
     ++ optional "indexes_changed" strings (indexes_changed d)).

Definition db_change_object (c : DatabaseChange) : JSON.value :=
  JSON.Object
    ([ ("table_name", JSON.Str (table_name c));
       ("change_type", JSON.Str (change_type_label (db_change_type c)));
       ("summary", JSON.Str (db_summary c)) ]
     ++ optional "details" db_details_object (db_details c)).

Definition results_object (r : AssessmentResults) : JSON.value :=
  JSON.Object
    ([ ("id", JSON.Str (res_id r));
       ("request_id", JSON.Str (request_id r));
       ("summary", summary_object (summary r)) ]
     ++ nullable "api_changes"
          (fun l => JSON.Array (map api_change_object l)) (api_changes r)
     ++ nullable "database_changes"
          (fun l => JSON.Array (map db_change_object l))
          (database_changes r)
     ++ [ ("raw_data", JSON.Object (raw_data r));
          ("generated_at", JSON.Str (generated_at r)) ]).

(** ** The page *)

(** A number in a template literal. *)
Definition show := Number.toString.

(** [generateMarkdown], reading the [results] and [request] states. *)
Definition generateMarkdown (rt : Runtime.Locale)
    (results : option AssessmentResults)
    (request : option AssessmentRequest) : string :=
  match results, request with
  | Some results, Some request =>
      let markdown := "# Impact Assessment Report" ++ JSON.nl ++ JSON.nl in
      let markdown :=
        markdown ++ "**Request ID:** " ++ id request ++ JSON.nl in
      let markdown :=
        markdown ++ "**Report Type:** "
        ++ report_type_label (report_type request) ++ JSON.nl in
      let markdown :=
        markdown ++ "**Generated:** "
        ++ Runtime.date_toLocaleString rt (generated_at results)
        ++ JSON.nl ++ JSON.nl in
      let markdown := markdown ++ "## Summary" ++ JSON.nl ++ JSON.nl in
      let markdown :=
        markdown ++ "- **API Endpoints Modified:** "
        ++ show (api_endpoints_modified (summary results)) ++ JSON.nl in
      let markdown :=
        markdown ++ "- **API Endpoints Added:** "
        ++ show (api_endpoints_added (summary results)) ++ JSON.nl in
      let markdown :=
        markdown ++ "- **API Endpoints Removed:** "
        ++ show (api_endpoints_removed (summary results)) ++ JSON.nl in
      let markdown :=
        markdown ++ "- **Database Tables Modified:** "
        ++ show (database_tables_modified (summary results)) ++ JSON.nl in
      let markdown :=
        markdown ++ "- **Database Tables Added:** "
        ++ show (database_tables_added (summary results)) ++ JSON.nl in
      let markdown :=
        markdown ++ "- **Database Tables Removed:** "
        ++ show (database_tables_removed (summary results)) ++ JSON.nl in
      let markdown :=
        markdown ++ "- **Risk Level:** "
        ++ risk_level_label (risk_level (summary results)) ++ JSON.nl in
      let markdown :=
        markdown ++ "- **Breaking Changes:** "
        ++ (if breaking_changes (summary results) then "Yes" else "No")
        ++ JSON.nl ++ JSON.nl in
      let markdown :=
        if (0 <? List.length (key_findings (summary results)))%nat
        then
          let markdown :=
            markdown ++ "## Key Findings" ++ JSON.nl ++ JSON.nl in
          let markdown :=
            fold_left
              (fun markdown finding =>
                 markdown ++ "- " ++ finding ++ JSON.nl)
              (key_findings (summary results)) markdown in
          markdown ++ JSON.nl
        else markdown in
      let markdown :=
        match api_changes results with
        | Defined changes =>
            if (0 <? List.length changes)%nat
            then
              let markdown :=
                markdown ++ "## API Changes" ++ JSON.nl ++ JSON.nl in
              fold_left
                (fun markdown change =>
                   let markdown :=
                     markdown ++ "### " ++ endpoint change ++ JSON.nl in
                   let markdown :=
                     markdown ++ "- **Method:** " ++ method change
                     ++ JSON.nl in
                   let markdown :=
                     markdown ++ "- **Type:** "
                     ++ change_type_label (api_change_type change)
                     ++ JSON.nl in
                   markdown ++ "- **Summary:** " ++ api_summary change
                   ++ JSON.nl ++ JSON.nl)
                changes markdown
            else markdown
        | Undefined | IsNull => markdown
        end in
      let markdown :=
        match database_changes results with
        | Defined changes =>
            if (0 <? List.length changes)%nat
            then
              let markdown :=
                markdown ++ "## Database Changes" ++ JSON.nl ++ JSON.nl in
              fold_left
                (fun markdown change =>
                   let markdown :=
                     markdown ++ "### " ++ table_name change ++ JSON.nl in
                   let markdown :=
                     markdown ++ "- **Type:** "
                     ++ change_type_label (db_change_type change)
                     ++ JSON.nl in
                   markdown ++ "- **Summary:** " ++ db_summary change
                   ++ JSON.nl ++ JSON.nl)
                changes markdown
            else markdown
        | Undefined | IsNull => markdown
        end in
      markdown
  | _, _ => ""
  end.

Inductive Format := pdf | json | markdown.

(** What [handleDownload] hands to the browser. *)
Record Download := {
  content : string;
  filename : string;
  blob_type : string
}.

(** [`assessment-${request?.id.slice(0, 8)}.`] *)
Definition filename_stem (request : option AssessmentRequest) : string :=
  "assessment-"
  ++ match request with
     | Some r => Js.slice0 8 (id r)
     | None => "undefined"
     end
  ++ ".".

(** [handleDownload]; [None] when there are no results. *)
Definition handleDownload (rt : Runtime.Locale)
    (results : option AssessmentResults)
    (request : option AssessmentRequest) (format : Format)
  : option Download :=
  match results with
  | None => None
  | Some r =>
      let filename := filename_stem request in
      let (content, filename) :=
        match format with
        | json =>
            (JSON.stringify (results_object r), filename ++ "json")
        | markdown =>
            (generateMarkdown rt results request, filename ++ "md")
        | pdf =>
            (JSON.stringify (results_object r),
             Js.replace_first "." ".json" filename)
        end in
      Some {| content := content; filename := filename;
              blob_type := "text/plain" |}
  end.

End Results.

(* ================================================================== *)
(** * Fixtures *)

Module Fixtures.
Import Types.

Definition EB20 : Release :=
  {| rel_id := "r20"; version := "EB20"; release_date := "2026-01-01";
     is_active := true; rel_created_at := "2026-01-01" |}.
Definition EB21 : Release :=
  {| rel_id := "r21"; version := "EB21"; release_date := "2026-02-01";
     is_active := true; rel_created_at := "2026-02-01" |}.

Definition request_with (i : string) (t : option string)
    (s : RequestStatus) (created : string) : AssessmentRequest :=
  {| id := i; user_id := "u1"; report_type := API;
     current_release_id := "r20"; target_release_id := "r21";
     environment := Not_Applicable; title := t; description := None;
     status := s; error_message := None; email_notification := true;
     inapp_notification := true; created_at := created;
     updated_at := created; completed_at := None |}.

Definition queued_request : AssessmentRequest :=
  request_with "12345678-aaaa" (Some "Upgrade check") Queued
               "2026-03-02T10:00:00Z".
Definition completed_request : AssessmentRequest :=
  request_with "87654321-bbbb" None Completed "2026-03-01T10:00:00Z".

Definition owner : AuthUser :=
  {| auth_id := "u1"; email := "owner@example.org";
     auth_created_at := "2026-01-01" |}.

Definition detail_state (r : AssessmentRequest) : RequestDetail.State :=
  {| RequestDetail.request := Some r; RequestDetail.loading := false;
     RequestDetail.error := ""; RequestDetail.toast := None;
     RequestDetail.cancelConfirm := true;
     RequestDetail.canceling := false |}.

Definition form (cur tgt : string) : NewAssessment.FormData :=
  {| NewAssessment.reportType := Some API;
     NewAssessment.currentReleaseId := cur;
     NewAssessment.targetReleaseId := tgt;
     NewAssessment.title := ""; NewAssessment.environment := Not_Applicable;
     NewAssessment.description := "";
     NewAssessment.emailNotification := true;
     NewAssessment.inappNotification := true |}.

Definition pdf (n : string) (bytes : Z) : NewAssessment.File :=
  {| NewAssessment.name := n; NewAssessment.size := bytes;
     NewAssessment.type := "application/pdf" |}.

Definition sample_summary : AssessmentSummary :=
  {| api_endpoints_modified := Number.of_Z 3;
     api_endpoints_added := Number.of_Z 1;
     api_endpoints_removed := Number.of_Z 1;
     database_tables_modified := Number.of_Z 3;
     database_tables_added := Number.of_Z 1;
     database_tables_removed := Number.of_Z 1;
     risk_level := Medium; breaking_changes := true;
     key_findings := ["Endpoint /api/v1/auth/token has been removed."] |}.

Definition results : AssessmentResults :=
  {| res_id := "12345678-1234"; request_id := "87654321-bbbb";
     summary := sample_summary;
     api_changes :=
       Defined [ {| endpoint := "/api/v2/users/{id}"; method := "GET";
                 api_change_type := Modified;
                 api_summary := "Added a query parameter";
                 api_details :=
                   Some {| parameters_changed := Some ["includeMetadata"];
                           response_schema_changed := Some true;
                           api_breaking_changes := Some [] |} |} ];
     database_changes :=
       Defined [ {| table_name := "old_reports"; db_change_type := Removed;
                 db_summary := "Deprecated table removed";
                 db_details := None |} ];
     raw_data :=
       [ ("engine", JSON.Str "v1");
         ("duration_ms", JSON.Number (Number.of_Z 5120));
         ("coverage", JSON.Number (Number.Finite false 875 (-3))) ];
     generated_at := "2026-01-01T17:43:10.123456+00:00" |}.

(** A result whose list columns are NULL, with the given raw data. *)
Definition results_of_raw (members : list (string * JSON.value))
  : AssessmentResults :=
  {| res_id := "12345678-1234"; request_id := "87654321-bbbb";
     summary := sample_summary;
     api_changes := IsNull;
     database_changes := IsNull;
     raw_data := members;
     generated_at := "2026-01-01T17:43:10.123456+00:00" |}.

(** Raw data with a number beyond the range of the runtime's numbers: a
    text such as [1e999] in the backend's answer is read as
    [Infinity]. *)
Definition overflowing_results : AssessmentResults :=
  results_of_raw [("peak", JSON.Number (Number.Infinity false))].

(** Raw data with negative zero, as read from the text [-0]. *)
Definition negative_zero_results : AssessmentResults :=
  results_of_raw [("drift", JSON.Number (Number.Zero true))].
End Fixtures.

(* ================================================================== *)
(** * Vocabulary of the statements *)

Module Spec.
Import Types.

(** [t] occurs in [s]. *)
Definition occurs (t s : string) : Prop :=
  exists a b, s = a ++ t ++ b.

(** [m'] is [m] with more text after it. *)
Definition extends (m m' : string) : Prop := exists t, m' = m ++ t.

(** Every column but [status] and [error_message] agrees. *)
Definition same_but_status_and_message (r r' : AssessmentRequest) : Prop :=
  id r' = id r /\ user_id r' = user_id r
  /\ report_type r' = report_type r
  /\ current_release_id r' = current_release_id r
  /\ target_release_id r' = target_release_id r
  /\ environment r' = environment r
  /\ title r' = title r /\ description r' = description r
  /\ email_notification r' = email_notification r
  /\ inapp_notification r' = inapp_notification r
  /\ created_at r' = created_at r /\ updated_at r' = updated_at r
  /\ completed_at r' = completed_at r.

(** Sum of the sizes of a list of files. *)
Definition sum_sizes (fs : list NewAssessment.File) : Z :=
  fold_right (fun f acc => (NewAssessment.size f + acc)%Z) 0%Z fs.

(** ISO-8601 instants of one zone and one precision are ordered as
    their texts are. *)
Definition not_older (a b : AssessmentRequest) : Prop :=
  String.leb (created_at b) (created_at a) = true.

End Spec.

(* ================================================================== *)
(** * More of the runtime: arrays and [Map] *)

Module JsArray.

(** [a.filter((x, i) => p(x, i))], the index counted from [i]. *)
Fixpoint filter_from {A} (p : A -> nat -> bool) (i : nat) (a : list A)
  : list A :=
  match a with
  | [] => []
  | x :: a' =>
      if p x i then x :: filter_from p (S i) a' else filter_from p (S i) a'
  end.

Definition filter_indexed {A} (p : A -> nat -> bool) (a : list A) : list A :=
  filter_from p 0 a.

(** [m.set(k, v)] on the entries of a [Map], kept in insertion order: a
    key already present keeps its place and takes the new value. *)
Fixpoint Map_set {A} (k : string) (v : A) (m : list (string * A))
  : list (string * A) :=
  match m with
  | [] => [(k, v)]
  | (k', v') :: m' =>
      if String.eqb k' k then (k', v) :: m' else (k', v') :: Map_set k v m'
  end.

(** [new Map(entries)] *)
Definition Map_of {A} (entries : list (string * A)) : list (string * A) :=
  fold_left (fun m e => Map_set (fst e) (snd e) m) entries [].

(** [m.get(k)] *)
Definition Map_get {A} (k : string) (m : list (string * A)) : option A :=
  option_map snd (List.find (fun e => String.eqb (fst e) k) m).

(** Some code unit of [s] satisfies [p]. *)
Fixpoint some_unit (p : ascii -> bool) (s : string) : bool :=
  match s with
  | EmptyString => false
  | String c s' => p c || some_unit p s'
  end.

(** The letters [A] to [Z]. *)
Definition is_upper (c : ascii) : bool :=
  ((65 <=? nat_of_ascii c) && (nat_of_ascii c <=? 90))%nat.

(** The letters [a] to [z]. *)
Definition is_lower (c : ascii) : bool :=
  ((97 <=? nat_of_ascii c) && (nat_of_ascii c <=? 122))%nat.

End JsArray.

(* ================================================================== *)
(** * pages/NewAssessment.tsx: the handlers of the form *)

Module NewAssessmentForm.
Import Types NewAssessment.

(** [removeAttachment]: [prev.filter((_, i) => i !== index)] *)
Definition removeAttachment (index : nat) (prev : list File) : list File :=
  JsArray.filter_indexed (fun _ i => negb (i =? index)%nat) prev.

(** [{ ...prev, reportType: v }] *)
Definition onReportTypeChange (prev : FormData) (v : ReportType) : FormData :=
  {| reportType := Some v;
     currentReleaseId := currentReleaseId prev;
     targetReleaseId := targetReleaseId prev;
     title := title prev; environment := environment prev;
     description := description prev;
     emailNotification := emailNotification prev;
     inappNotification := inappNotification prev |}.

(** [{ ...prev, currentReleaseId: v, targetReleaseId: '' }] *)
Definition onCurrentReleaseChange (prev : FormData) (v : string) : FormData :=
  {| reportType := reportType prev;
     currentReleaseId := v;
     targetReleaseId := "";
     title := title prev; environment := environment prev;
     description := description prev;
     emailNotification := emailNotification prev;
     inappNotification := inappNotification prev |}.

(** [{ ...prev, targetReleaseId: v }] *)
Definition onTargetReleaseChange (prev : FormData) (v : string) : FormData :=
  {| reportType := reportType prev;
     currentReleaseId := currentReleaseId prev;
     targetReleaseId := v;
     title := title prev; environment := environment prev;
     description := description prev;
     emailNotification := emailNotification prev;
     inappNotification := inappNotification prev |}.



(** [a > b] on strings is [b < a]. *)
Definition string_gt (a b : string) : bool := Js.string_lt b a.

(** [availableTargets]: the options of the target select. *)
Definition availableTargets (formData : FormData) (releases : list Release)
  : list Release :=
  let currentRelease := find_release releases (currentReleaseId formData) in
  filter
    (fun r =>
       negb (Js.truthy (currentReleaseId formData))
       || match currentRelease with
          | None => true
          | Some c => string_gt (version r) (version c)
          end)
    releases.


End NewAssessmentForm.

(* ================================================================== *)
(** * pages/RequestDetail.tsx: loading, live updates, notices *)

Module RequestDetailPage.
Import Types RequestDetail.

Record Attachment := {
  att_id : string;
  att_request_id : string;
  filename : string;
  file_path : string;
  file_size : Z;
  file_type : string;
  uploaded_at : string
}.

(** The answer of the client to a query: the data, or an error, with
    its message when the error is an [Error] instance. *)
Inductive Answer (A : Type) :=
| Data (d : A)
| Failure (message : option string).
Arguments Data {A} d.
Arguments Failure {A} message.

(** [err instanceof Error ? err.message : fallback] *)
Definition failure_text (message : option string) (fallback : string)
  : string :=
  match message with
  | Some m => m
  | None => fallback
  end.

(** The component's state with the two cells the cancellation does not
    touch. *)
Record Page := {
  state : State;
  releases : list (string * Release);
  attachments : list Attachment
}.

Inductive Query :=
| SelectRequest (eq_id : string)
| SelectReleases
| SelectAttachments (eq_request_id : string).

Definition with_load (st : State) (r : option AssessmentRequest)
    (l : bool) (e : string) : State :=
  {| request := r; loading := l; error := e; toast := toast st;
     cancelConfirm := cancelConfirm st; canceling := canceling st |}.

(** [fetchData] of the effect, for the route parameter [id]: the state
    after the [finally] block and the queries issued.  A query is issued
    only when the one before it succeeded; the data of a list query may
    be [null]. *)
Definition fetchData (i : string) (p : Page)
    (requestAnswer : Answer AssessmentRequest)
    (releasesAnswer : Answer (option (list Release)))
    (attachmentsAnswer : Answer (option (list Attachment)))
  : Page * list Query :=
  let fallback := "Failed to load request" in
  match requestAnswer with
  | Failure m =>
      ({| state := with_load (state p) (request (state p)) false
                     (failure_text m fallback);
          releases := releases p; attachments := attachments p |},
       [SelectRequest i])
  | Data requestData =>
      match releasesAnswer with
      | Failure m =>
          ({| state := with_load (state p) (Some requestData) false
                         (failure_text m fallback);
              releases := releases p; attachments := attachments p |},
           [SelectRequest i; SelectReleases])
      | Data releasesData =>
          let releaseMap :=
            JsArray.Map_of
              (map (fun r => (rel_id r, r))
                   (match releasesData with Some l => l | None => [] end)) in
          match attachmentsAnswer with
          | Failure m =>
              ({| state := with_load (state p) (Some requestData) false
                             (failure_text m fallback);
                  releases := releaseMap; attachments := attachments p |},
               [SelectRequest i; SelectReleases; SelectAttachments i])
          | Data attachmentsData =>
              ({| state := with_load (state p) (Some requestData) false "";
                  releases := releaseMap;
                  attachments :=
                    match attachmentsData with Some l => l | None => [] end |},
               [SelectRequest i; SelectReleases; SelectAttachments i])
          end
      end
  end.

(** The callback of the subscription: [setRequest(payload.new)]. *)
Definition on_update (st : State) (new : AssessmentRequest) : State :=
  {| request := Some new; loading := loading st; error := error st;
     toast := toast st; cancelConfirm := cancelConfirm st;
     canceling := canceling st |}.

(** [isFailed && request.error_message]: the text of the failure box,
    [None] when the box is not rendered. *)
Definition failure_notice (req : AssessmentRequest) : option string :=
  if String.eqb (status_label (status req)) "Failed"
  then match error_message req with
       | Some m => if Js.truthy m then Some m else None
       | None => None
       end
  else None.

(** [releases.get(id)?.version || '?'] *)
Definition release_label (releases : list (string * Release)) (i : string)
  : string :=
  match JsArray.Map_get i releases with
  | Some r => if Js.truthy (version r) then version r else "?"
  | None => "?"
  end.

Definition is_results_link (c : Control) : bool :=
  match c with ViewResultsLink _ => true | _ => false end.

Definition is_confirm (c : Control) : bool :=
  match c with ConfirmCancelButton _ => true | _ => false end.

(** Whether the link to the results is part of the rendered page. *)
Definition results_link_rendered (v : View) : bool :=
  match v with
  | Detail actions _ => existsb is_results_link actions
  | _ => false
  end.

(** Whether the button that calls [handleCancel] is part of the rendered
    page. *)
Definition confirm_button_rendered (v : View) : bool :=
  match v with
  | Detail _ modal => existsb is_confirm modal
  | _ => false
  end.

End RequestDetailPage.

(* ================================================================== *)
(** * pages/Results.tsx: loading, change filters, raw data *)

Module ResultsPage.
Import Types.
Import RequestDetailPage.

Record State := {
  request : option AssessmentRequest;
  results : option AssessmentResults;
  releases : list (string * Release);
  loading : bool;
  error : string
}.

Inductive Query :=
| SelectRequest (eq_id : string)
| SelectResults (eq_request_id : string)
| SelectReleases.

(** [fetchData] of the effect, for the route parameter [id]. *)
Definition fetchData (i : string) (st : State)
    (requestAnswer : Answer AssessmentRequest)
    (resultsAnswer : Answer AssessmentResults)
    (releasesAnswer : Answer (option (list Release)))
  : State * list Query :=
  let fallback := "Failed to load results" in
  match requestAnswer with
  | Failure m =>
      ({| request := request st; results := results st;
          releases := releases st; loading := false;
          error := failure_text m fallback |},
       [SelectRequest i])
  | Data requestData =>
      match resultsAnswer with
      | Failure m =>
          ({| request := Some requestData; results := results st;
              releases := releases st; loading := false;
              error := failure_text m fallback |},
           [SelectRequest i; SelectResults i])
      | Data resultsData =>
          match releasesAnswer with
          | Failure m =>
              ({| request := Some requestData; results := Some resultsData;
                  releases := releases st; loading := false;
                  error := failure_text m fallback |},
               [SelectRequest i; SelectResults i; SelectReleases])
          | Data releasesData =>
              ({| request := Some requestData; results := Some resultsData;
                  releases :=
                    JsArray.Map_of
                      (map (fun r => (rel_id r, r))
                           (match releasesData with
                            | Some l => l
                            | None => []
                            end));
                  loading := false; error := "" |},
               [SelectRequest i; SelectResults i; SelectReleases])
          end
      end
  end.


Inductive View :=
| Skeleton
| NotAvailable (message : string)
| Report (r : AssessmentResults).

(** The branches of the component's render before the report. *)
Definition render (st : State) : View :=
  if loading st then Skeleton
  else
    match results st with
    | None =>
        NotAvailable (if Js.truthy (error st) then error st
                      else "Report not found")
    | Some r =>
        if Js.truthy (error st) then NotAvailable (error st) else Report r
    end.




(** [JSON.stringify(results.raw_data, null, 2)]: the text of the raw
    data tab and what its copy button puts on the clipboard. *)
Definition raw_text (results : AssessmentResults) : string :=
  JSON.stringify (JSON.Object (raw_data results)).

End ResultsPage.

(* ================================================================== *)
(** * The sections of the Markdown report *)

Module Report.
Import Types.

Definition line (label value : string) : string :=
  label ++ value ++ JSON.nl.

Definition header (rt : Runtime.Locale) (r : AssessmentResults)
    (q : AssessmentRequest) : string :=
  "# Impact Assessment Report" ++ JSON.nl ++ JSON.nl
  ++ line "**Request ID:** " (id q)
  ++ line "**Report Type:** " (report_type_label (report_type q))
  ++ line "**Generated:** "
       (Runtime.date_toLocaleString rt (generated_at r))
  ++ JSON.nl.

Definition summary_section (m : AssessmentSummary) : string :=
  "## Summary" ++ JSON.nl ++ JSON.nl
  ++ line "- **API Endpoints Modified:** "
       (Number.toString (api_endpoints_modified m))
  ++ line "- **API Endpoints Added:** "
       (Number.toString (api_endpoints_added m))
  ++ line "- **API Endpoints Removed:** "
       (Number.toString (api_endpoints_removed m))
  ++ line "- **Database Tables Modified:** "
       (Number.toString (database_tables_modified m))
  ++ line "- **Database Tables Added:** "
       (Number.toString (database_tables_added m))
  ++ line "- **Database Tables Removed:** "
       (Number.toString (database_tables_removed m))
  ++ line "- **Risk Level:** " (risk_level_label (risk_level m))
  ++ line "- **Breaking Changes:** "
       (if breaking_changes m then "Yes" else "No")
  ++ JSON.nl.

(** The texts of a list, one after the other. *)
Definition texts {A} (f : A -> string) (l : list A) : string :=
  fold_right (fun x acc => f x ++ acc) "" l.

Definition findings_section (findings : list string) : string :=
  match findings with
  | [] => ""
  | _ :: _ =>
      "## Key Findings" ++ JSON.nl ++ JSON.nl
      ++ texts (line "- ") findings ++ JSON.nl
  end.

Definition api_entry (c : ApiChange) : string :=
  line "### " (endpoint c)
  ++ line "- **Method:** " (method c)
  ++ line "- **Type:** " (change_type_label (api_change_type c))
  ++ line "- **Summary:** " (api_summary c) ++ JSON.nl.

Definition api_section (changes : Nullable (list ApiChange)) : string :=
  match changes with
  | Defined (c :: l) =>
      "## API Changes" ++ JSON.nl ++ JSON.nl ++ texts api_entry (c :: l)
  | _ => ""
  end.

Definition db_entry (c : DatabaseChange) : string :=
  line "### " (table_name c)
  ++ line "- **Type:** " (change_type_label (db_change_type c))
  ++ line "- **Summary:** " (db_summary c) ++ JSON.nl.

Definition db_section (changes : Nullable (list DatabaseChange))
  : string :=
  match changes with
  | Defined (c :: l) =>
      "## Database Changes" ++ JSON.nl ++ JSON.nl ++ texts db_entry (c :: l)
  | _ => ""
  end.

End Report.

(* ================================================================== *)
(** * pages/Login.tsx *)

Module Login.

Record State := {
  email : string;
  password : string;
  confirmPassword : string;
  showPassword : bool;
  error : string;
  loading : bool;
  isSignup : bool
}.

Inductive Effect :=
| SignUp (email password : string)
| SignIn (email password : string)
| Navigate (path : string).

(** What [signUp] or [signIn] of the auth context does: it returns, or
    throws the client's error, whose message is known when the error is
    an [Error] instance. *)
Inductive AuthAnswer :=
| Resolved
| Thrown (message : option string).

Definition failed (st : State) (message : string) : State :=
  {| email := email st; password := password st;
     confirmPassword := confirmPassword st;
     showPassword := showPassword st;
     error := message; loading := false; isSignup := isSignup st |}.

(** [handleSubmit]: the state once the handler has run and the effects
    in the order they were issued.  [answer] is read only when the
    handler reaches the call of the auth context. *)
Definition handleSubmit (st : State) (answer : AuthAnswer)
  : State * list Effect :=
  if negb (Js.truthy (email st)) || negb (Js.truthy (password st))
  then (failed st "Email and password are required", [])
  else if isSignup st then
    if negb (String.eqb (password st) (confirmPassword st))
    then (failed st "Passwords do not match", [])
    else if (String.length (password st) <? 8)%nat
    then (failed st "Password must be at least 8 characters", [])
    else
      match answer with
      | Resolved =>
          ({| email := ""; password := ""; confirmPassword := "";
              showPassword := showPassword st;
              error := "Account created! You can now log in.";
              loading := true; isSignup := false |},
           [SignUp (email st) (password st)])
      | Thrown m =>
          (failed st
             (match m with
              | Some msg => msg
              | None => "Failed to create account. Email may already exist."
              end),
           [SignUp (email st) (password st)])
      end
  else
    match answer with
    | Resolved =>
        ({| email := email st; password := password st;
            confirmPassword := confirmPassword st;
            showPassword := showPassword st;
            error := ""; loading := true; isSignup := isSignup st |},
         [SignIn (email st) (password st); Navigate "/dashboard"])
    | Thrown m =>
        (failed st
           (match m with
            | Some msg => msg
            | None => "Invalid email or password. Please try again."
            end),
         [SignIn (email st) (password st)])
    end.

(** The calls of the auth context among a handler's effects. *)
Definition auth_calls (es : list Effect) : list Effect :=
  filter (fun e => match e with Navigate _ => false | _ => true end) es.

(** [disabled={loading}] on the inputs, the submit button and the mode
    switch. *)
Definition form_disabled (st : State) : bool := loading st.

End Login.

(* ================================================================== *)
(** * context/AuthContext.tsx *)

Module AuthContext.
Import Types.



Record State := {
  user : option AuthUser;
  loading : bool
}.






End AuthContext.

(* ================================================================== *)
(** * More fixtures *)

Module MoreFixtures.
Import Types.

Definition lowercase_request : AssessmentRequest :=
  Fixtures.request_with "1a2b3c4d-5e6f" None Queued "2026-03-03T10:00:00Z".

Definition txt (n : string) (bytes : Z) : NewAssessment.File :=
  {| NewAssessment.name := n; NewAssessment.size := bytes;
     NewAssessment.type := "text/plain" |}.

Definition signup_state : Login.State :=
  {| Login.email := "owner@example.org"; Login.password := "correct horse";
     Login.confirmPassword := "correct horse"; Login.showPassword := false;
     Login.error := ""; Login.loading := false; Login.isSignup := true |}.

End MoreFixtures.

(* ================================================================== *)
(** * Properties *)

Section RequestDetailFacts.
Import Types Backend RequestDetail.

(** C1.  On every request shown by the detail page (loaded, no load
    error) the cancel control is rendered exactly when the status is
    Queued or Running; on Completed and on Failed it is not rendered. *)
Theorem cancel_control_iff_active (st : State) (req : AssessmentRequest)
    (Hloaded : loading st = false)
    (Hok : error st = "")
    (Hreq : request st = Some req) :
  (cancel_control_rendered (render st) = true
     <-> status req = Queued \/ status req = Running)
  /\ (status req = Completed \/ status req = Failed
      -> cancel_control_rendered (render st) = false).
Proof.
  unfold render. rewrite Hloaded, Hreq, Hok. cbn.
  unfold actions_row.
  destruct (status req); cbn; split;
    try (split; [discriminate || auto | intros [H|H]; discriminate || auto]);
    try (intros [H|H]; discriminate || reflexivity).
Qed.

Lemma cancel_control_iff_active_witness :
  loading (Fixtures.detail_state Fixtures.queued_request) = false
  /\ error (Fixtures.detail_state Fixtures.queued_request) = ""
  /\ cancel_control_rendered
       (render (Fixtures.detail_state Fixtures.queued_request)) = true.
Proof.
  split; [reflexivity | split; [reflexivity |]].
  apply (cancel_control_iff_active
           (Fixtures.detail_state Fixtures.queued_request)
           Fixtures.queued_request eq_refl eq_refl eq_refl).
  left; reflexivity.
Defined.

Lemma apply_cancel_patch (row : AssessmentRequest) :
  status (apply_patch cancel_patch row) = Failed
  /\ error_message (apply_patch cancel_patch row) = Some "Canceled by user"
  /\ Spec.same_but_status_and_message row (apply_patch cancel_patch row).
Proof. unfold Spec.same_but_status_and_message; cbn; intuition. Qed.

Lemma handleCancel_updates (st : State) (req : AssessmentRequest)
    (resp : option string) :
  request st = Some req ->
  updates_of (snd (handleCancel st resp))
  = [("assessment_requests", cancel_patch, id req)].
Proof.
  intros H. unfold handleCancel. rewrite H. destruct resp; reflexivity.
Qed.

(** C2.  A confirmed cancellation issues exactly one update, on the row
    whose id is the request's; it sets status to Failed and
    error_message to "Canceled by user"; every other column of that row
    keeps its value and every other row is left as it is. *)
Theorem cancel_update_frame (st : State) (req : AssessmentRequest)
    (resp : option string) (Hreq : request st = Some req) :
  updates_of (snd (handleCancel st resp))
  = [("assessment_requests", cancel_patch, id req)]
  /\ forall table : list AssessmentRequest,
       Forall2
         (fun row row' =>
            (id row = id req ->
               status row' = Failed
               /\ error_message row' = Some "Canceled by user"
               /\ Spec.same_but_status_and_message row row')
            /\ (id row <> id req -> row' = row))
         table (update_eq_id cancel_patch (id req) table).
Proof.
  split; [now apply handleCancel_updates|].
  induction table as [|row table IH]; cbn; constructor; auto.
  destruct (String.eqb_spec (id row) (id req)) as [E|E]; split; intros H;
    try contradiction; auto using apply_cancel_patch.
Qed.

Lemma cancel_update_frame_witness :
  request (Fixtures.detail_state Fixtures.queued_request)
  = Some Fixtures.queued_request
  /\ updates_of
       (snd (handleCancel (Fixtures.detail_state Fixtures.queued_request)
                          None))
     = [("assessment_requests", cancel_patch, "12345678-aaaa")].
Proof.
  split; [reflexivity|].
  apply (cancel_update_frame
           (Fixtures.detail_state Fixtures.queued_request)
           Fixtures.queued_request None eq_refl).
Defined.

(** C10.  The handler never looks at the status: on every loaded
    request, Completed and Failed included, it issues the update that
    sets status to Failed and error_message to "Canceled by user"; its
    effects are the same for any two loaded requests of equal id; and on
    a Completed or Failed request the page does not render the cancel
    control although the handler would still issue the update. *)
Theorem handleCancel_ignores_status (st : State) (req : AssessmentRequest)
    (resp : option string) (Hreq : request st = Some req) :
  updates_of (snd (handleCancel st resp))
  = [("assessment_requests", cancel_patch, id req)]
  /\ p_status cancel_patch = Some Failed
  /\ p_error_message cancel_patch = Some (Some "Canceled by user")
  /\ (forall st' req',
        request st' = Some req' -> id req' = id req ->
        snd (handleCancel st' resp) = snd (handleCancel st resp))
  /\ (loading st = false -> error st = "" ->
      status req = Completed \/ status req = Failed ->
      cancel_control_rendered (render st) = false).
Proof.
  split; [now apply handleCancel_updates|].
  split; [reflexivity|]. split; [reflexivity|]. split.
  - intros st' req' H' E. unfold handleCancel. rewrite H', Hreq, E.
    destruct resp; reflexivity.
  - intros Hl He Hs. unfold render. rewrite Hl, Hreq, He. cbn.
    unfold actions_row. destruct Hs as [Hs|Hs]; rewrite Hs; reflexivity.
Qed.

Lemma handleCancel_ignores_status_witness :
  request (Fixtures.detail_state Fixtures.completed_request)
  = Some Fixtures.completed_request
  /\ updates_of
       (snd (handleCancel
               (Fixtures.detail_state Fixtures.completed_request) None))
     = [("assessment_requests", cancel_patch, "87654321-bbbb")]
  /\ cancel_control_rendered
       (render (Fixtures.detail_state Fixtures.completed_request)) = false.
Proof.
  split; [reflexivity|].
  pose proof (handleCancel_ignores_status
                (Fixtures.detail_state Fixtures.completed_request)
                Fixtures.completed_request None eq_refl) as H.
  split; [apply H|].
  apply H; [reflexivity | reflexivity | left; reflexivity].
Defined.

End RequestDetailFacts.

(** Case analysis on every condition a goal branches on. *)
Ltac break_branches :=
  repeat match goal with
         | |- context [if ?c then _ else _] => destruct c
         | |- context [match ?c with Some _ => _ | None => _ end] => destruct c
         end.

Section NewAssessmentFacts.
Import Types NewAssessment.

Lemma string_ge_leb (a b : string) :
  Js.string_ge a b = String.leb b a.
Proof.
  unfold Js.string_ge, Js.string_lt, String.leb.
  rewrite (String.compare_antisym a b).
  destruct (String.compare b a); reflexivity.
Qed.

Lemma truthy_nonempty (s : string) : s <> "" -> Js.truthy s = true.
Proof.
  intros H. unfold Js.truthy. destruct (String.eqb_spec s ""); easy.
Qed.

Lemma keys_length_target (e : FormErrors) (m : string) :
  e_targetReleaseId e = Some m -> (keys_length e =? 0)%nat = false.
Proof.
  intros H. unfold keys_length. rewrite H. cbn.
  apply Nat.eqb_neq. lia.
Qed.

(** C3.  With both releases selected, validation puts the
    target-ordering message on the target field, and so rejects the
    form, exactly when the current version is lexically greater than or
    equal to the target version; "EB21" against "EB20" is rejected and
    "EB20" against "EB21" is not. *)
Theorem target_order_rule (formData : FormData) (releases : list Release)
    (attachments : list File) (cur tgt : Release)
    (Hcur : currentReleaseId formData <> "")
    (Htgt : targetReleaseId formData <> "")
    (Hfc : find_release releases (currentReleaseId formData) = Some cur)
    (Hft : find_release releases (targetReleaseId formData) = Some tgt) :
  (e_targetReleaseId (fst (validate formData releases attachments))
   = Some target_order_message
   <-> String.leb (version tgt) (version cur) = true)
  /\ (String.leb (version tgt) (version cur) = true ->
      snd (validate formData releases attachments) = false)
  /\ (String.leb (version tgt) (version cur) = false ->
      e_targetReleaseId (fst (validate formData releases attachments))
      = None)
  /\ String.leb "EB20" "EB21" = true
  /\ String.leb "EB21" "EB20" = false.
Proof.
  assert (E : e_targetReleaseId (fst (validate formData releases attachments))
              = if String.leb (version tgt) (version cur)
                then Some target_order_message else None).
  { unfold validate.
    rewrite (truthy_nonempty _ Hcur), (truthy_nonempty _ Htgt), Hfc, Hft.
    rewrite string_ge_leb. cbn [negb andb].
    destruct (reportType formData), (String.leb (version tgt) (version cur)),
      (Js.truthy (title formData) && (100 <? String.length (title formData))%nat),
      (Js.truthy (description formData)
       && (1000 <? String.length (description formData))%nat),
      (5 <? Datatypes.length attachments)%nat,
      (50 * MB <? totalSize attachments)%Z; reflexivity. }
  repeat split.
  - rewrite E. destruct (String.leb (version tgt) (version cur)); easy.
  - intros H. rewrite E, H. reflexivity.
  - intros H. rewrite H in E.
    unfold validate in *. cbn [fst snd] in *.
    now apply keys_length_target in E.
  - intros H. rewrite E, H. reflexivity.
Qed.

Lemma target_order_rule_witness :
  currentReleaseId (Fixtures.form "r21" "r20") <> ""
  /\ targetReleaseId (Fixtures.form "r21" "r20") <> ""
  /\ snd (validate (Fixtures.form "r21" "r20")
                   [Fixtures.EB21; Fixtures.EB20] []) = false.
Proof.
  split; [discriminate | split; [discriminate|]].
  apply (target_order_rule (Fixtures.form "r21" "r20")
           [Fixtures.EB21; Fixtures.EB20] [] Fixtures.EB21 Fixtures.EB20);
    try discriminate; reflexivity.
Defined.

Lemma array_includes_In (a : list string) (x : string) :
  Js.array_includes a x = true <-> In x a.
Proof.
  induction a as [|y a IH]; cbn; [easy|].
  destruct (String.eqb_spec y x) as [E|E]; [tauto|].
  rewrite IH. split; [tauto | intros [H|H]; [contradiction | exact H]].
Qed.

Lemma valid_file_iff (f : File) :
  valid_file f = true
  <-> In (type f) validTypes /\ (size f <= 10 * 1024 * 1024)%Z.
Proof.
  unfold valid_file, MB.
  rewrite andb_true_iff, array_includes_In, Z.leb_le.
  split; intros [H1 H2]; split; auto; lia.
Qed.

Lemma filter_shorter_iff {A} (p : A -> bool) (l : list A) :
  (List.length (filter p l) <? List.length l)%nat = true
  <-> exists x, In x l /\ p x = false.
Proof.
  rewrite Nat.ltb_lt.
  induction l as [|x l IH]; cbn.
  - split; [lia | intros (x & [] & _)].
  - pose proof (filter_length_le p l) as Hle.
    destruct (p x) eqn:E; cbn.
    + rewrite <- Nat.succ_lt_mono, IH.
      split; intros (y & Hy & Hp); exists y; [tauto|].
      destruct Hy as [->|Hy]; [congruence | tauto].
    + split; [intros _; exists x; tauto | lia].
Qed.

Lemma totalSize_sum (fs : list File) : totalSize fs = Spec.sum_sizes fs.
Proof.
  unfold totalSize, Spec.sum_sizes.
  assert (G : forall acc,
             fold_left (fun sum file => (sum + size file)%Z) fs acc
             = (acc + fold_right (fun f a => (size f + a)%Z) 0%Z fs)%Z).
  { induction fs as [|f fs IH]; intros acc; cbn [fold_left fold_right].
    - lia.
    - rewrite IH. lia. }
  rewrite G. lia.
Qed.

Lemma validate_attachments_error (formData : FormData)
    (releases : list Release) (attachments : list File) :
  e_attachments (fst (validate formData releases attachments))
  = if (50 * MB <? totalSize attachments)%Z
    then Some "Total file size cannot exceed 50MB"
    else if (5 <? List.length attachments)%nat
         then Some "Maximum 5 files allowed" else None.
Proof.
  unfold validate. cbn [fst].
  destruct (50 * MB <? totalSize attachments)%Z,
    (5 <? Datatypes.length attachments)%nat;
    break_branches; reflexivity.
Qed.

Lemma keys_length_attachments (e : FormErrors) (m : string) :
  e_attachments e = Some m -> (keys_length e =? 0)%nat = false.
Proof.
  intros H. unfold keys_length. rewrite H. cbn.
  apply Nat.eqb_neq. lia.
Qed.

(** C4.  A selected file joins the accepted files exactly when its MIME
    type is on the allow-list and its size is at most 10*1024*1024
    bytes; the other files are dropped and, when there is at least one
    of them, the single rejection message is put on the attachments
    field; validation returns false, and the confirmation dialog stays
    closed, whenever more than 5 files are held or their sizes sum to
    more than 50*1024*1024 bytes.  A PDF of exactly 10MB is accepted, one
    of 10.1MB is not. *)
Theorem attachment_rules (errors : FormErrors)
    (attachments files : list File) :
  (exists accepted,
      snd (handleFileChange errors attachments files)
      = (attachments ++ accepted)%list
      /\ forall f, In f accepted <->
           In f files
           /\ In (type f)
                 ["application/pdf"; "text/plain"; "text/markdown";
                  "application/json"; "application/xml"; "text/xml"]
           /\ (size f <= 10 * 1024 * 1024)%Z)
  /\ (e_attachments (fst (handleFileChange errors attachments files))
      = Some rejected_message
      <-> exists f, In f files /\ valid_file f = false)
  /\ ((forall f, In f files -> valid_file f = true) ->
      e_attachments (fst (handleFileChange errors attachments files)) = None)
  /\ (forall formData releases held,
        (5 < List.length held)%nat
        \/ (50 * 1024 * 1024 < Spec.sum_sizes held)%Z ->
        snd (validate formData releases held) = false
        /\ snd (handleSubmit formData releases held false) = false)
  /\ valid_file (Fixtures.pdf "a.pdf" (10 * 1024 * 1024)) = true
  /\ valid_file (Fixtures.pdf "b.pdf" 10590617) = false.
Proof.
  split; [|split; [|split; [|split; [|split; reflexivity]]]].
  - exists (filter valid_file files). split; [reflexivity|].
    intros f. rewrite filter_In, valid_file_iff. reflexivity.
  - unfold handleFileChange. cbn [fst].
    rewrite <- filter_shorter_iff.
    destruct (Datatypes.length (filter valid_file files)
              <? Datatypes.length files)%nat; cbn; split; easy.
  - intros Hall. unfold handleFileChange. cbn [fst].
    destruct (Datatypes.length (filter valid_file files)
              <? Datatypes.length files)%nat eqn:E; [|reflexivity].
    apply filter_shorter_iff in E. destruct E as (f & Hf & Hv).
    rewrite (Hall f Hf) in Hv. discriminate.
  - intros formData releases held Hover.
    assert (Hv : snd (validate formData releases held) = false).
    { pose proof (validate_attachments_error formData releases held) as E.
      rewrite totalSize_sum in E. unfold MB in E.
      assert (exists m, e_attachments (fst (validate formData releases held))
                        = Some m) as [m Hm].
      { rewrite E.
        destruct (50 * (1024 * 1024) <? Spec.sum_sizes held)%Z eqn:E1;
          [eauto|].
        destruct (5 <? Datatypes.length held)%nat eqn:E2; [eauto|].
        apply Z.ltb_ge in E1. apply Nat.ltb_ge in E2. lia. }
      unfold validate in *. cbn [fst snd] in *.
      exact (keys_length_attachments _ _ Hm). }
    split; [exact Hv|].
    unfold handleSubmit.
    destruct (validate formData releases held) as [e ok].
    cbn in *. rewrite Hv. reflexivity.
Qed.

Lemma uploads_of_upload_calls (u : AuthUser) (new_id : string)
    (attachments : list File) :
  uploads_of (flat_map (upload_calls u new_id) attachments)
  = map (fun f => (filePath u new_id f, f)) attachments.
Proof.
  induction attachments as [|f fs IH]; cbn; [reflexivity|].
  f_equal. exact IH.
Qed.

(** C9.  On confirm, once the request row is inserted, every accepted
    attachment is uploaded, in order, at the path made of the owner's
    id, the new request's id and the file's name joined by "/"; the
    attachment row records the same path; and nothing is uploaded when
    the insert fails. *)
Theorem upload_path_layout (u : AuthUser) (formData : FormData)
    (attachments : list File) (new_id : string) :
  uploads_of
    (calls (handleConfirm (Some u) formData attachments (Inserted new_id)))
  = map (fun f =>
           (String.concat "/" [auth_id u; new_id; name f], f)) attachments
  /\ (forall row,
        In (InsertAttachment row)
           (calls (handleConfirm (Some u) formData attachments
                                 (Inserted new_id))) ->
        a_file_path row
        = String.concat "/" [auth_id u; a_request_id row; a_filename row]
        /\ a_request_id row = new_id)
  /\ (forall m,
        uploads_of
          (calls (handleConfirm (Some u) formData attachments
                                (InsertFailed m))) = []).
Proof.
  split; [|split].
  - cbn [handleConfirm calls uploads_of flat_map app].
    change (uploads_of (flat_map (upload_calls u new_id) attachments)
            = map (fun f => (String.concat "/" [auth_id u; new_id; name f], f))
                  attachments).
    rewrite uploads_of_upload_calls. reflexivity.
  - intros row H. cbn [handleConfirm calls] in H.
    destruct H as [H|H]; [discriminate|].
    apply in_flat_map in H. destruct H as (f & _ & Hf).
    cbn in Hf. destruct Hf as [Hf|[Hf|[]]]; [discriminate|].
    injection Hf as <-. cbn. split; reflexivity.
  - intros m. reflexivity.
Qed.

End NewAssessmentFacts.

Section StringFacts.

Lemma append_assoc (a b c : string) : (a ++ b) ++ c = a ++ b ++ c.
Proof. induction a as [|x a IH]; cbn; [reflexivity | now rewrite IH]. Qed.

Lemma append_nil_r (a : string) : a ++ "" = a.
Proof. induction a as [|x a IH]; cbn; [reflexivity | now rewrite IH]. Qed.

Lemma prefix_app (t s : string) :
  String.prefix t s = true <-> exists b, s = t ++ b.
Proof.
  revert s. induction t as [|x t IH]; intros s.
  - destruct s; cbn; split; eauto.
  - destruct s as [|y s]; cbn.
    + split; [discriminate | intros (b & H); discriminate].
    + destruct (ascii_dec x y) as [->|N].
      * rewrite IH. split; intros (b & H); exists b;
          [now rewrite H | now injection H].
      * split; [discriminate | intros (b & H)].
        injection H as E _. congruence.
Qed.

Lemma occurs_cons (t : string) (c : ascii) (s : string) :
  Spec.occurs t (String c s)
  <-> (exists b, String c s = t ++ b) \/ Spec.occurs t s.
Proof.
  unfold Spec.occurs. split.
  - intros (a & b & H). destruct a as [|x a]; cbn in H.
    + left. eauto.
    + right. injection H as _ H. eauto.
  - intros [(b & H) | (a & b & H)].
    + exists "", b. exact H.
    + exists (String c a), b. cbn. now rewrite H.
Qed.

Lemma includes_occurs (s t : string) :
  Js.includes s t = true <-> Spec.occurs t s.
Proof.
  induction s as [|c s IH].
  - cbn. destruct t as [|x t]; cbn.
    + split; [intros _; exists "", ""; reflexivity | reflexivity].
    + split; [discriminate | intros (a & b & H)].
      destruct a; discriminate.
  - rewrite occurs_cons, <- IH, <- prefix_app.
    cbn [Js.includes].
    destruct (String.prefix t (String c s)); split; auto.
    intros [H|H]; [discriminate | exact H].
Qed.

End StringFacts.

Section DashboardFacts.
Import Types Dashboard.

(** C8, as stated, fails: with the search term "5678" the request of id
    "12345678-aaaa" and title "Upgrade check" is retained although the
    term is neither a prefix of the id nor found in the title. *)
Lemma listing_filter_prefix_counterexample :
  ~ (In Fixtures.queued_request
        (filteredRequests [Fixtures.queued_request;
                           Fixtures.completed_request] "5678" "all")
     <-> (String.prefix "5678" (id Fixtures.queued_request) = true
          \/ title_matches Fixtures.queued_request "5678" = true)
         /\ ("all" = "all"
             \/ status_label (status Fixtures.queued_request) = "all")).
Proof.
  intros [H _].
  assert (Hin : In Fixtures.queued_request
                   (filteredRequests [Fixtures.queued_request;
                                      Fixtures.completed_request]
                                     "5678" "all"))
    by (left; reflexivity).
  destruct (H Hin) as [[E|E] _]; discriminate E.
Qed.

Lemma StronglySorted_filter {A} (R : A -> A -> Prop) (p : A -> bool)
    (l : list A) :
  StronglySorted R l -> StronglySorted R (filter p l).
Proof.
  induction 1 as [|x l Hs IH Hx]; cbn; [constructor|].
  destruct (p x); [|exact IH].
  constructor; [exact IH|].
  apply Forall_forall. intros y Hy. apply filter_In in Hy.
  rewrite Forall_forall in Hx. now apply Hx.
Qed.

(** C8, amended.  A fetched request is retained exactly when (the search
    term occurs anywhere in its id, case-sensitively, or the lower-cased
    term occurs in its lower-cased title) and (the status filter is
    "all" or equals its status); the fetch asks for created_at
    descending and the filter keeps the fetched order, so a list fetched
    newest-first is displayed newest-first. *)
Theorem listing_filter_rule (requests : list AssessmentRequest)
    (searchTerm statusFilter : string)
    (precedes : AssessmentRequest -> AssessmentRequest -> Prop)
    (Hfetched : StronglySorted precedes requests) :
  (forall req,
      In req (filteredRequests requests searchTerm statusFilter)
      <-> In req requests
          /\ (Spec.occurs searchTerm (id req)
              \/ exists t, title req = Some t
                   /\ Spec.occurs (Js.toLowerCase searchTerm)
                                  (Js.toLowerCase t))
          /\ (statusFilter = "all"
              \/ status_label (status req) = statusFilter))
  /\ q_order_column fetch_requests_query = "created_at"
  /\ q_ascending fetch_requests_query = false
  /\ StronglySorted precedes
       (filteredRequests requests searchTerm statusFilter).
Proof.
  split; [|split; [reflexivity | split; [reflexivity|]]].
  - intros req. unfold filteredRequests, matchesSearch, matchesStatus,
      title_matches.
    rewrite filter_In, andb_true_iff, !orb_true_iff, !String.eqb_eq,
      includes_occurs.
    destruct (title req) as [t|].
    + rewrite includes_occurs. split.
      * intros (Hin & [Hs|Hs] & Hst); repeat split; eauto.
      * intros (Hin & [Hs|(t' & E & Hs)] & Hst); repeat split; auto.
        injection E as <-. auto.
    + split.
      * intros (Hin & [Hs|Hs] & Hst); [|discriminate]. repeat split; auto.
      * intros (Hin & [Hs|(t' & E & Hs)] & Hst); [|discriminate].
        repeat split; auto.
  - now apply StronglySorted_filter.
Qed.

Lemma listing_filter_rule_witness :
  StronglySorted Spec.not_older
    [Fixtures.queued_request; Fixtures.completed_request]
  /\ StronglySorted Spec.not_older
       (filteredRequests [Fixtures.queued_request;
                          Fixtures.completed_request] "5678" "all").
Proof.
  assert (H : StronglySorted Spec.not_older
                [Fixtures.queued_request; Fixtures.completed_request]).
  { repeat constructor. }
  split; [exact H|].
  apply (listing_filter_rule
           [Fixtures.queued_request; Fixtures.completed_request]
           "5678" "all" Spec.not_older H).
Defined.

End DashboardFacts.

Section NumberFacts.
Import Number.

Lemma length_append (a b : string) :
  String.length (a ++ b) = String.length a + String.length b.
Proof. induction a as [|x a IH]; cbn; [reflexivity | now rewrite IH]. Qed.

Lemma ends_number_facts (rest : string) :
  ends_number rest = true ->
  match rest with
  | EmptyString => True
  | String c _ =>
      is_digit c = false /\ Ascii.eqb c "." = false
      /\ Ascii.eqb c "e" = false /\ Ascii.eqb c "E" = false
  end.
Proof.
  destruct rest as [|c r]; cbn; [trivial|].
  intros H. apply negb_true_iff in H.
  repeat (apply orb_false_iff in H; destruct H as [H ?]). auto.
Qed.

Lemma digit_run_app (a rest : string) :
  all_digits a = true ->
  match rest with
  | EmptyString => True
  | String c _ => is_digit c = false
  end ->
  digit_run (a ++ rest) = (a, rest).
Proof.
  intros Ha Hr. induction a as [|c a IH];
    cbn [append digit_run all_digits] in *.
  - destruct rest as [|c r]; [reflexivity|].
    cbn [digit_run]. now rewrite Hr.
  - apply andb_true_iff in Ha. destruct Ha as [Hc Ha].
    now rewrite Hc, IH.
Qed.

Lemma all_digits_app (a b : string) :
  all_digits (a ++ b) = all_digits a && all_digits b.
Proof.
  induction a as [|c a IH]; cbn [append all_digits]; [reflexivity|].
  now rewrite IH, andb_assoc.
Qed.

Lemma all_digits_zeros (j : nat) : all_digits (zeros j) = true.
Proof. induction j; cbn; auto. Qed.

Lemma all_digits_uint (d : Decimal.uint) :
  all_digits (NilEmpty.string_of_uint d) = true.
Proof. induction d; cbn; auto. Qed.

Lemma split_at_app (n : nat) (ds : string) :
  fst (split_at n ds) ++ snd (split_at n ds) = ds.
Proof.
  revert ds. induction n as [|n IH]; intros [|c r]; cbn; try reflexivity.
  specialize (IH r). destruct (split_at n r). cbn in *. now rewrite IH.
Qed.

Lemma split_at_length (n : nat) (ds : string) :
  n <= String.length ds -> String.length (fst (split_at n ds)) = n.
Proof.
  revert ds. induction n as [|n IH]; intros [|c r]; cbn; intros H;
    try reflexivity; try lia.
  specialize (IH r ltac:(lia)). destruct (split_at n r). cbn in *.
  now rewrite IH.
Qed.

Lemma split_at_head (n : nat) (c : ascii) (r : string) :
  exists a, fst (split_at (S n) (String c r)) = String c a.
Proof. cbn. destruct (split_at n r). cbn. eauto. Qed.

Lemma uint_nzhead_head (d : Decimal.uint) :
  match Decimal.nzhead d with Decimal.D0 _ => False | _ => True end.
Proof. induction d; cbn; auto. Qed.

(** The digits of a positive number: there is one, and the first is
    not 0. *)
Lemma digits_of_head (s : positive) :
  exists c r, digits_of s = String c r
              /\ is_digit c = true /\ Ascii.eqb c "0" = false.
Proof.
  unfold digits_of.
  assert (E : Pos.to_uint s = Decimal.unorm (Pos.to_uint s)).
  { rewrite <- (DecimalPos.Unsigned.to_of (Pos.to_uint s)).
    rewrite DecimalPos.Unsigned.of_to. reflexivity. }
  pose proof (DecimalPos.Unsigned.to_uint_nonzero s) as Hz.
  pose proof (uint_nzhead_head (Pos.to_uint s)) as Hh.
  unfold Decimal.unorm in E.
  destruct (Decimal.nzhead (Pos.to_uint s)) eqn:N;
    try contradiction; rewrite E; try (now rewrite E in Hz);
    cbn; eexists _, _; repeat split; reflexivity.
Qed.

Lemma all_digits_digits_of (s : positive) : all_digits (digits_of s) = true.
Proof. apply all_digits_uint. Qed.

Lemma natural_digits_of (s : positive) : natural (digits_of s) = Npos s.
Proof.
  unfold natural, digits_of. rewrite NilEmpty.usu.
  apply DecimalPos.Unsigned.of_to.
Qed.

Lemma natural_zero_head (ds : string) :
  natural (String "0" ds) = natural ds.
Proof.
  unfold natural. cbn [NilEmpty.uint_of_string].
  destruct (NilEmpty.uint_of_string ds); reflexivity.
Qed.

Lemma natural_zeros (j : nat) (ds : string) :
  natural (zeros j ++ ds) = natural ds.
Proof.
  induction j as [|j IH]; cbn [zeros append]; [reflexivity|].
  now rewrite natural_zero_head.
Qed.

Lemma strip_trailing_zeros (j : nat) : strip_trailing (zeros j) = ("", j).
Proof. induction j as [|j IH]; cbn; [reflexivity | now rewrite IH]. Qed.

(** Digits that end in no zero keep none of the zeros put after
    them. *)
Lemma strip_trailing_app_zeros (ds : string) (j : nat) :
  ds <> "" -> strip_trailing ds = (ds, 0) ->
  strip_trailing (ds ++ zeros j) = (ds, j).
Proof.
  induction ds as [|c r IH]; [congruence|]. intros _ H.
  cbn [strip_trailing append] in *.
  destruct r as [|c' r'].
  - cbn [strip_trailing] in H. cbn [append].
    rewrite strip_trailing_zeros.
    destruct (Ascii.eqb c "0"); [discriminate H | reflexivity].
  - destruct (strip_trailing (String c' r')) as [core t] eqn:E.
    destruct core as [|x core].
    + destruct (Ascii.eqb c "0"); discriminate H.
    + injection H as H1 H2. subst.
      rewrite IH by (reflexivity || discriminate). reflexivity.
Qed.

(** Digits that end in no zero end in none behind other digits. *)
Lemma strip_trailing_app (a ds : string) :
  ds <> "" -> strip_trailing ds = (ds, 0) ->
  strip_trailing (a ++ ds) = (a ++ ds, 0).
Proof.
  intros Hn H. induction a as [|c a IH]; cbn [append]; [exact H|].
  cbn [strip_trailing]. rewrite IH.
  destruct (a ++ ds) eqn:E; [|reflexivity].
  destruct a; cbn in E; [contradiction | discriminate].
Qed.

Lemma strip_trailing_fixed (ds : string) :
  snd (strip_trailing ds) = 0 -> ds <> "" -> strip_trailing ds = (ds, 0).
Proof.
  induction ds as [|c r IH]; [congruence|]. intros H _.
  destruct r as [|c' r'].
  - cbn in *. destruct (Ascii.eqb c "0"); [discriminate H | reflexivity].
  - assert (IH' : strip_trailing (String c' r') = (String c' r', 0)).
    { apply IH; [|discriminate].
      change (strip_trailing (String c (String c' r')))
        with (let (core, t) := strip_trailing (String c' r') in
              match core with
              | EmptyString =>
                  if Ascii.eqb c "0" then ("", S t) else (String c "", t)
              | String _ _ => (String c core, t)
              end) in H.
      destruct (strip_trailing (String c' r')) as [core t].
      destruct core; [|exact H].
      destruct (Ascii.eqb c "0"); [discriminate H | exact H]. }
    change (strip_trailing (String c (String c' r')))
      with (let (core, t) := strip_trailing (String c' r') in
            match core with
            | EmptyString =>
                if Ascii.eqb c "0" then ("", S t) else (String c "", t)
            | String _ _ => (String c core, t)
            end).
    rewrite IH'. reflexivity.
Qed.

(** The digits of a number that does not end in 0, after any zeros,
    denote that number. *)
Lemma decimal_digits (negative : bool) (j : nat)
    (s : positive) (e : Z) :
  snd (strip_trailing (digits_of s)) = 0 ->
  decimal negative (zeros j ++ digits_of s) e = Finite negative s e.
Proof.
  intros H. destruct (digits_of_head s) as (c & r & E & _).
  assert (Hn : digits_of s <> "") by (rewrite E; discriminate).
  unfold decimal.
  rewrite (strip_trailing_app (zeros j) _ Hn (strip_trailing_fixed _ H Hn)).
  rewrite natural_zeros, natural_digits_of. f_equal. lia.
Qed.

Lemma decimal_digits_zeros (negative : bool) (j : nat)
    (s : positive) (e : Z) :
  snd (strip_trailing (digits_of s)) = 0 ->
  decimal negative (digits_of s ++ zeros j) e
  = Finite negative s (e + Z.of_nat j).
Proof.
  intros H. destruct (digits_of_head s) as (c & r & E & _).
  assert (Hn : digits_of s <> "") by (rewrite E; discriminate).
  unfold decimal.
  rewrite (strip_trailing_app_zeros _ j Hn (strip_trailing_fixed _ H Hn)).
  now rewrite natural_digits_of.
Qed.

Lemma no_digit_of_end (rest : string) :
  ends_number rest = true ->
  match rest with
  | EmptyString => True
  | String c _ => is_digit c = false
  end.
Proof.
  intros H. apply ends_number_facts in H.
  destruct rest; [trivial | tauto].
Qed.

Lemma fraction_none (rest : string) :
  match rest with
  | EmptyString => True
  | String c _ => Ascii.eqb c "." = false
  end ->
  fraction rest = Some ("", rest).
Proof.
  destruct rest as [|c r]; [reflexivity|]. cbn [fraction].
  now intros ->.
Qed.

Lemma fraction_digits (b rest : string) :
  all_digits b = true -> b <> "" ->
  match rest with
  | EmptyString => True
  | String c _ => is_digit c = false
  end ->
  fraction (String "." (b ++ rest)) = Some (b, rest).
Proof.
  intros Hb Hn Hr. cbn [fraction]. rewrite Ascii.eqb_refl.
  rewrite (digit_run_app b rest Hb Hr).
  destruct b; [contradiction | reflexivity].
Qed.

Lemma exponent_none (rest : string) :
  ends_number rest = true -> exponent rest = Some (0%Z, rest).
Proof.
  intros H. apply ends_number_facts in H.
  destruct rest as [|c r]; [reflexivity|].
  destruct H as (_ & _ & He & HE). cbn [exponent]. now rewrite He, HE.
Qed.

Lemma digits_of_integer (z : Z) :
  (0 <= z)%Z ->
  exists c r, Js.number_to_string z = String c r
              /\ is_digit c = true
              /\ all_digits (String c r) = true
              /\ natural (String c r) = Z.to_N z.
Proof.
  intros H. destruct z as [|p|p]; [| |lia].
  - exists "0"%char, "". repeat split; reflexivity.
  - destruct (digits_of_head p) as (c & r & E & Hc & _).
    exists c, r. cbn [Js.number_to_string]. fold (digits_of p).
    rewrite <- E. repeat split; auto.
    + apply all_digits_digits_of.
    + apply natural_digits_of.
Qed.

Lemma exponent_part_parse (x : Z) (rest : string) :
  match rest with
  | EmptyString => True
  | String c _ => is_digit c = false
  end ->
  exponent (exponent_part x ++ rest) = Some (x, rest).
Proof.
  intros Hr. unfold exponent_part.
  destruct (digits_of_integer (Z.abs x) (Z.abs_nonneg x))
    as (c & r & E & Hc & Hd & Hn).
  rewrite E.
  assert (Hrun : digit_run (String c (r ++ rest)) = (String c r, rest))
    by (apply (digit_run_app (String c r)); assumption).
  assert (Hc1 : Ascii.eqb c "-" = false /\ Ascii.eqb c "+" = false).
  { clear - Hc. destruct c as [[] [] [] [] [] [] [] []];
      try discriminate Hc; split; reflexivity. }
  destruct (Z.ltb_spec x 0) as [L|L]; cbn [append exponent];
    cbn [Ascii.eqb Bool.eqb orb andb]; rewrite Hrun, Hn; f_equal; f_equal; lia.
Qed.

Lemma int_ok_head (c : ascii) (r : string) :
  Ascii.eqb c "0" = false -> int_ok (String c r) = true.
Proof. intros H. cbn. destruct r; [reflexivity | now rewrite H]. Qed.

Lemma zeros_length (j : nat) : String.length (zeros j) = j.
Proof. induction j; cbn; auto. Qed.

Lemma exponent_part_head (x : Z) (rest : string) :
  exists t, exponent_part x ++ rest = String "e" t.
Proof. unfold exponent_part. cbn. eauto. Qed.

Lemma digit_run_single (c : ascii) (t : string) :
  is_digit c = true ->
  match t with
  | EmptyString => True
  | String c' _ => is_digit c' = false
  end ->
  digit_run (String c t) = (String c "", t).
Proof.
  intros Hc Ht. apply (digit_run_app (String c "") t); [|exact Ht].
  cbn [all_digits]. now rewrite Hc.
Qed.

Ltac same_exponent :=
  match goal with
  | |- Some (_ (Finite _ _ ?a), _) = Some (_ (Finite _ _ ?b), _) =>
      replace a with b; [reflexivity|]
  end.

(** Reading what [Number::toString] printed for a positive finite
    number gives the decimal back, before it is rounded. *)
Lemma parse_unsigned_finite (round : Rounding) (negative : bool)
    (s : positive) (e : Z) (rest : string) :
  snd (strip_trailing (digits_of s)) = 0 ->
  ends_number rest = true ->
  parse_unsigned round negative (toString_finite s e ++ rest)
  = Some (round (Finite negative s e), rest).
Proof.
  intros Hs Hrest.
  pose proof (no_digit_of_end rest Hrest) as Hnd.
  pose proof (ends_number_facts rest Hrest) as Hf.
  assert (Hfr : fraction rest = Some ("", rest)).
  { apply fraction_none. destruct rest; [trivial | tauto]. }
  pose proof (exponent_none rest Hrest) as Hex.
  destruct (digits_of_head s) as (c & r & E & Hc & Hc0).
  pose proof (all_digits_digits_of s) as Hall.
  pose proof (decimal_digits negative 0 s) as Hdec. cbn [zeros append] in Hdec.
  unfold toString_finite, parse_unsigned.
  remember (Z.of_nat (String.length (digits_of s))) as k eqn:Ek.
  remember (e + k)%Z as n eqn:En.
  assert (Hk : (1 <= k)%Z) by (rewrite Ek, E; cbn; lia).
  destruct ((k <=? n) && (n <=? 21))%Z eqn:CA;
    [|destruct ((0 <? n) && (n <=? 21))%Z eqn:CB;
      [|destruct ((-6 <? n) && (n <=? 0))%Z eqn:CC]];
    rewrite ?andb_true_iff, ?andb_false_iff, ?Z.leb_le, ?Z.ltb_lt,
      ?Z.leb_gt, ?Z.ltb_ge in *.
  - (* the digits, then zeros *)
    rewrite digit_run_app;
      [|rewrite all_digits_app, Hall, all_digits_zeros; reflexivity
       |exact Hnd].
    rewrite E at 1. cbn [append]. rewrite (int_ok_head c _ Hc0).
    rewrite Hfr, Hex, append_nil_r.
    rewrite (decimal_digits_zeros negative _ s _ Hs).
    cbn [String.length]. same_exponent. lia.
  - (* the digits around the decimal point *)
    pose proof (split_at_app (Z.to_nat n) (digits_of s)) as Hab.
    pose proof (split_at_length (Z.to_nat n) (digits_of s) ltac:(lia)) as Hla.
    assert (Hhead : exists a', fst (split_at (Z.to_nat n) (digits_of s))
                               = String c a').
    { destruct (Z.to_nat n) as [|m] eqn:Em; [lia|].
      rewrite E. apply split_at_head. }
    destruct (split_at (Z.to_nat n) (digits_of s)) as [a b].
    cbn [fst snd] in *. destruct Hhead as (a' & Ea).
    assert (Hlen : String.length a + String.length b
                   = String.length (digits_of s))
      by (now rewrite <- Hab, length_append).
    rewrite <- Hab, all_digits_app in Hall.
    apply andb_true_iff in Hall. destruct Hall as [Ha Hb].
    rewrite !append_assoc. cbn [append].
    rewrite (digit_run_app a) by (assumption || reflexivity).
    rewrite Ea at 1. rewrite (int_ok_head c _ Hc0).
    rewrite fraction_digits;
      [|exact Hb|intros ->; cbn in Hlen; lia|exact Hnd].
    rewrite Hex, Hab, (Hdec _ Hs). same_exponent. lia.
  - (* the digits after 0. and zeros *)
    cbn [append].
    rewrite digit_run_single by reflexivity.
    cbn [int_ok].
    rewrite fraction_digits;
      [|rewrite all_digits_app, Hall, all_digits_zeros; reflexivity
       |rewrite E; destruct (zeros (Z.to_nat (- n))); discriminate
       |exact Hnd].
    rewrite Hex.
    change ("0" ++ zeros (Z.to_nat (- n)) ++ digits_of s)
      with (zeros (S (Z.to_nat (- n))) ++ digits_of s).
    rewrite (decimal_digits negative _ s _ Hs).
    rewrite length_append, zeros_length. same_exponent. lia.
  - (* the exponent notation *)
    assert (Hr : all_digits r = true).
    { rewrite E in Hall. cbn [all_digits] in Hall.
      now apply andb_true_iff in Hall. }
    destruct (exponent_part_head (n - 1) rest) as (t & Et).
    rewrite E. destruct r as [|c' r'].
    + cbn [append].
      rewrite digit_run_single; [|exact Hc|rewrite Et; reflexivity].
      cbn [int_ok].
      rewrite fraction_none by (rewrite Et; reflexivity).
      rewrite exponent_part_parse by exact Hnd.
      rewrite append_nil_r, <- E, (Hdec _ Hs). same_exponent.
      rewrite E in Ek. cbn [String.length] in *. lia.
    + cbn [append]. rewrite !append_assoc.
      rewrite digit_run_single; [|exact Hc|reflexivity].
      cbn [int_ok].
      change (String c' (r' ++ exponent_part (n - 1) ++ rest))
        with (String c' r' ++ exponent_part (n - 1) ++ rest).
      rewrite fraction_digits;
        [|exact Hr|discriminate|rewrite Et; reflexivity].
      rewrite exponent_part_parse by exact Hnd.
      cbn [append]. rewrite <- E, (Hdec _ Hs). same_exponent.
      rewrite E in Ek. cbn [String.length] in Ek |- *. lia.
Qed.

Lemma toString_finite_head (s : positive) (e : Z) (rest : string) :
  exists c t, toString_finite s e ++ rest = String c t
              /\ is_digit c = true.
Proof.
  destruct (digits_of_head s) as (c & r & E & Hc & _).
  unfold toString_finite.
  set (n := (e + Z.of_nat (String.length (digits_of s)))%Z).
  destruct ((_ <=? n) && (n <=? 21))%Z;
    [|destruct ((0 <? n) && (n <=? 21))%Z eqn:CB;
      [|destruct ((-6 <? n) && (n <=? 0))%Z]].
  - rewrite E. cbn. eauto.
  - apply andb_true_iff in CB. destruct CB as [CB _].
    apply Z.ltb_lt in CB.
    destruct (Z.to_nat n) as [|m] eqn:Em; [lia|].
    rewrite E. cbn [split_at]. destruct (split_at m r). cbn. eauto.
  - cbn. eauto.
  - rewrite E. destruct r; cbn; eauto.
Qed.

Lemma number_eqb_eq (x y : number) : eqb x y = true -> x = y.
Proof.
  destruct x as [|a|a|a s e], y as [|b|b|b s' e']; cbn;
    try discriminate; try reflexivity.
  - intros H. apply Bool.eqb_prop in H. now subst.
  - intros H. apply Bool.eqb_prop in H. now subst.
  - intros H. apply andb_true_iff in H. destruct H as [H He].
    apply andb_true_iff in H. destruct H as [Ha Hs].
    apply Bool.eqb_prop in Ha. apply Pos.eqb_eq in Hs.
    apply Z.eqb_eq in He. now subst.
Qed.

Lemma digit_not_minus (c : ascii) :
  is_digit c = true -> Ascii.eqb c "-" = false.
Proof.
  destruct c as [[] [] [] [] [] [] [] []]; intros H;
    try discriminate H; reflexivity.
Qed.

(** [Number::toString] and the reading of a JSON number: a finite
    Number of the runtime other than negative zero is read back from
    what was printed for it. *)
Theorem parse_toString (round : Rounding) (x : number) (rest : string) :
  well_formed round x = true ->
  ends_number rest = true ->
  parse round (toString x ++ rest) = Some (x, rest).
Proof.
  intros Hx Hrest.
  destruct x as [|b|[]|negative s e]; try discriminate Hx;
    cbn [well_formed] in Hx.
  - apply number_eqb_eq in Hx.
    cbn [toString append parse Ascii.eqb Bool.eqb andb].
    unfold parse_unsigned.
    rewrite (digit_run_single "0" rest eq_refl (no_digit_of_end _ Hrest)).
    cbn [int_ok].
    rewrite fraction_none, (exponent_none _ Hrest).
    + cbn [append String.length]. change (decimal false "0" (0 - Z.of_nat 0))
        with (Zero false). now rewrite Hx.
    + apply ends_number_facts in Hrest. destruct rest; [trivial | tauto].
  - apply andb_true_iff in Hx. destruct Hx as [Hs Hx].
    apply Nat.eqb_eq in Hs. apply number_eqb_eq in Hx.
    pose proof (parse_unsigned_finite round negative s e rest Hs Hrest) as P.
    rewrite Hx in P.
    destruct negative; cbn [toString].
    + cbn [append parse]. rewrite Ascii.eqb_refl. exact P.
    + destruct (toString_finite_head s e rest) as (c & t & E & Hc).
      rewrite E in *. cbn [parse]. now rewrite (digit_not_minus c Hc).
Qed.

Lemma toString_head (x : number) (rest : string) :
  isFinite x = true ->
  exists c t, toString x ++ rest = String c t
              /\ (Ascii.eqb c "-" || is_digit c) = true.
Proof.
  destruct x as [|b|b|[] s e]; try discriminate; intros _.
  - exists "0"%char, rest. split; reflexivity.
  - cbn [toString append]. eexists _, _. split; reflexivity.
  - destruct (toString_finite_head s e rest) as (c & t & E & Hc).
    exists c, t. split; [exact E|]. rewrite Hc. apply orb_true_r.
Qed.

End NumberFacts.

Create HintDb blank discriminated.

Section JSONFacts.
Import JSON.
Variable round : Number.Rounding.

Lemma skip_ws_blank (w s : string) : blank w -> skip_ws (w ++ s) = skip_ws s.
Proof.
  unfold blank. induction w as [|c w IH]; cbn; [reflexivity|].
  destruct (is_ws c); [exact IH | discriminate].
Qed.

Lemma blank_app (a b : string) : blank a -> blank b -> blank (a ++ b).
Proof. intros Ha Hb. unfold blank. now rewrite skip_ws_blank. Qed.

Lemma blank_nl : blank nl.
Proof. reflexivity. Qed.

Lemma blank_gap : blank gap.
Proof. reflexivity. Qed.

(** *** String literals *)

Lemma parse_chars_unit (c : ascii) (r : string) :
  parse_chars (escape_unit c ++ r) = cons_result c (parse_chars r).
Proof.
  destruct c as [[] [] [] [] [] [] [] []]; reflexivity.
Qed.

Lemma parse_chars_escape (s rest : string) :
  parse_chars (escape s ++ String dquote rest) = Some (s, rest).
Proof.
  induction s as [|c s IH]; cbn [escape].
  - reflexivity.
  - rewrite append_assoc, parse_chars_unit, IH. reflexivity.
Qed.

Lemma quote_app (s rest : string) :
  quote s ++ rest = String dquote (escape s ++ String dquote rest).
Proof. unfold quote. cbn. now rewrite append_assoc. Qed.

(** *** Numbers *)

Lemma delimited_ends_number (rest : string) :
  delimited rest = true -> Number.ends_number rest = true.
Proof.
  destruct rest as [|c r]; cbn; [trivial|].
  intros H. apply orb_true_iff in H.
  destruct H as [H|H]; apply Ascii.eqb_eq in H; subst c; reflexivity.
Qed.

Lemma starts_number_facts (c : ascii) :
  starts_number c = true ->
  is_ws c = false /\ Ascii.eqb c dquote = false
  /\ Ascii.eqb c "[" = false /\ Ascii.eqb c "{" = false.
Proof.
  destruct c as [[] [] [] [] [] [] [] []]; cbn; intros H;
    try discriminate H; auto.
Qed.

Lemma starts_number_not_closing (c : ascii) :
  starts_number c = true ->
  Ascii.eqb "]" c = false /\ Ascii.eqb "}" c = false.
Proof.
  destruct c as [[] [] [] [] [] [] [] []]; cbn; intros H;
    try discriminate H; auto.
Qed.

Lemma number_head (n : Number.number) (rest : string) :
  Number.isFinite n = true ->
  exists c r, Number.toString n ++ rest = String c r
              /\ starts_number c = true.
Proof. apply toString_head. Qed.

Lemma parse_value_number (fuel : nat) (n : Number.number) (rest : string) :
  Number.well_formed round n = true ->
  delimited rest = true ->
  parse_value round (S fuel) (serialize "" (Number n) ++ rest)
  = Some (Number n, rest).
Proof.
  intros Hn H.
  assert (Hf : Number.isFinite n = true)
    by (destruct n as [| |[]|]; try discriminate Hn; reflexivity).
  pose proof (parse_toString round n rest Hn (delimited_ends_number _ H))
    as P.
  cbn [serialize]. rewrite Hf.
  destruct (number_head n rest Hf) as (c & r & E & Hs).
  rewrite E in *.
  destruct (starts_number_facts c Hs) as (Hw & Hq & Ha & Ho).
  cbn [parse_value skip_ws]. rewrite Hw, Hq, Ha, Ho, Hs, P. reflexivity.
Qed.

(** *** Arrays and objects *)

Lemma parse_value_blank (fuel : nat) (w s : string) :
  blank w -> parse_value round fuel (w ++ s) = parse_value round fuel s.
Proof.
  intros H. destruct fuel; cbn [parse_value]; [reflexivity|].
  now rewrite skip_ws_blank.
Qed.

Lemma serialize_head (indent : string) (v : value) (rest : string) :
  exists c r, serialize indent v ++ rest = String c r
              /\ is_ws c = false
              /\ Ascii.eqb "]" c = false /\ Ascii.eqb "}" c = false.
Proof.
  destruct v as [|[]|n|s|[|x xs]|[|m ms]]; cbn [serialize];
    try (cbn; eexists _, _; repeat split; reflexivity).
  destruct (Number.isFinite n) eqn:Hf;
    [|cbn; eexists _, _; repeat split; reflexivity].
  destruct (number_head n rest Hf) as (c & r & E & Hs).
  exists c, r. split; [exact E|].
  destruct (starts_number_facts c Hs) as (Hw & _).
  destruct (starts_number_not_closing c Hs). auto.
Qed.

Lemma concat_two (sep a b : string) (l : list string) :
  String.concat sep (a :: b :: l) = a ++ sep ++ String.concat sep (b :: l).
Proof. reflexivity. Qed.

Lemma skip_ws_head (w : string) (c : ascii) (r : string) :
  blank w -> is_ws c = false -> skip_ws (w ++ String c r) = String c r.
Proof. intros Hw Hc. rewrite skip_ws_blank by exact Hw. cbn. now rewrite Hc. Qed.

Lemma parse_elements_serialize (inner indent rest : string)
    (xs : list value) :
  blank inner -> blank indent ->
  Forall (round_trips round) xs ->
  forallb (well_formed round) xs = true ->
  xs <> [] ->
  forall fuel w acc,
    blank w ->
    list_sum (map (fun x => S (size x)) xs) <= fuel ->
    parse_elements round fuel
      (w ++ String.concat (String "," (String LF inner))
              (map (serialize inner) xs)
         ++ String LF (indent ++ String "]" rest)) acc
    = Some (Array (acc ++ xs), rest).
Proof.
  intros Hinner Hindent HF. induction HF as [|x xs Hx HF IH]; [easy|].
  intros Hwf _ fuel w acc Hw Hfuel.
  cbn [forallb] in Hwf. apply andb_true_iff in Hwf. destruct Hwf as [Hwx Hwxs].
  cbn [map list_sum fold_right] in Hfuel. unfold list_sum in Hfuel. cbn [fold_right] in Hfuel. fold list_sum in Hfuel.
  destruct fuel as [|fuel]; [lia|].
  cbn [parse_elements]. rewrite parse_value_blank by exact Hw.
  assert (Hsz : size x <= fuel) by lia.
  destruct xs as [|y l].
  - cbn [map String.concat].
    rewrite Hx; [|exact Hsz|exact Hwx|exact Hinner|reflexivity].
    change (String LF (indent ++ String "]" rest))
      with (nl ++ indent ++ String "]" rest).
    rewrite (skip_ws_blank nl) by exact blank_nl.
    rewrite (skip_ws_head indent) by (auto; reflexivity).
    reflexivity.
  - cbn [map]. rewrite concat_two, !append_assoc.
    remember (String.concat (String "," (String LF inner))
                (serialize inner y :: map (serialize inner) l)) as body.
    cbn [append].
    rewrite Hx; [|exact Hsz|exact Hwx|exact Hinner|reflexivity].
    cbn.
    specialize (IH Hwxs ltac:(discriminate) fuel (String LF inner)
                   (acc ++ [x])%list).
    cbn [map] in IH. rewrite <- Heqbody in IH. cbn [append] in IH.
    rewrite IH; [now rewrite <- app_assoc| |].
    + apply (blank_app nl inner blank_nl Hinner).
    + cbn in Hfuel |- *. lia.
Qed.


Lemma distinct_app_fresh (l : list string) (k : string) (r : list string) :
  distinct (l ++ k :: r) = true -> Js.array_includes l k = false.
Proof.
  induction l as [|a l IH]; cbn; [reflexivity|].
  intros H. apply andb_true_iff in H. destruct H as [Ha Hd].
  destruct (String.eqb_spec a k) as [->|N]; [|auto].
  apply negb_true_iff in Ha.
  assert (In k (l ++ k :: r)) as Hin by (apply in_or_app; right; left; reflexivity).
  apply array_includes_In in Hin. congruence.
Qed.

Lemma set_member_fresh (k : string) (v : value)
    (acc : list (string * value)) :
  Js.array_includes (map fst acc) k = false ->
  set_member k v acc = (acc ++ [(k, v)])%list.
Proof.
  induction acc as [|[k' v'] acc IH]; cbn; [reflexivity|].
  destruct (String.eqb k' k); [discriminate|].
  intros H. now rewrite IH.
Qed.

Lemma strip_one (c : ascii) (r : string) :
  strip_prefix (String c "") (String c r) = Some r.
Proof. unfold strip_prefix. cbn. now rewrite Ascii.eqb_refl. Qed.

Lemma strip_other (a c : ascii) (r : string) :
  Ascii.eqb a c = false -> strip_prefix (String a "") (String c r) = None.
Proof. intros H. unfold strip_prefix. cbn. now rewrite H. Qed.

Lemma parse_members_serialize (inner indent rest : string)
    (ms : list (string * value)) :
  blank inner -> blank indent ->
  Forall (fun m => round_trips round (snd m)) ms ->
  forallb (fun m => well_formed round (snd m)) ms = true ->
  ms <> [] ->
  forall fuel w acc,
    blank w ->
    distinct (map fst (acc ++ ms)) = true ->
    list_sum (map (fun m => S (size (snd m))) ms) <= fuel ->
    parse_members round fuel
      (w ++ String.concat (String "," (String LF inner))
              (map (fun m => quote (fst m) ++ ": " ++ serialize inner (snd m))
                   ms)
         ++ String LF (indent ++ String "}" rest)) acc
    = Some (Object (acc ++ ms), rest).
Proof.
  intros Hinner Hindent HF. induction HF as [|[k x] ms Hx HF IH]; [easy|].
  intros Hwf _ fuel w acc Hw Hd Hfuel.
  cbn [forallb snd] in Hwf. apply andb_true_iff in Hwf.
  destruct Hwf as [Hwx Hwms].
  cbn [snd] in Hx.
  assert (Hfresh : set_member k x acc = (acc ++ [(k, x)])%list).
  { apply set_member_fresh. rewrite map_app in Hd. cbn [map fst] in Hd.
    now apply distinct_app_fresh in Hd. }
  destruct fuel as [|fuel]; [cbn in Hfuel; lia|].
  assert (Hsz : size x <= fuel) by (cbn in Hfuel; lia).
  cbn [parse_members].
  assert (Hsp : forall t, parse_value round fuel (String " " (serialize inner x ++ t))
                           = parse_value round fuel (serialize inner x ++ t)).
  { intros t. apply (parse_value_blank fuel " "). reflexivity. }
  destruct ms as [|m l].
  - cbn [map String.concat fst snd].
    rewrite !append_assoc, quote_app, (skip_ws_head w) by (auto; reflexivity).
    rewrite strip_one, parse_chars_escape.
    cbn [append].
    change (skip_ws (String ":" ?r)) with (String ":" r).
    rewrite strip_one, Hsp.
    rewrite Hx; [|exact Hsz|exact Hwx|exact Hinner|reflexivity].
    change (String LF (indent ++ String "}" rest))
      with (nl ++ indent ++ String "}" rest).
    rewrite (skip_ws_blank nl) by exact blank_nl.
    rewrite (skip_ws_head indent) by (auto; reflexivity).
    rewrite Hfresh. reflexivity.
  - cbn [map]. rewrite concat_two. cbn [fst snd]. rewrite !append_assoc.
    remember (String.concat (String "," (String LF inner))
                ((quote (fst m) ++ ": " ++ serialize inner (snd m))
                 :: map (fun m0 => quote (fst m0) ++ ": "
                                   ++ serialize inner (snd m0)) l)) as body.
    rewrite quote_app, (skip_ws_head w) by (auto; reflexivity).
    rewrite strip_one, parse_chars_escape.
    cbn [append].
    change (skip_ws (String ":" ?r)) with (String ":" r).
    rewrite strip_one, Hsp.
    rewrite Hx; [|exact Hsz|exact Hwx|exact Hinner|reflexivity].
    change (skip_ws (String "," ?r)) with (String "," r).
    cbn [Ascii.eqb Bool.eqb andb]. cbv iota.
    rewrite Hfresh.
    specialize (IH Hwms ltac:(discriminate) fuel (String LF inner)
                   (acc ++ [(k, x)])%list).
    cbn [map] in IH. rewrite <- Heqbody in IH. cbn [append] in IH.
    rewrite IH; [now rewrite <- app_assoc| | |].
    + apply (blank_app nl inner blank_nl Hinner).
    + rewrite <- app_assoc. exact Hd.
    + cbn in Hfuel |- *. lia.
Qed.

Lemma parse_value_array (fuel : nat) (r : string) :
  parse_value round (S fuel) (String "[" r)
  = match strip_prefix "]" (skip_ws r) with
    | Some rest => Some (Array [], rest)
    | None => parse_elements round fuel r []
    end.
Proof. reflexivity. Qed.

Lemma parse_value_object (fuel : nat) (r : string) :
  parse_value round (S fuel) (String "{" r)
  = match strip_prefix "}" (skip_ws r) with
    | Some rest => Some (Object [], rest)
    | None => parse_members round fuel r []
    end.
Proof. reflexivity. Qed.

Lemma parse_value_string (fuel : nat) (r : string) :
  parse_value round (S fuel) (String dquote r)
  = match parse_chars r with
    | Some (str, rest) => Some (Str str, rest)
    | None => None
    end.
Proof. reflexivity. Qed.

Lemma concat_head (sep a : string) (l : list string) (t : string) :
  exists t', String.concat sep (a :: l) ++ t = a ++ t'.
Proof.
  destruct l as [|b l].
  - exists t. reflexivity.
  - rewrite concat_two, append_assoc. eauto.
Qed.

Lemma first_element_not_closing (w sep inner : string) (x : value)
    (l : list value) (t : string) :
  blank w ->
  strip_prefix "]"
    (skip_ws (w ++ String.concat sep (map (serialize inner) (x :: l)) ++ t))
  = None.
Proof.
  intros Hw. cbn [map].
  destruct (concat_head sep (serialize inner x) (map (serialize inner) l) t)
    as (t' & ->).
  destruct (serialize_head inner x t') as (c & r & -> & Hc & Ha & _).
  rewrite skip_ws_head by assumption. now apply strip_other.
Qed.

Lemma first_member_not_closing (w sep inner : string)
    (m : string * value) (l : list (string * value)) (t : string) :
  blank w ->
  strip_prefix "}"
    (skip_ws
       (w ++ String.concat sep
               (map (fun m => quote (fst m) ++ ": " ++ serialize inner (snd m))
                    (m :: l)) ++ t))
  = None.
Proof.
  intros Hw. cbn [map].
  destruct (concat_head sep (quote (fst m) ++ ": " ++ serialize inner (snd m))
              (map (fun m => quote (fst m) ++ ": " ++ serialize inner (snd m)) l) t)
    as (t' & ->).
  rewrite append_assoc, quote_app, skip_ws_head by (auto; reflexivity).
  now apply strip_other.
Qed.

Lemma serialize_array (ind : string) (x : value) (l : list value)
    (rest : string) :
  serialize ind (Array (x :: l)) ++ rest
  = String "["
      (String LF (ind ++ gap)
       ++ String.concat (String "," (String LF (ind ++ gap)))
            (map (serialize (ind ++ gap)) (x :: l))
       ++ String LF (ind ++ String "]" rest)).
Proof.
  cbn [serialize].
  remember (String.concat _ _) as body.
  cbn [append nl].
  repeat (first [rewrite !append_assoc | progress (cbn [append])]).
  reflexivity.
Qed.

Lemma serialize_object (ind : string) (m : string * value)
    (l : list (string * value)) (rest : string) :
  serialize ind (Object (m :: l)) ++ rest
  = String "{"
      (String LF (ind ++ gap)
       ++ String.concat (String "," (String LF (ind ++ gap)))
            (map (fun m => quote (fst m) ++ ": "
                           ++ serialize (ind ++ gap) (snd m)) (m :: l))
       ++ String LF (ind ++ String "}" rest)).
Proof.
  cbn [serialize].
  remember (String.concat _ _) as body.
  cbn [append nl].
  repeat (first [rewrite !append_assoc | progress (cbn [append])]).
  reflexivity.
Qed.

Lemma blank_inner (ind : string) : blank ind -> blank (String LF (ind ++ gap)).
Proof.
  intros H. apply (blank_app nl (ind ++ gap) blank_nl).
  apply blank_app; [exact H | exact blank_gap].
Qed.

#[local] Hint Resolve blank_nl blank_gap blank_app blank_inner : blank.

Theorem parse_serialize (v : value) : round_trips round v.
Proof.
  induction v as [|b|n|s|xs IH|ms IH] using value_induction;
    intros fuel ind rest Hsz Hwf Hind Hrest;
    (destruct fuel as [|fuel]; [cbn in Hsz; lia|]).
  - reflexivity.
  - destruct b; reflexivity.
  - change (serialize ind (Number n)) with (serialize "" (Number n)).
    now apply parse_value_number.
  - cbn [serialize]. rewrite quote_app, parse_value_string.
    now rewrite parse_chars_escape.
  - destruct xs as [|x l]; [reflexivity|].
    rewrite serialize_array, parse_value_array.
    rewrite first_element_not_closing by auto with blank.
    apply (parse_elements_serialize (ind ++ gap) ind rest (x :: l));
      auto with blank; [discriminate | cbn [size] in Hsz; lia].
  - destruct ms as [|m l]; [reflexivity|].
    cbn [well_formed] in Hwf. apply andb_true_iff in Hwf.
    destruct Hwf as [Hd Hwf].
    rewrite serialize_object, parse_value_object.
    rewrite first_member_not_closing by auto with blank.
    apply (parse_members_serialize (ind ++ gap) ind rest (m :: l));
      auto with blank; [discriminate | cbn [size] in Hsz; lia].
Qed.


Lemma concat_length (sep : string) {A} (f : A -> string) (g : A -> nat)
    (xs : list A) :
  1 <= String.length sep ->
  Forall (fun x => g x <= String.length (f x)) xs ->
  list_sum (map (fun x => S (g x)) xs)
  <= S (String.length (String.concat sep (map f xs))).
Proof.
  intros Hsep HF. induction HF as [|x xs Hx HF IH]; [cbn; lia|].
  destruct xs as [|y l].
  - cbn. lia.
  - cbn [map] in *. rewrite concat_two, !length_append.
    change (list_sum (S (g x) :: ?t)) with (S (g x) + list_sum t).
    lia.
Qed.

Lemma size_le_length (v : value) :
  forall ind, size v <= String.length (serialize ind v).
Proof.
  induction v as [|b|n|s|xs IH|ms IH] using value_induction; intros ind.
  - cbn. lia.
  - destruct b; cbn; lia.
  - cbn [serialize size].
    destruct (Number.isFinite n) eqn:Hf; [|cbn; lia].
    destruct (number_head n "" Hf) as (c & r & E & _).
    rewrite append_nil_r in E. rewrite E. cbn. lia.
  - cbn. lia.
  - destruct xs as [|x l]; [cbn; lia|].
    rewrite <- (append_nil_r (serialize ind (Array (x :: l)))).
    rewrite serialize_array. cbn [size String.length].
    rewrite !length_append. cbn [String.length].
    pose proof (concat_length (String "," (String LF (ind ++ gap)))
                  (serialize (ind ++ gap)) size (x :: l)) as H.
    cbn [String.length] in H.
    assert (HF : Forall (fun x => size x <= String.length (serialize (ind ++ gap) x))
                   (x :: l)).
    { rewrite Forall_forall in *. intros y Hy. now apply IH. }
    specialize (H ltac:(lia) HF). lia.
  - destruct ms as [|m l]; [cbn; lia|].
    rewrite <- (append_nil_r (serialize ind (Object (m :: l)))).
    rewrite serialize_object. cbn [size String.length].
    rewrite !length_append. cbn [String.length].
    pose proof (concat_length (String "," (String LF (ind ++ gap)))
                  (fun m => quote (fst m) ++ ": "
                            ++ serialize (ind ++ gap) (snd m))
                  (fun m => size (snd m)) (m :: l)) as H.
    cbn [String.length] in H.
    assert (HF : Forall (fun m => size (snd m)
                                  <= String.length
                                       (quote (fst m) ++ ": "
                                        ++ serialize (ind ++ gap) (snd m)))
                   (m :: l)).
    { rewrite Forall_forall in *. intros y Hy.
      rewrite !length_append. specialize (IH y Hy (ind ++ gap)). lia. }
    specialize (H ltac:(lia) HF). lia.
Qed.

Theorem parse_stringify (v : value) :
  well_formed round v = true -> parse round (stringify v) = Some v.
Proof.
  intros Hwf. unfold parse, stringify.
  rewrite <- (append_nil_r (serialize "" v)) at 2.
  rewrite parse_serialize; auto.
  - pose proof (size_le_length v ""). lia.
  - reflexivity.
Qed.

End JSONFacts.

Section ResultsFacts.
Import Types Results.

Lemma extends_refl (m : string) : Spec.extends m m.
Proof. exists "". now rewrite append_nil_r. Qed.

Lemma extends_app (m x y : string) : Spec.extends m x -> Spec.extends m (x ++ y).
Proof. intros (t & ->). exists (t ++ y). now rewrite append_assoc. Qed.

Lemma extends_fold {A} (g : string -> A -> string) (l : list A) :
  (forall acc x, Spec.extends acc (g acc x)) ->
  forall m m0, Spec.extends m m0 -> Spec.extends m (fold_left g l m0).
Proof.
  intros Hg. induction l as [|x l IH]; intros m m0 H; cbn; [exact H|].
  apply IH. destruct H as (t & ->). destruct (Hg (m ++ t) x) as (t' & ->).
  exists (t ++ t'). now rewrite append_assoc.
Qed.

Lemma generated_line (rt : Runtime.Locale) (r : AssessmentResults)
    (q : AssessmentRequest) :
  Spec.occurs
    ("**Generated:** " ++ Runtime.date_toLocaleString rt (generated_at r)
     ++ JSON.nl ++ JSON.nl)
    (generateMarkdown rt (Some r) (Some q)).
Proof.
  unfold generateMarkdown.
  set (head := ("# Impact Assessment Report" ++ JSON.nl ++ JSON.nl)
               ++ "**Request ID:** " ++ id q ++ JSON.nl).
  set (head2 := head ++ "**Report Type:** "
                ++ report_type_label (report_type q) ++ JSON.nl).
  set (line := "**Generated:** "
               ++ Runtime.date_toLocaleString rt (generated_at r)
               ++ JSON.nl ++ JSON.nl).
  assert (E : forall m, Spec.extends (head2 ++ line) m -> Spec.occurs line m).
  { intros m (t & ->). exists head2, t. now rewrite append_assoc. }
  apply E. clear E.
  repeat match goal with
         | |- Spec.extends (?a ++ ?b) (?a ++ ?b) => apply extends_refl
         | |- Spec.extends _ (match ?o with
                              | Undefined => _
                              | IsNull => _
                              | Defined _ => _
                              end) =>
             destruct o
         | |- Spec.extends _ (if ?c then _ else _) => destruct c
         | |- Spec.extends _ (fold_left _ _ _) =>
             apply extends_fold;
             [intros acc x; repeat apply extends_app; apply extends_refl|]
         | |- Spec.extends _ (_ ++ _) => apply extends_app
         end.
Qed.

Lemma map_injective {A B} (f : A -> B) :
  (forall x y, f x = f y -> x = y) ->
  forall l l', map f l = map f l' -> l = l'.
Proof.
  intros Hf. induction l as [|x l IH]; destruct l' as [|y l']; cbn;
    intros H; try discriminate; [reflexivity|].
  injection H as Hx Hl. f_equal; auto.
Qed.

Lemma strings_injective (l l' : list string) :
  strings l = strings l' -> l = l'.
Proof.
  unfold strings. intros H. injection H as H.
  apply (map_injective JSON.Str); [|exact H]. now intros x y [= ->].
Qed.

Lemma risk_level_label_injective (a b : RiskLevel) :
  risk_level_label a = risk_level_label b -> a = b.
Proof. destruct a, b; cbn; intros H; try discriminate H; reflexivity. Qed.

Lemma change_type_label_injective (a b : ChangeType) :
  change_type_label a = change_type_label b -> a = b.
Proof. destruct a, b; cbn; intros H; try discriminate H; reflexivity. Qed.

Lemma Str_injective (x y : string) : JSON.Str x = JSON.Str y -> x = y.
Proof. now intros [= ->]. Qed.

Ltac members H :=
  cbn in H; try discriminate H; try (inversion H; clear H);
  repeat match goal with
         | E : map JSON.Str _ = map JSON.Str _ |- _ =>
             apply (map_injective JSON.Str Str_injective) in E
         end;
  subst; try reflexivity.

Lemma api_details_object_injective (d d' : ApiChangeDetails) :
  api_details_object d = api_details_object d' -> d = d'.
Proof.
  destruct d as [a b c], d' as [a' b' c']. unfold api_details_object.
  cbn [parameters_changed response_schema_changed api_breaking_changes].
  destruct a, b, c, a', b', c'; intros H; members H.
Qed.

Lemma db_details_object_injective (d d' : DatabaseChangeDetails) :
  db_details_object d = db_details_object d' -> d = d'.
Proof.
  destruct d as [a b c e], d' as [a' b' c' e']. unfold db_details_object.
  cbn [columns_added columns_removed columns_modified indexes_changed].
  destruct a, b, c, e, a', b', c', e'; intros H; members H.
Qed.

(** Keeps [injection] from unfolding the encoding of a member. *)
Ltac hide_objects H :=
  repeat match type of H with
         | context [api_details_object ?d] =>
             let x := fresh "o" in
             remember (api_details_object d) as x
         | context [db_details_object ?d] =>
             let x := fresh "o" in
             remember (db_details_object d) as x
         | context [summary_object ?d] =>
             let x := fresh "o" in
             remember (summary_object d) as x
         end.

Lemma api_change_object_injective (c c' : ApiChange) :
  api_change_object c = api_change_object c' -> c = c'.
Proof.
  destruct c as [e m t s d], c' as [e' m' t' s' d'].
  unfold api_change_object.
  cbn [endpoint method api_change_type api_summary api_details].
  destruct d as [d|], d' as [d'|]; intros H; cbn [optional app] in H;
    try discriminate H; hide_objects H; injection H; intros; subst;
    repeat match goal with
           | E : change_type_label _ = change_type_label _ |- _ =>
               apply change_type_label_injective in E
           | E : api_details_object _ = api_details_object _ |- _ =>
               apply api_details_object_injective in E
           end; subst; reflexivity.
Qed.

Lemma db_change_object_injective (c c' : DatabaseChange) :
  db_change_object c = db_change_object c' -> c = c'.
Proof.
  destruct c as [n t s d], c' as [n' t' s' d'].
  unfold db_change_object.
  cbn [table_name db_change_type db_summary db_details].
  destruct d as [d|], d' as [d'|]; intros H; cbn [optional app] in H;
    try discriminate H; hide_objects H; injection H; intros; subst;
    repeat match goal with
           | E : change_type_label _ = change_type_label _ |- _ =>
               apply change_type_label_injective in E
           | E : db_details_object _ = db_details_object _ |- _ =>
               apply db_details_object_injective in E
           end; subst; reflexivity.
Qed.

Lemma summary_object_injective (m m' : AssessmentSummary) :
  summary_object m = summary_object m' -> m = m'.
Proof.
  destruct m, m'. unfold summary_object. cbn. intros H.
  injection H; intros; subst.
  repeat match goal with
         | E : risk_level_label _ = risk_level_label _ |- _ =>
             apply risk_level_label_injective in E
         | E : map JSON.Str _ = map JSON.Str _ |- _ =>
             apply (map_injective JSON.Str Str_injective) in E
         end; subst; reflexivity.
Qed.

Lemma results_object_injective (r r' : AssessmentResults) :
  results_object r = results_object r' -> r = r'.
Proof.
  destruct r as [i q m a d w g], r' as [i' q' m' a' d' w' g'].
  unfold results_object.
  cbn [res_id request_id summary api_changes database_changes raw_data
       generated_at].
  destruct a as [| |a], d as [| |d], a' as [| |a'], d' as [| |d'];
    intros H; cbn [nullable app] in H; try discriminate H;
    hide_objects H; injection H; intros; subst;
    repeat match goal with
           | E : summary_object _ = summary_object _ |- _ =>
               apply summary_object_injective in E
           | E : map api_change_object _ = map api_change_object _ |- _ =>
               apply (map_injective _ api_change_object_injective) in E
           | E : map db_change_object _ = map db_change_object _ |- _ =>
               apply (map_injective _ db_change_object_injective) in E
           end; subst; reflexivity.
Qed.


(** C5, as stated, fails: in a runtime of locale en-GB and zone UTC the
    report generated from a result whose generated_at is
    "2026-01-01T17:43:10.123456+00:00" carries "01/01/2026, 17:43:10"
    and nowhere the text of generated_at. *)
Lemma markdown_verbatim_timestamp_counterexample :
  ~ (generateMarkdown Runtime.enGB_UTC (Some Fixtures.results)
                      (Some Fixtures.completed_request)
     = generateMarkdown Runtime.enGB_UTC (Some Fixtures.results)
                        (Some Fixtures.completed_request)
     /\ Spec.occurs (generated_at Fixtures.results)
          (generateMarkdown Runtime.enGB_UTC (Some Fixtures.results)
                            (Some Fixtures.completed_request))).
Proof.
  intros [_ H]. apply includes_occurs in H. vm_compute in H. discriminate H.
Qed.

(** C5, amended.  For a fixed result and request the generated Markdown
    is fixed by the text the runtime's date formatting gives for
    generated_at: two runs that format generated_at alike, in
    particular two runs in one runtime, produce the same string; and the
    "Generated" line carries that formatted text, not generated_at
    itself. *)
Theorem markdown_fixed_by_formatted_date (rt rt' : Runtime.Locale)
    (r : AssessmentResults) (q : AssessmentRequest)
    (Hsame : Runtime.date_toLocaleString rt (generated_at r)
             = Runtime.date_toLocaleString rt' (generated_at r)) :
  generateMarkdown rt (Some r) (Some q)
  = generateMarkdown rt' (Some r) (Some q)
  /\ Spec.occurs
       ("**Generated:** "
        ++ Runtime.date_toLocaleString rt (generated_at r)
        ++ JSON.nl ++ JSON.nl)
       (generateMarkdown rt (Some r) (Some q)).
Proof.
  split; [|apply generated_line].
  unfold generateMarkdown. rewrite Hsame. reflexivity.
Qed.

Lemma markdown_fixed_by_formatted_date_witness :
  Runtime.date_toLocaleString Runtime.enGB_UTC
    (generated_at Fixtures.results)
  = Runtime.date_toLocaleString Runtime.enGB_UTC
      (generated_at Fixtures.results)
  /\ Spec.occurs
       ("**Generated:** " ++ "01/01/2026, 17:43:10" ++ JSON.nl ++ JSON.nl)
       (generateMarkdown Runtime.enGB_UTC (Some Fixtures.results)
                         (Some Fixtures.completed_request)).
Proof.
  split; [reflexivity|].
  apply (markdown_fixed_by_formatted_date Runtime.enGB_UTC Runtime.enGB_UTC
           Fixtures.results Fixtures.completed_request eq_refl).
Defined.

(** C6.  Whatever the results, the content downloaded for the format
    pdf is the content downloaded for the format json: the serialization
    [JSON.stringify(results, null, 2)] of the whole result object, handed
    over as text/plain. *)
Theorem pdf_download_is_json_download (rt : Runtime.Locale)
    (results : option AssessmentResults)
    (request : option AssessmentRequest) :
  option_map content (handleDownload rt results request pdf)
  = option_map content (handleDownload rt results request json)
  /\ option_map content (handleDownload rt results request pdf)
     = option_map (fun r => JSON.serialize "" (results_object r)) results
  /\ option_map blob_type (handleDownload rt results request pdf)
     = option_map (fun _ => "text/plain") results.
Proof. destruct results; repeat split. Qed.

(** C7, as stated, fails on numbers that JSON does not write as they
    are.  A result whose raw data holds the number Infinity, as read
    from a number beyond the range of the runtime's numbers, is exported
    with null in its place: in no runtime does the text of the export
    parse back to the object of the result.  A result whose raw data
    holds negative zero is exported with 0 in its place, which parses
    back to zero, not to negative zero. *)
Lemma json_export_round_trip_counterexample :
  ~ (exists (round : Number.Rounding) d,
       handleDownload Runtime.enGB_UTC (Some Fixtures.overflowing_results)
                      (Some Fixtures.completed_request) json = Some d
       /\ JSON.parse round (content d)
          = Some (results_object Fixtures.overflowing_results))
  /\ ~ (exists d,
          handleDownload Runtime.enGB_UTC
            (Some Fixtures.negative_zero_results)
            (Some Fixtures.completed_request) json = Some d
          /\ JSON.parse Number.exact (content d)
             = Some (results_object Fixtures.negative_zero_results)).
Proof.
  split.
  - intros (round & d & Hd & H). injection Hd as <-.
    vm_compute in H. discriminate H.
  - intros (d & Hd & H). injection Hd as <-.
    vm_compute in H. discriminate H.
Qed.

(** C7, amended.  In a runtime that rounds by [round], for a result of
    that runtime whose numbers are finite and not negative zero, the
    text of the JSON export, parsed back, is the object of that result,
    and no other result has this object: every field is recovered, also
    a list column that is null or missing, and numbers with a fraction
    or an exponent.  The same holds of every object of such numbers,
    whatever its keys and their order. *)
Theorem json_export_round_trip (rt : Runtime.Locale)
    (round : Number.Rounding)
    (r : AssessmentResults) (request : option AssessmentRequest)
    (Hwf : JSON.well_formed round (results_object r) = true) :
  (exists d,
     handleDownload rt (Some r) request json = Some d
     /\ content d = JSON.stringify (results_object r)
     /\ JSON.parse round (content d) = Some (results_object r)
     /\ forall r', JSON.parse round (content d) = Some (results_object r') ->
                   r' = r)
  /\ forall o, JSON.well_formed round o = true ->
               JSON.parse round (JSON.stringify o) = Some o.
Proof.
  split; [|intros o Ho; exact (parse_stringify round o Ho)].
  eexists. split; [reflexivity|]. cbn [content]. split; [reflexivity|].
  rewrite (parse_stringify round _ Hwf). split; [reflexivity|].
  intros r' H. apply results_object_injective. congruence.
Qed.

Lemma json_export_round_trip_witness :
  JSON.well_formed Number.exact (results_object Fixtures.results) = true
  /\ exists d,
       handleDownload Runtime.enGB_UTC (Some Fixtures.results)
                      (Some Fixtures.completed_request) json = Some d
       /\ content d = JSON.stringify (results_object Fixtures.results)
       /\ JSON.parse Number.exact (content d)
          = Some (results_object Fixtures.results)
       /\ forall r', JSON.parse Number.exact (content d)
                     = Some (results_object r') ->
                     r' = Fixtures.results.
Proof.
  split; [reflexivity|].
  apply (json_export_round_trip Runtime.enGB_UTC Number.exact
           Fixtures.results (Some Fixtures.completed_request) eq_refl).
Defined.

End ResultsFacts.

(* ================================================================== *)
(** * Further properties *)

Section ValidateFacts.
Import Types NewAssessment NewAssessmentForm.

(** The errors [validate] hands to [setErrors], field by field. *)
Lemma validate_errors (formData : FormData) (releases : list Release)
    (attachments : list File) :
  fst (validate formData releases attachments)
  = {| e_reportType :=
         match reportType formData with
         | None => Some "Please select a report type"
         | Some _ => None
         end;
       e_currentReleaseId :=
         if Js.truthy (currentReleaseId formData) then None
         else Some "Please select your current release";
       e_targetReleaseId :=
         if Js.truthy (targetReleaseId formData) then
           if Js.truthy (currentReleaseId formData) then
             match find_release releases (currentReleaseId formData),
                   find_release releases (targetReleaseId formData) with
             | Some c, Some t =>
                 if Js.string_ge (version c) (version t)
                 then Some target_order_message else None
             | _, _ => None
             end
           else None
         else Some "Please select a target release";
       e_title :=
         if Js.truthy (title formData)
            && (100 <? String.length (title formData))%nat
         then Some "Title cannot exceed 100 characters" else None;
       e_description :=
         if Js.truthy (description formData)
            && (1000 <? String.length (description formData))%nat
         then Some "Description cannot exceed 1000 characters" else None;
       e_attachments :=
         if (50 * MB <? totalSize attachments)%Z
         then Some "Total file size cannot exceed 50MB"
         else if (5 <? List.length attachments)%nat
              then Some "Maximum 5 files allowed" else None |}.
Proof.
  unfold validate. cbn [fst].
  destruct (reportType formData), (Js.truthy (currentReleaseId formData)),
    (Js.truthy (targetReleaseId formData)); cbn [negb andb];
    destruct (Js.truthy (title formData)
              && (100 <? String.length (title formData))%nat),
      (Js.truthy (description formData)
       && (1000 <? String.length (description formData))%nat),
      (5 <? Datatypes.length attachments)%nat,
      (50 * MB <? totalSize attachments)%Z;
    try reflexivity;
    destruct (find_release releases (currentReleaseId formData)) as [c|];
    try reflexivity;
    destruct (find_release releases (targetReleaseId formData)) as [t|];
    try reflexivity;
    destruct (Js.string_ge (version c) (version t)); reflexivity.
Qed.

End ValidateFacts.

Section NewAssessmentFormFacts.
Import Types NewAssessment NewAssessmentForm.

Lemma filter_from_past {A} (index start : nat) (l : list A) :
  index < start ->
  JsArray.filter_from (fun _ i => negb (i =? index)%nat) start l = l.
Proof.
  revert start. induction l as [|x l IH]; intros start H; cbn [JsArray.filter_from];
    [reflexivity|].
  destruct (Nat.eqb_spec start index); [lia|]. cbn [negb].
  f_equal. apply IH. lia.
Qed.

Lemma filter_from_remove {A} (k start : nat) (l : list A) :
  JsArray.filter_from (fun _ i => negb (i =? start + k)%nat) start l
  = (firstn k l ++ skipn (S k) l)%list.
Proof.
  revert k start. induction l as [|x l IH]; intros k start;
    cbn [JsArray.filter_from].
  - now destruct k.
  - destruct k as [|k].
    + rewrite Nat.add_0_r, Nat.eqb_refl. cbn [negb firstn skipn app].
      apply filter_from_past. lia.
    + destruct (Nat.eqb_spec start (start + S k)) as [E|_]; [lia|].
      cbn [negb firstn skipn app].
      f_equal. replace (start + S k) with (S start + k) by lia. apply IH.
Qed.

(** X1.  Removing the attachment at an index keeps the files before it
    and the files after it, in order; the list is one shorter when the
    index is in range and unchanged when it is not. *)
Theorem removeAttachment_spec (index : nat) (prev : list File) :
  removeAttachment index prev
  = (firstn index prev ++ skipn (S index) prev)%list
  /\ (index < List.length prev ->
      S (List.length (removeAttachment index prev)) = List.length prev)
  /\ (List.length prev <= index -> removeAttachment index prev = prev)
  /\ (forall i, i < index ->
        nth_error (removeAttachment index prev) i = nth_error prev i)
  /\ (forall i, index <= i ->
        nth_error (removeAttachment index prev) i = nth_error prev (S i)).
Proof.
  assert (E : removeAttachment index prev
              = (firstn index prev ++ skipn (S index) prev)%list).
  { unfold removeAttachment, JsArray.filter_indexed.
    apply (filter_from_remove index 0 prev). }
  rewrite E. split; [reflexivity|]. split; [|split; [|split]].
  - intros H. rewrite length_app, length_firstn, length_skipn. lia.
  - intros H. rewrite firstn_all2 by exact H.
    rewrite skipn_all2 by lia. apply List.app_nil_r.
  - intros i H. destruct (Nat.lt_ge_cases index (List.length prev)) as [L|L].
    + rewrite nth_error_app1 by (rewrite length_firstn; lia).
      rewrite nth_error_firstn.
      destruct (Nat.ltb_spec i index); [reflexivity | lia].
    + rewrite firstn_all2 by exact L. rewrite skipn_all2 by lia.
      now rewrite List.app_nil_r.
  - intros i H. destruct (Nat.lt_ge_cases index (List.length prev)) as [L|L].
    + rewrite nth_error_app2 by (rewrite length_firstn; lia).
      rewrite length_firstn, Nat.min_l by lia.
      rewrite nth_error_skipn. f_equal. lia.
    + rewrite firstn_all2 by exact L. rewrite skipn_all2 by lia.
      rewrite List.app_nil_r.
      transitivity (@None File); [|symmetry];
        apply nth_error_None; lia.
Qed.


Lemma validate_flag (formData : FormData) (releases : list Release)
    (attachments : list File) :
  snd (validate formData releases attachments)
  = (keys_length (fst (validate formData releases attachments)) =? 0)%nat.
Proof. reflexivity. Qed.

Lemma keys_length_zero (e : FormErrors) :
  (keys_length e =? 0)%nat = true
  <-> e_reportType e = None /\ e_currentReleaseId e = None
      /\ e_targetReleaseId e = None /\ e_title e = None
      /\ e_description e = None /\ e_attachments e = None.
Proof.
  rewrite Nat.eqb_eq. unfold keys_length.
  destruct (e_reportType e), (e_currentReleaseId e), (e_targetReleaseId e),
    (e_title e), (e_description e), (e_attachments e); cbn;
    split; intros H; try lia; try tauto;
    decompose [and] H; discriminate.
Qed.

Lemma truthy_iff (s : string) : Js.truthy s = true <-> s <> "".
Proof.
  unfold Js.truthy. destruct (String.eqb_spec s ""); cbn; split; congruence.
Qed.


Lemma compare_refl (s : string) : String.compare s s = Eq.
Proof.
  pose proof (String.compare_antisym s s) as H.
  destruct (String.compare s s); cbn in H; congruence.
Qed.

(** X2.  With a current release selected, a release is offered by the
    target select exactly when choosing it passes the ordering rule of
    the validation. *)
Theorem offered_targets_pass_ordering (formData : FormData)
    (releases : list Release) (attachments : list File) (cur r : Release)
    (Hcur : currentReleaseId formData <> "")
    (Hfc : find_release releases (currentReleaseId formData) = Some cur)
    (Hin : In r releases)
    (Hid : rel_id r <> "")
    (Hfr : find_release releases (rel_id r) = Some r) :
  In r (availableTargets formData releases)
  <-> e_targetReleaseId
        (fst (validate (onTargetReleaseChange formData (rel_id r))
                       releases attachments)) = None.
Proof.
  rewrite validate_errors. cbn [e_targetReleaseId onTargetReleaseChange
    targetReleaseId currentReleaseId].
  apply truthy_iff in Hcur. apply truthy_iff in Hid.
  rewrite Hid, Hcur, Hfc, Hfr.
  unfold availableTargets. rewrite filter_In, Hfc, Hcur.
  cbn [negb orb]. unfold string_gt, Js.string_ge.
  destruct (Js.string_lt (version cur) (version r)); cbn;
    split; intros H; try tauto; try discriminate.
  destruct H as [_ H]. discriminate.
Qed.

Lemma offered_targets_pass_ordering_witness :
  currentReleaseId (Fixtures.form "r20" "") <> ""
  /\ In Fixtures.EB21
        (availableTargets (Fixtures.form "r20" "")
                          [Fixtures.EB21; Fixtures.EB20]).
Proof.
  split; [discriminate|].
  apply (offered_targets_pass_ordering (Fixtures.form "r20" "")
           [Fixtures.EB21; Fixtures.EB20] [] Fixtures.EB20 Fixtures.EB21);
    try discriminate; try reflexivity.
  left; reflexivity.
Defined.


(** X4.  Choosing one release as both current and target is rejected:
    when the release is in the list, the validation puts the ordering
    message on the target field and returns false. *)
Theorem same_release_rejected (formData : FormData)
    (releases : list Release) (attachments : list File) (r : Release)
    (Hcur : currentReleaseId formData <> "")
    (Hsame : targetReleaseId formData = currentReleaseId formData)
    (Hfound : find_release releases (currentReleaseId formData) = Some r) :
  e_targetReleaseId (fst (validate formData releases attachments))
  = Some target_order_message
  /\ snd (validate formData releases attachments) = false.
Proof.
  assert (E : e_targetReleaseId (fst (validate formData releases attachments))
              = Some target_order_message).
  { rewrite validate_errors. cbn [e_targetReleaseId].
    rewrite Hsame. apply truthy_iff in Hcur. rewrite Hcur, Hfound.
    unfold Js.string_ge, Js.string_lt. now rewrite compare_refl. }
  split; [exact E|].
  rewrite validate_flag. exact (keys_length_target _ _ E).
Qed.

Lemma same_release_rejected_witness :
  currentReleaseId (Fixtures.form "r20" "r20") <> ""
  /\ snd (validate (Fixtures.form "r20" "r20")
                   [Fixtures.EB21; Fixtures.EB20] []) = false.
Proof.
  split; [discriminate|].
  apply (same_release_rejected (Fixtures.form "r20" "r20")
           [Fixtures.EB21; Fixtures.EB20] [] Fixtures.EB20);
    [discriminate | reflexivity | reflexivity].
Defined.


(** X5.  The validation returns true exactly when a report type is
    chosen, both releases are selected, the current version is lexically
    below the target version whenever both releases are in the list, the
    title has at most 100 and the description at most 1000 code units,
    and there are at most 5 attachments of at most 50*1024*1024 bytes in
    total. *)
Theorem validate_accepts_iff (formData : FormData) (releases : list Release)
    (attachments : list File) :
  snd (validate formData releases attachments) = true
  <-> reportType formData <> None
      /\ currentReleaseId formData <> ""
      /\ targetReleaseId formData <> ""
      /\ (forall c t,
            find_release releases (currentReleaseId formData) = Some c ->
            find_release releases (targetReleaseId formData) = Some t ->
            String.ltb (version c) (version t) = true)
      /\ String.length (title formData) <= 100
      /\ String.length (description formData) <= 1000
      /\ List.length attachments <= 5
      /\ (Spec.sum_sizes attachments <= 50 * 1024 * 1024)%Z.
Proof.
  rewrite validate_flag, keys_length_zero, validate_errors.
  cbn [e_reportType e_currentReleaseId e_targetReleaseId e_title
       e_description e_attachments].
  rewrite totalSize_sum. unfold MB.
  rewrite <- (truthy_iff (currentReleaseId formData)),
          <- (truthy_iff (targetReleaseId formData)).
  assert (Ht : (if Js.truthy (title formData)
                   && (100 <? String.length (title formData))%nat
                then Some "Title cannot exceed 100 characters" else None)
               = None <-> String.length (title formData) <= 100).
  { destruct (Nat.ltb_spec 100 (String.length (title formData))) as [L|L].
    - assert (Js.truthy (title formData) = true) as ->.
      { apply truthy_iff. intros E. rewrite E in L. cbn in L. lia. }
      cbn. split; [discriminate | lia].
    - rewrite andb_false_r. tauto. }
  assert (Hd : (if Js.truthy (description formData)
                   && (1000 <? String.length (description formData))%nat
                then Some "Description cannot exceed 1000 characters"
                else None)
               = None <-> String.length (description formData) <= 1000).
  { destruct (Nat.ltb_spec 1000 (String.length (description formData)))
      as [L|L].
    - assert (Js.truthy (description formData) = true) as ->.
      { apply truthy_iff. intros E. rewrite E in L. cbn in L. lia. }
      cbn. split; [discriminate | lia].
    - rewrite andb_false_r. tauto. }
  rewrite Ht, Hd. clear Ht Hd.
  assert (Ha : (if (50 * (1024 * 1024) <? Spec.sum_sizes attachments)%Z
                then Some "Total file size cannot exceed 50MB"
                else if (5 <? Datatypes.length attachments)%nat
                     then Some "Maximum 5 files allowed" else None) = None
               <-> Datatypes.length attachments <= 5
                   /\ (Spec.sum_sizes attachments <= 50 * 1024 * 1024)%Z).
  { destruct (Z.ltb_spec (50 * (1024 * 1024)) (Spec.sum_sizes attachments)),
      (Nat.ltb_spec 5 (Datatypes.length attachments));
      split; intros G; try discriminate; try lia; try reflexivity. }
  rewrite Ha. clear Ha.
  assert (Hr : match reportType formData with
               | Some _ => None
               | None => Some "Please select a report type"
               end = None <-> reportType formData <> None).
  { destruct (reportType formData); split; congruence. }
  assert (Hc : (if Js.truthy (currentReleaseId formData) then None
                else Some "Please select your current release") = None
               <-> Js.truthy (currentReleaseId formData) = true).
  { destruct (Js.truthy (currentReleaseId formData)); split; congruence. }
  assert (Ho : (if Js.truthy (targetReleaseId formData)
                then if Js.truthy (currentReleaseId formData)
                     then match
                            find_release releases (currentReleaseId formData),
                            find_release releases (targetReleaseId formData)
                          with
                          | Some c, Some t =>
                              if Js.string_ge (version c) (version t)
                              then Some target_order_message else None
                          | _, _ => None
                          end
                     else None
                else Some "Please select a target release") = None
               <-> Js.truthy (targetReleaseId formData) = true
                   /\ (Js.truthy (currentReleaseId formData) = true ->
                       forall c t,
                         find_release releases (currentReleaseId formData)
                         = Some c ->
                         find_release releases (targetReleaseId formData)
                         = Some t ->
                         String.ltb (version c) (version t) = true)).
  { destruct (Js.truthy (targetReleaseId formData));
      [|split; [discriminate | intros [G _]; discriminate]].
    destruct (Js.truthy (currentReleaseId formData));
      [|split; [intros _; split; [reflexivity | discriminate] | reflexivity]].
    destruct (find_release releases (currentReleaseId formData)) as [c|];
      [|split; [intros _; split; [reflexivity | discriminate] | reflexivity]].
    destruct (find_release releases (targetReleaseId formData)) as [t|];
      [|split; [intros _; split; [reflexivity | discriminate] | reflexivity]].
    unfold Js.string_ge, Js.string_lt, String.ltb.
    destruct (String.compare (version c) (version t)) eqn:E; cbn.
    - split; [discriminate|]. intros [_ G].
      specialize (G eq_refl c t eq_refl eq_refl). rewrite E in G.
      discriminate G.
    - split; [|reflexivity]. intros _. split; [reflexivity|].
      intros _ c' t' [= <-] [= <-]. now rewrite E.
    - split; [discriminate|]. intros [_ G].
      specialize (G eq_refl c t eq_refl eq_refl). rewrite E in G.
      discriminate G. }
  rewrite Hr, Hc, Ho. clear Hr Hc Ho. tauto.
Qed.

Lemma filter_from_Forall {A} (P : A -> Prop) (p : A -> nat -> bool)
    (i : nat) (l : list A) :
  Forall P l -> Forall P (JsArray.filter_from p i l).
Proof.
  intros H. revert i. induction H as [|x l Hx H IH]; intros i; cbn;
    [constructor|].
  destruct (p x i); [constructor|]; auto.
Qed.

Lemma valid_files_sum (attachments : list File) :
  Forall (fun f => valid_file f = true) attachments ->
  (Spec.sum_sizes attachments
   <= 10 * 1024 * 1024 * Z.of_nat (List.length attachments))%Z.
Proof.
  induction 1 as [|f l Hf H IH]; [cbn; lia|].
  apply valid_file_iff in Hf. destruct Hf as [_ Hf].
  cbn [Spec.sum_sizes fold_right List.length] in *.
  unfold Spec.sum_sizes in IH. lia.
Qed.

(** X6.  Every file the form holds was accepted by the file check, and
    the handlers keep it so; hence held files of at most 5 never exceed
    the total size limit, and the total-size message can only appear
    together with more than 5 files. *)
Theorem held_files_stay_valid (attachments : list File)
    (Hheld : Forall (fun f => valid_file f = true) attachments) :
  (forall errors files,
      Forall (fun f => valid_file f = true)
             (snd (handleFileChange errors attachments files)))
  /\ (forall index,
        Forall (fun f => valid_file f = true)
               (removeAttachment index attachments))
  /\ (forall formData releases,
        List.length attachments <= 5 ->
        e_attachments (fst (validate formData releases attachments)) = None)
  /\ (forall formData releases,
        e_attachments (fst (validate formData releases attachments))
        = Some "Total file size cannot exceed 50MB" ->
        5 < List.length attachments).
Proof.
  pose proof (valid_files_sum attachments Hheld) as Hsum.
  split; [|split; [|split]].
  - intros errors files. cbn [handleFileChange snd].
    apply Forall_app. split; [exact Hheld|].
    apply Forall_forall. intros f Hf. now apply filter_In in Hf.
  - intros index. now apply filter_from_Forall.
  - intros formData releases Hlen.
    rewrite validate_attachments_error, totalSize_sum. unfold MB.
    destruct (Z.ltb_spec (50 * (1024 * 1024)) (Spec.sum_sizes attachments));
      [lia|].
    destruct (Nat.ltb_spec 5 (Datatypes.length attachments)); [lia|].
    reflexivity.
  - intros formData releases.
    rewrite validate_attachments_error, totalSize_sum. unfold MB.
    destruct (Z.ltb_spec (50 * (1024 * 1024)) (Spec.sum_sizes attachments));
      [lia|].
    destruct (5 <? Datatypes.length attachments)%nat; discriminate.
Qed.

Lemma held_files_stay_valid_witness :
  Forall (fun f => valid_file f = true)
         [Fixtures.pdf "a.pdf" 10485760; MoreFixtures.txt "b.txt" 12]
  /\ Forall (fun f => valid_file f = true)
            (removeAttachment 0
               [Fixtures.pdf "a.pdf" 10485760; MoreFixtures.txt "b.txt" 12]).
Proof.
  assert (H : Forall (fun f => valid_file f = true)
                [Fixtures.pdf "a.pdf" 10485760; MoreFixtures.txt "b.txt" 12]).
  { repeat constructor. }
  split; [exact H|].
  apply (held_files_stay_valid _ H).
Defined.


(** X8.  Changing the current release clears the target release: the
    validation then asks for a target and returns false, whatever target
    was selected before. *)
Theorem new_current_release_needs_new_target (formData : FormData)
    (v : string) (releases : list Release) (attachments : list File) :
  targetReleaseId (onCurrentReleaseChange formData v) = ""
  /\ e_targetReleaseId
       (fst (validate (onCurrentReleaseChange formData v) releases
                      attachments))
     = Some "Please select a target release"
  /\ snd (validate (onCurrentReleaseChange formData v) releases attachments)
     = false.
Proof.
  assert (E : e_targetReleaseId
                (fst (validate (onCurrentReleaseChange formData v) releases
                               attachments))
              = Some "Please select a target release").
  { rewrite validate_errors. reflexivity. }
  split; [reflexivity|]. split; [exact E|].
  rewrite validate_flag. exact (keys_length_target _ _ E).
Qed.


Lemma filter_all {A} (p : A -> bool) (l : list A) :
  Forall (fun x => p x = true) l -> filter p l = l.
Proof.
  induction 1 as [|x l Hx H IH]; cbn; [reflexivity|].
  now rewrite Hx, IH.
Qed.

(** X25.  The number of files is not checked when files are picked:
    picked files that all pass the file check are all added, and no
    message is set, however many are held then; the limit of 5 files
    shows only at submit, where more than 5 held files of at most
    50*1024*1024 bytes in total give "Maximum 5 files allowed" and the
    validation returns false. *)
Theorem file_count_checked_at_submit_only (errors : FormErrors)
    (attachments files : list File)
    (Hvalid : Forall (fun f => valid_file f = true) files) :
  snd (handleFileChange errors attachments files)
  = (attachments ++ files)%list
  /\ e_attachments (fst (handleFileChange errors attachments files)) = None
  /\ (forall formData releases,
        5 < List.length (attachments ++ files) ->
        (Spec.sum_sizes (attachments ++ files) <= 50 * 1024 * 1024)%Z ->
        e_attachments
          (fst (validate formData releases (attachments ++ files)))
        = Some "Maximum 5 files allowed"
        /\ snd (validate formData releases (attachments ++ files)) = false).
Proof.
  unfold handleFileChange. cbn [fst snd].
  rewrite (filter_all _ _ Hvalid), Nat.ltb_irrefl.
  split; [reflexivity|]. split; [reflexivity|].
  intros formData releases Hlen Hsum.
  assert (E : e_attachments
                (fst (validate formData releases (attachments ++ files)))
              = Some "Maximum 5 files allowed").
  { rewrite validate_attachments_error, totalSize_sum. unfold MB.
    destruct (Z.ltb_spec (50 * (1024 * 1024))
                (Spec.sum_sizes (attachments ++ files))); [lia|].
    destruct (Nat.ltb_spec 5 (Datatypes.length (attachments ++ files)));
      [reflexivity | lia]. }
  split; [exact E|].
  rewrite validate_flag. exact (keys_length_attachments _ _ E).
Qed.

Lemma file_count_checked_at_submit_only_witness :
  Forall (fun f => valid_file f = true)
         [MoreFixtures.txt "f.txt" 6; MoreFixtures.txt "g.txt" 7]
  /\ e_attachments
       (fst (handleFileChange no_errors
               [MoreFixtures.txt "a.txt" 1; MoreFixtures.txt "b.txt" 2;
                MoreFixtures.txt "c.txt" 3; MoreFixtures.txt "d.txt" 4;
                MoreFixtures.txt "e.txt" 5]
               [MoreFixtures.txt "f.txt" 6; MoreFixtures.txt "g.txt" 7]))
     = None.
Proof.
  assert (H : Forall (fun f => valid_file f = true)
                [MoreFixtures.txt "f.txt" 6; MoreFixtures.txt "g.txt" 7]).
  { repeat constructor. }
  split; [exact H|].
  apply (file_count_checked_at_submit_only no_errors
           [MoreFixtures.txt "a.txt" 1; MoreFixtures.txt "b.txt" 2;
            MoreFixtures.txt "c.txt" 3; MoreFixtures.txt "d.txt" 4;
            MoreFixtures.txt "e.txt" 5]
           [MoreFixtures.txt "f.txt" 6; MoreFixtures.txt "g.txt" 7] H).
Defined.

End NewAssessmentFormFacts.

Section RequestDetailPageFacts.
Import Types Backend RequestDetail RequestDetailPage.

Lemma render_loaded (st : State) (req : AssessmentRequest) :
  loading st = false -> error st = "" -> request st = Some req ->
  render st = Detail (actions_row req) (cancel_modal st).
Proof. intros Hl He Hr. unfold render. now rewrite Hl, Hr, He. Qed.

(** X9.  On a loaded request the link to the results is rendered exactly
    when the status is Completed, and it leads to the results of that
    request; the share button is always there; the link to the results
    and the cancel control are never rendered together. *)
Theorem results_link_iff_completed (st : State) (req : AssessmentRequest)
    (Hloaded : loading st = false)
    (Hok : error st = "")
    (Hreq : request st = Some req) :
  (results_link_rendered (render st) = true <-> status req = Completed)
  /\ (forall to, In (ViewResultsLink to) (actions_row req)
                 <-> status req = Completed
                     /\ to = "/request/" ++ id req ++ "/results")
  /\ In ShareLinkButton (actions_row req)
  /\ results_link_rendered (render st) && cancel_control_rendered (render st)
     = false.
Proof.
  rewrite (render_loaded st req Hloaded Hok Hreq).
  unfold actions_row.
  destruct (status req); cbn;
    (split; [split; congruence|]);
    (split; [|split; [tauto | reflexivity]]);
    intros to; split;
    try (intros [E|[E|E]]; try discriminate E; try contradiction;
         injection E as <-; split; reflexivity);
    try (intros [E|E]; try discriminate E; try contradiction);
    try (intros [E _]; discriminate E).
  intros [_ ->]. left. reflexivity.
Qed.

Lemma results_link_iff_completed_witness :
  loading (Fixtures.detail_state Fixtures.completed_request) = false
  /\ error (Fixtures.detail_state Fixtures.completed_request) = ""
  /\ results_link_rendered
       (render (Fixtures.detail_state Fixtures.completed_request)) = true.
Proof.
  split; [reflexivity | split; [reflexivity|]].
  apply (results_link_iff_completed
           (Fixtures.detail_state Fixtures.completed_request)
           Fixtures.completed_request eq_refl eq_refl eq_refl).
  reflexivity.
Defined.

(** X10.  A live update of the request does not close the cancel
    dialog: if the dialog is open when the update arrives, its confirm
    button is still rendered and still issues the cancelling update on
    the new row, also when the new status is Completed or Failed and the
    cancel control itself is gone. *)
Theorem live_update_keeps_cancel_dialog (st : State)
    (new : AssessmentRequest) (resp : option string)
    (Hloaded : loading st = false)
    (Hok : error st = "")
    (Hopen : cancelConfirm st = true) :
  confirm_button_rendered (render (on_update st new)) = true
  /\ updates_of (snd (handleCancel (on_update st new) resp))
     = [("assessment_requests", cancel_patch, id new)]
  /\ (status new = Completed \/ status new = Failed ->
      cancel_control_rendered (render (on_update st new)) = false).
Proof.
  assert (R : render (on_update st new)
              = Detail (actions_row new) (cancel_modal (on_update st new)))
    by (apply render_loaded; [exact Hloaded | exact Hok | reflexivity]).
  rewrite R. split; [|split].
  - unfold cancel_modal. cbn [cancelConfirm on_update]. now rewrite Hopen.
  - now apply handleCancel_updates.
  - unfold actions_row. intros [H|H]; rewrite H; reflexivity.
Qed.

Lemma live_update_keeps_cancel_dialog_witness :
  cancelConfirm (Fixtures.detail_state Fixtures.queued_request) = true
  /\ confirm_button_rendered
       (render (on_update (Fixtures.detail_state Fixtures.queued_request)
                          Fixtures.completed_request)) = true
  /\ cancel_control_rendered
       (render (on_update (Fixtures.detail_state Fixtures.queued_request)
                          Fixtures.completed_request)) = false.
Proof.
  split; [reflexivity|].
  pose proof (live_update_keeps_cancel_dialog
                (Fixtures.detail_state Fixtures.queued_request)
                Fixtures.completed_request None eq_refl eq_refl eq_refl) as H.
  split; [apply H|]. apply H. left; reflexivity.
Defined.

(** X11.  Once the cancelling update has been applied to a row and the
    row has come back as a live update, the page shows the status
    Failed with the notice "Canceled by user", and offers neither the
    cancel control nor the link to the results, whatever the row was
    before. *)
Theorem canceled_request_view (st : State) (row : AssessmentRequest)
    (Hloaded : loading st = false)
    (Hok : error st = "") :
  status_label (status (apply_patch cancel_patch row)) = "Failed"
  /\ failure_notice (apply_patch cancel_patch row) = Some "Canceled by user"
  /\ cancel_control_rendered
       (render (on_update st (apply_patch cancel_patch row))) = false
  /\ results_link_rendered
       (render (on_update st (apply_patch cancel_patch row))) = false.
Proof.
  rewrite (render_loaded (on_update st (apply_patch cancel_patch row))
             (apply_patch cancel_patch row) Hloaded Hok eq_refl).
  repeat split.
Qed.

Lemma canceled_request_view_witness :
  loading (Fixtures.detail_state Fixtures.completed_request) = false
  /\ failure_notice (apply_patch cancel_patch Fixtures.completed_request)
     = Some "Canceled by user".
Proof.
  split; [reflexivity|].
  apply (canceled_request_view
           (Fixtures.detail_state Fixtures.completed_request)
           Fixtures.completed_request eq_refl eq_refl).
Defined.



(** X26.  The cancel handler does not touch the request the page holds:
    it closes the dialog and resets the canceling flag in every case,
    schedules the return to the dashboard exactly when a request is
    loaded and the update succeeded, and shows "Request canceled" or
    "Failed to cancel request"; the page goes on rendering the request
    as it was, the cancel control included, until a live update
    arrives. *)
Theorem handleCancel_leaves_request (st : State) (resp : option string) :
  request (fst (handleCancel st resp)) = request st
  /\ loading (fst (handleCancel st resp)) = loading st
  /\ error (fst (handleCancel st resp)) = error st
  /\ cancel_control_rendered (render (fst (handleCancel st resp)))
     = cancel_control_rendered (render st)
  /\ (request st <> None ->
      cancelConfirm (fst (handleCancel st resp)) = false
      /\ canceling (fst (handleCancel st resp)) = false
      /\ toast (fst (handleCancel st resp))
         = Some (match resp with
                 | None => "Request canceled"
                 | Some _ => "Failed to cancel request"
                 end))
  /\ (In (NavigateAfter 1500 "/dashboard") (snd (handleCancel st resp))
      <-> request st <> None /\ resp = None)
  /\ (request st = None -> handleCancel st resp = (st, [])).
Proof.
  unfold handleCancel, render.
  destruct (request st) as [req|] eqn:Hr, resp as [m|];
    cbn [fst snd request loading error cancelConfirm canceling toast In];
    rewrite ?Hr; repeat split; intros;
    repeat match goal with
           | H : _ /\ _ |- _ => destruct H
           | H : _ \/ _ |- _ => destruct H
           | H : False |- _ => destruct H
           end;
    try discriminate; try congruence; try reflexivity; auto;
    try (destruct (loading st), (Js.truthy (error st)); reflexivity).
Qed.

End RequestDetailPageFacts.

Section ReleaseMapFacts.
Import Types RequestDetailPage.

Lemma Map_get_set {A} (k k' : string) (v : A) (m : list (string * A)) :
  JsArray.Map_get k (JsArray.Map_set k' v m)
  = if String.eqb k' k then Some v else JsArray.Map_get k m.
Proof.
  unfold JsArray.Map_get.
  induction m as [|[k0 v0] m IH]; cbn.
  - destruct (String.eqb k' k); reflexivity.
  - destruct (String.eqb_spec k0 k') as [->|N]; cbn.
    + destruct (String.eqb k' k); reflexivity.
    + destruct (String.eqb_spec k0 k) as [->|N'].
      * destruct (String.eqb_spec k' k) as [->|_]; [contradiction | reflexivity].
      * exact IH.
Qed.

Lemma find_last {A} (p : A -> bool) (l : list A) (x : A) :
  List.find p (l ++ [x])
  = match List.find p l with
    | Some y => Some y
    | None => if p x then Some x else None
    end.
Proof.
  induction l as [|y l IH]; cbn; [reflexivity|].
  destruct (p y); [reflexivity | exact IH].
Qed.

Lemma Map_get_fold {A} (k : string) (entries acc : list (string * A)) :
  JsArray.Map_get k
    (fold_left (fun m e => JsArray.Map_set (fst e) (snd e) m) entries acc)
  = match List.find (fun e => String.eqb (fst e) k) (rev entries) with
    | Some e => Some (snd e)
    | None => JsArray.Map_get k acc
    end.
Proof.
  revert acc. induction entries as [|e es IH]; intros acc; cbn [fold_left rev].
  - reflexivity.
  - rewrite IH, find_last.
    destruct (List.find (fun e0 => String.eqb (fst e0) k) (rev es));
      [reflexivity|].
    cbn. rewrite Map_get_set. destruct (String.eqb (fst e) k); reflexivity.
Qed.

Lemma find_unique (l : list Release) (r : Release) :
  NoDup (map rel_id l) -> In r l ->
  List.find (fun x => String.eqb (rel_id x) (rel_id r)) l = Some r.
Proof.
  induction l as [|x l IH]; intros Hn Hin; [contradiction|].
  cbn. inversion Hn as [|? ? Hx Hl]; subst.
  destruct Hin as [->|Hin]; [now rewrite String.eqb_refl|].
  destruct (String.eqb_spec (rel_id x) (rel_id r)) as [E|_]; [|auto].
  exfalso. apply Hx. rewrite E. now apply in_map.
Qed.

Lemma find_absent (l : list Release) (i : string) :
  ~ In i (map rel_id l) ->
  List.find (fun x => String.eqb (rel_id x) i) l = None.
Proof.
  induction l as [|x l IH]; intros H; [reflexivity|]. cbn in *.
  destruct (String.eqb_spec (rel_id x) i) as [E|_]; [tauto | apply IH; tauto].
Qed.

(** X13.  The release label a page shows for a release id, taken from
    the map it builds of the fetched releases, whose ids are distinct:
    the version of the fetched release with that id, or "?" when no
    fetched release has the id or its version is empty. *)
Theorem release_label_lookup (fetched : list Release)
    (Hids : NoDup (map rel_id fetched)) :
  (forall r, In r fetched ->
     release_label (JsArray.Map_of (map (fun r => (rel_id r, r)) fetched))
                   (rel_id r)
     = if String.eqb (version r) "" then "?" else version r)
  /\ (forall i, ~ In i (map rel_id fetched) ->
        release_label (JsArray.Map_of (map (fun r => (rel_id r, r)) fetched)) i
        = "?").
Proof.
  assert (G : forall i,
             JsArray.Map_get i
               (JsArray.Map_of (map (fun r => (rel_id r, r)) fetched))
             = List.find (fun x => String.eqb (rel_id x) i) (rev fetched)).
  { intros i. unfold JsArray.Map_of. rewrite Map_get_fold, <- map_rev.
    induction (rev fetched) as [|x l IH]; cbn; [reflexivity|].
    destruct (String.eqb (rel_id x) i); [reflexivity | exact IH]. }
  split.
  - intros r Hin. unfold release_label. rewrite G.
    rewrite find_unique.
    + unfold Js.truthy. destruct (String.eqb (version r) ""); reflexivity.
    + rewrite map_rev. now apply NoDup_rev.
    + now apply in_rev in Hin.
  - intros i Hin. unfold release_label. rewrite G, find_absent; [reflexivity|].
    rewrite map_rev. intros H. apply Hin. now apply in_rev.
Qed.

Lemma release_label_lookup_witness :
  NoDup (map rel_id [Fixtures.EB20; Fixtures.EB21])
  /\ release_label
       (JsArray.Map_of
          (map (fun r => (rel_id r, r)) [Fixtures.EB20; Fixtures.EB21]))
       "r21" = "EB21".
Proof.
  assert (H : NoDup (map rel_id [Fixtures.EB20; Fixtures.EB21])).
  { repeat constructor; cbn; intuition discriminate. }
  split; [exact H|].
  apply (proj1 (release_label_lookup [Fixtures.EB20; Fixtures.EB21] H)
           Fixtures.EB21).
  right; left; reflexivity.
Defined.

End ReleaseMapFacts.

Section DashboardSearchFacts.
Import Types Dashboard.

Lemma includes_empty (s : string) : Js.includes s "" = true.
Proof. destruct s; reflexivity. Qed.

(** X14.  With an empty search term and the status filter "all" the
    dashboard shows every fetched request, in the fetched order. *)
Theorem no_filter_shows_all (requests : list AssessmentRequest) :
  filteredRequests requests "" "all" = requests.
Proof.
  unfold filteredRequests.
  induction requests as [|r l IH]; cbn [filter]; [reflexivity|].
  unfold matchesSearch at 1. unfold matchesStatus at 1.
  rewrite includes_empty. cbn [orb andb String.eqb].
  now rewrite IH.
Qed.

Lemma status_label_not_all (s : RequestStatus) :
  String.eqb "all" (status_label s) = false.
Proof. destruct s; reflexivity. Qed.

(** X15.  For any search term, the requests shown under the status
    filter "all" are those shown under "Queued", "Running", "Completed"
    and "Failed" taken together, each under exactly one of the four; any
    other value of the filter shows nothing. *)
Theorem status_filters_partition (requests : list AssessmentRequest)
    (searchTerm : string) :
  List.length (filteredRequests requests searchTerm "all")
  = List.length (filteredRequests requests searchTerm "Queued")
    + List.length (filteredRequests requests searchTerm "Running")
    + List.length (filteredRequests requests searchTerm "Completed")
    + List.length (filteredRequests requests searchTerm "Failed")
  /\ (forall req s,
        In req (filteredRequests requests searchTerm (status_label s))
        <-> In req (filteredRequests requests searchTerm "all")
            /\ status req = s)
  /\ (forall statusFilter,
        statusFilter <> "all" ->
        (forall s, status_label s <> statusFilter) ->
        filteredRequests requests searchTerm statusFilter = []).
Proof.
  split; [|split].
  - unfold filteredRequests, matchesStatus.
    induction requests as [|r l IH]; cbn [filter]; [reflexivity|].
    repeat match goal with
           | |- context [filter ?p l] =>
               let shown := fresh "shown" in set (shown := filter p l) in *
           end.
    destruct (matchesSearch r searchTerm); cbn [andb]; [|exact IH].
    destruct (status r); cbn; lia.
  - intros req s. unfold filteredRequests, matchesStatus.
    rewrite !filter_In, !andb_true_iff.
    rewrite String.eqb_sym, status_label_not_all. cbn [orb].
    cbn. rewrite String.eqb_eq.
    split.
    + intros (Hin & Hs & E). repeat split; auto.
      destruct (status req), s; try reflexivity; discriminate E.
    + intros ((Hin & Hs & _) & ->). auto.
  - intros statusFilter Hall Hother. unfold filteredRequests, matchesStatus.
    induction requests as [|r l IH]; cbn [filter]; [reflexivity|].
    destruct (String.eqb_spec statusFilter "all") as [E|_]; [contradiction|].
    destruct (String.eqb_spec (status_label (status r)) statusFilter) as [E|_];
      [now apply Hother in E|].
    cbn [orb]. rewrite andb_false_r. exact IH.
Qed.

Lemma some_unit_app (p : ascii -> bool) (a b : string) :
  JsArray.some_unit p (a ++ b)
  = JsArray.some_unit p a || JsArray.some_unit p b.
Proof.
  induction a as [|c a IH]; cbn; [reflexivity|].
  now rewrite IH, orb_assoc.
Qed.

Lemma occurs_some_unit (p : ascii -> bool) (t s : string) :
  Spec.occurs t s -> JsArray.some_unit p t = true ->
  JsArray.some_unit p s = true.
Proof.
  intros (a & b & ->) H. rewrite !some_unit_app, H.
  now rewrite orb_true_r.
Qed.

Lemma upper_of_lower (c : ascii) :
  JsArray.is_lower c = true -> JsArray.is_upper (Js.upper_unit c) = true.
Proof.
  destruct c as [[] [] [] [] [] [] [] []]; cbn; intros H;
    try discriminate H; reflexivity.
Qed.

Lemma toUpperCase_has_upper (s : string) :
  JsArray.some_unit JsArray.is_lower s = true ->
  JsArray.some_unit JsArray.is_upper (Js.toUpperCase s) = true.
Proof.
  induction s as [|c s IH]; cbn; [discriminate|].
  intros H. apply orb_true_iff in H. destruct H as [H|H].
  - now rewrite (upper_of_lower c H).
  - rewrite (IH H). apply orb_true_r.
Qed.

(** X16.  The search in ids is case-sensitive: a term with a capital
    letter never finds, by its id, an untitled request whose id has no
    capital letter.  In particular the id as the table shows it, the
    first eight code units in upper case, does not find such a request
    when a small letter is among these eight. *)
Theorem shown_id_does_not_find_request (requests : list AssessmentRequest)
    (statusFilter : string) (req : AssessmentRequest)
    (Hnocap : JsArray.some_unit JsArray.is_upper (id req) = false)
    (Huntitled : title req = None) :
  (forall searchTerm,
      JsArray.some_unit JsArray.is_upper searchTerm = true ->
      ~ In req (filteredRequests requests searchTerm statusFilter))
  /\ (JsArray.some_unit JsArray.is_lower (Js.slice0 8 (id req)) = true ->
      ~ In req (filteredRequests requests
                  (Js.toUpperCase (Js.slice0 8 (id req))) statusFilter)).
Proof.
  assert (G : forall searchTerm,
             JsArray.some_unit JsArray.is_upper searchTerm = true ->
             ~ In req (filteredRequests requests searchTerm statusFilter)).
  { intros searchTerm Hcap Hin. unfold filteredRequests in Hin.
    apply filter_In in Hin. destruct Hin as [_ Hin].
    apply andb_true_iff in Hin. destruct Hin as [Hs _].
    unfold matchesSearch, title_matches in Hs. rewrite Huntitled in Hs.
    rewrite orb_false_r in Hs. apply includes_occurs in Hs.
    pose proof (occurs_some_unit _ _ _ Hs Hcap). congruence. }
  split; [exact G|].
  intros Hlower. apply G. now apply toUpperCase_has_upper.
Qed.

Lemma shown_id_does_not_find_request_witness :
  JsArray.some_unit JsArray.is_upper (id MoreFixtures.lowercase_request)
  = false
  /\ title MoreFixtures.lowercase_request = None
  /\ ~ In MoreFixtures.lowercase_request
         (filteredRequests [MoreFixtures.lowercase_request] "1A2B3C4D" "all").
Proof.
  split; [reflexivity|]. split; [reflexivity|].
  apply (proj2 (shown_id_does_not_find_request
                  [MoreFixtures.lowercase_request] "all"
                  MoreFixtures.lowercase_request eq_refl eq_refl)).
  reflexivity.
Defined.

End DashboardSearchFacts.

Section ResultsPageFacts.
Import Types Results RequestDetailPage ResultsPage.





Lemma fold_left_texts {A} (g : string -> A -> string) (f : A -> string) :
  (forall m x, g m x = m ++ f x) ->
  forall l m0, fold_left g l m0 = m0 ++ Report.texts f l.
Proof.
  intros Hg. induction l as [|x l IH]; intros m0; cbn.
  - now rewrite append_nil_r.
  - now rewrite IH, Hg, append_assoc.
Qed.

Lemma findings_text (m : string) (l : list string) :
  (if (0 <? List.length l)%nat
   then
     fold_left (fun markdown finding => markdown ++ "- " ++ finding ++ JSON.nl)
       l (m ++ "## Key Findings" ++ JSON.nl ++ JSON.nl) ++ JSON.nl
   else m)
  = m ++ Report.findings_section l.
Proof.
  destruct l as [|f l]; [cbn; now rewrite append_nil_r|].
  rewrite (fold_left_texts _ (Report.line "- ")) by reflexivity.
  unfold Report.findings_section. cbn [List.length Nat.ltb Nat.leb].
  now rewrite !append_assoc.
Qed.

Lemma api_text (m : string) (o : Nullable (list ApiChange)) :
  match o with
  | Defined changes =>
      if (0 <? List.length changes)%nat
      then
        fold_left
          (fun markdown change =>
             let markdown :=
               markdown ++ "### " ++ endpoint change ++ JSON.nl in
             let markdown :=
               markdown ++ "- **Method:** " ++ method change ++ JSON.nl in
             let markdown :=
               markdown ++ "- **Type:** "
               ++ change_type_label (api_change_type change) ++ JSON.nl in
             markdown ++ "- **Summary:** " ++ api_summary change
             ++ JSON.nl ++ JSON.nl)
          changes (m ++ "## API Changes" ++ JSON.nl ++ JSON.nl)
      else m
  | Undefined | IsNull => m
  end = m ++ Report.api_section o.
Proof.
  destruct o as [| |[|c l]]; try (cbn; now rewrite append_nil_r).
  rewrite (fold_left_texts _ Report.api_entry).
  - unfold Report.api_section. cbn [List.length Nat.ltb Nat.leb].
    now rewrite !append_assoc.
  - intros m0 x. cbv zeta. unfold Report.api_entry, Report.line.
    now rewrite !append_assoc.
Qed.

Lemma db_text (m : string) (o : Nullable (list DatabaseChange)) :
  match o with
  | Defined changes =>
      if (0 <? List.length changes)%nat
      then
        fold_left
          (fun markdown change =>
             let markdown :=
               markdown ++ "### " ++ table_name change ++ JSON.nl in
             let markdown :=
               markdown ++ "- **Type:** "
               ++ change_type_label (db_change_type change) ++ JSON.nl in
             markdown ++ "- **Summary:** " ++ db_summary change
             ++ JSON.nl ++ JSON.nl)
          changes (m ++ "## Database Changes" ++ JSON.nl ++ JSON.nl)
      else m
  | Undefined | IsNull => m
  end = m ++ Report.db_section o.
Proof.
  destruct o as [| |[|c l]]; try (cbn; now rewrite append_nil_r).
  rewrite (fold_left_texts _ Report.db_entry).
  - unfold Report.db_section. cbn [List.length Nat.ltb Nat.leb].
    now rewrite !append_assoc.
  - intros m0 x. cbv zeta. unfold Report.db_entry, Report.line.
    now rewrite !append_assoc.
Qed.

Lemma markdown_text (rt : Runtime.Locale)
    (r : AssessmentResults) (q : AssessmentRequest) :
  generateMarkdown rt (Some r) (Some q)
  = Report.header rt r q
    ++ Report.summary_section (summary r)
    ++ Report.findings_section (key_findings (summary r))
    ++ Report.api_section (api_changes r)
    ++ Report.db_section (database_changes r).
Proof.
  unfold generateMarkdown. cbv zeta.
  rewrite findings_text, api_text, db_text.
  unfold Report.header, Report.summary_section, Report.line, show.
  rewrite !append_assoc. reflexivity.
Qed.

(** X18.  The Markdown report is the header, the summary, the key
    findings, the API changes and the database changes, in this order,
    every finding and every change in the order of its list; a section
    whose list is empty, null or missing is left out; and without
    results or without request the report is the empty text. *)
Theorem markdown_sections (rt : Runtime.Locale)
    (r : AssessmentResults) (q : AssessmentRequest) :
  generateMarkdown rt (Some r) (Some q)
  = Report.header rt r q
    ++ Report.summary_section (summary r)
    ++ Report.findings_section (key_findings (summary r))
    ++ Report.api_section (api_changes r)
    ++ Report.db_section (database_changes r)
  /\ Report.findings_section [] = ""
  /\ Report.api_section Undefined = "" /\ Report.api_section IsNull = ""
  /\ Report.api_section (Defined []) = ""
  /\ Report.db_section Undefined = "" /\ Report.db_section IsNull = ""
  /\ Report.db_section (Defined []) = ""
  /\ generateMarkdown rt None (Some q) = ""
  /\ generateMarkdown rt (Some r) None = "".
Proof.
  split; [apply markdown_text | repeat split].
Qed.

Lemma replace_first_past (rep s t : string) :
  Js.includes s "." = false ->
  Js.replace_first "." rep (s ++ t) = s ++ Js.replace_first "." rep t.
Proof.
  induction s as [|c s IH]; intros H; [reflexivity|].
  cbn [Js.includes String.prefix] in H.
  destruct (ascii_dec "." c) as [E|N].
  - destruct s; discriminate H.
  - cbn [append Js.replace_first Js.strip_prefix].
    destruct (Ascii.eqb_spec "." c) as [E|_]; [contradiction|].
    now rewrite IH.
Qed.

(** X19.  When the first eight code units of the request id hold no
    full stop, as in every UUID, the download for the format pdf is the
    download for the format json in content, in type and in name: a
    file named assessment-, the first eight code units of the id, .json;
    without a request the name is assessment-undefined.json. *)
Theorem pdf_download_named_json (rt : Runtime.Locale)
    (results : option AssessmentResults)
    (request : option AssessmentRequest)
    (Hid : forall q, request = Some q ->
                     Js.includes (Js.slice0 8 (id q)) "." = false) :
  handleDownload rt results request pdf
  = handleDownload rt results request json
  /\ option_map Results.filename (handleDownload rt results request json)
     = option_map
         (fun _ =>
            "assessment-"
            ++ match request with
               | Some q => Js.slice0 8 (id q)
               | None => "undefined"
               end ++ ".json") results.
Proof.
  assert (E : Js.replace_first "." ".json" (filename_stem request)
              = filename_stem request ++ "json").
  { unfold filename_stem.
    rewrite (replace_first_past ".json" "assessment-") by reflexivity.
    rewrite replace_first_past.
    - cbn. now rewrite !append_assoc.
    - destruct request as [q|]; [now apply Hid | reflexivity]. }
  destruct results as [r|]; [|split; reflexivity].
  cbn [handleDownload option_map Results.filename]. rewrite E. split; [reflexivity|].
  unfold filename_stem. now rewrite !append_assoc.
Qed.

Lemma pdf_download_named_json_witness :
  Js.includes (Js.slice0 8 (id Fixtures.completed_request)) "." = false
  /\ option_map Results.filename
       (handleDownload Runtime.enGB_UTC (Some Fixtures.results)
                       (Some Fixtures.completed_request) pdf)
     = Some "assessment-87654321.json".
Proof.
  split; [reflexivity|].
  assert (H : forall q, Some Fixtures.completed_request = Some q ->
                        Js.includes (Js.slice0 8 (id q)) "." = false).
  { intros q [= <-]. reflexivity. }
  destruct (pdf_download_named_json Runtime.enGB_UTC (Some Fixtures.results)
              (Some Fixtures.completed_request) H) as [E1 E2].
  rewrite E1. exact E2.
Defined.

(** X20.  The text of the raw data tab, which is also what its copy
    button puts on the clipboard, parses back to the raw data of the
    result, in every runtime and for every result whose object is well
    formed there. *)
Theorem raw_text_round_trip (round : Number.Rounding)
    (r : AssessmentResults)
    (Hwf : JSON.well_formed round (results_object r) = true) :
  JSON.parse round (raw_text r) = Some (JSON.Object (raw_data r)).
Proof.
  unfold raw_text. apply parse_stringify.
  unfold results_object in Hwf. cbn [JSON.well_formed] in Hwf.
  apply andb_true_iff in Hwf. destruct Hwf as [_ Hall].
  rewrite forallb_forall in Hall.
  apply (Hall ("raw_data", JSON.Object (raw_data r))).
  apply in_or_app. right. apply in_or_app. right. apply in_or_app. right.
  left. reflexivity.
Qed.

Lemma raw_text_round_trip_witness :
  JSON.well_formed Number.exact (results_object Fixtures.results) = true
  /\ JSON.parse Number.exact (raw_text Fixtures.results)
     = Some (JSON.Object (raw_data Fixtures.results)).
Proof.
  split; [reflexivity|].
  apply (raw_text_round_trip Number.exact Fixtures.results eq_refl).
Defined.



End ResultsPageFacts.

Section LoginFacts.
Import Login.

(** X22.  The login form calls the backend only with credentials that
    passed its checks, and at most once per submit: a sign-up is issued
    exactly when the form is in sign-up mode with a non-empty email and a
    password of at least 8 code units that equals its confirmation; a
    sign-in exactly when the form is in sign-in mode with a non-empty
    email and a non-empty password, of any length. *)
Theorem login_calls_backend_when_valid (st : State) (answer : AuthAnswer) :
  (forall e p,
      In (SignUp e p) (snd (handleSubmit st answer))
      <-> isSignup st = true /\ e = email st /\ p = password st
          /\ e <> "" /\ p <> "" /\ p = confirmPassword st
          /\ 8 <= String.length p)
  /\ (forall e p,
        In (SignIn e p) (snd (handleSubmit st answer))
        <-> isSignup st = false /\ e = email st /\ p = password st
            /\ e <> "" /\ p <> "")
  /\ List.length (auth_calls (snd (handleSubmit st answer))) <= 1
  /\ (forall path,
        In (Navigate path) (snd (handleSubmit st answer))
        <-> path = "/dashboard" /\ answer = Resolved
            /\ In (SignIn (email st) (password st))
                  (snd (handleSubmit st answer))).
Proof.
  unfold handleSubmit, Js.truthy.
  destruct (String.eqb_spec (email st) "") as [He|He],
    (String.eqb_spec (password st) "") as [Hp|Hp],
    (isSignup st) eqn:Hs,
    (String.eqb_spec (password st) (confirmPassword st)) as [Hc|Hc],
    (Nat.ltb_spec (String.length (password st)) 8) as [Hl|Hl],
    answer as [|m];
    cbn [negb orb andb snd In auth_calls filter List.length];
    (split; [|split; [|split; [lia|]]]);
    intros; (split; [intros H | intros H; decompose [and] H; clear H]);
    subst;
    repeat match goal with
           | H : _ \/ _ |- _ => destruct H
           | H : False |- _ => destruct H
           | H : SignUp _ _ = SignUp _ _ |- _ => injection H as <- <-
           | H : SignIn _ _ = SignIn _ _ |- _ => injection H as <- <-
           | H : Navigate _ = Navigate _ |- _ => injection H as <-
           end;
    try discriminate; try contradiction; try congruence; try lia;
    auto 10.
Qed.

(** X23.  After a submit of the login form the form is enabled again
    exactly when the attempt failed, by the form's own checks or at the
    backend, and then nothing but the message has changed.  After a
    successful sign-up the fields are emptied, the form is back in
    sign-in mode with the message "Account created! You can now log
    in.", no navigation is issued, and the loading flag is still on, so
    the inputs, the submit button and the mode switch stay disabled. *)
Theorem login_form_after_submit (st : State) (answer : AuthAnswer) :
  (form_disabled (fst (handleSubmit st answer)) = true
   <-> auth_calls (snd (handleSubmit st answer)) <> []
       /\ answer = Resolved)
  /\ (form_disabled (fst (handleSubmit st answer)) = false ->
      email (fst (handleSubmit st answer)) = email st
      /\ password (fst (handleSubmit st answer)) = password st
      /\ confirmPassword (fst (handleSubmit st answer)) = confirmPassword st
      /\ isSignup (fst (handleSubmit st answer)) = isSignup st)
  /\ (isSignup st = true ->
      form_disabled (fst (handleSubmit st answer)) = true ->
      fst (handleSubmit st answer)
      = {| email := ""; password := ""; confirmPassword := "";
           showPassword := showPassword st;
           error := "Account created! You can now log in.";
           loading := true; isSignup := false |}
      /\ snd (handleSubmit st answer) = [SignUp (email st) (password st)]).
Proof.
  unfold handleSubmit, form_disabled, failed.
  destruct (negb (Js.truthy (email st)) || negb (Js.truthy (password st))),
    (isSignup st),
    (negb (String.eqb (password st) (confirmPassword st))),
    (String.length (password st) <? 8)%nat,
    answer as [|m];
    cbn [fst snd loading failed auth_calls filter email password
         confirmPassword isSignup];
    repeat split; intros;
    repeat match goal with H : _ /\ _ |- _ => destruct H end;
    try discriminate; try congruence; try reflexivity; auto.
Qed.

Lemma login_form_after_submit_witness :
  isSignup MoreFixtures.signup_state = true
  /\ form_disabled (fst (handleSubmit MoreFixtures.signup_state Resolved))
     = true.
Proof.
  split; [reflexivity|].
  apply (proj1 (login_form_after_submit MoreFixtures.signup_state Resolved)).
  split; [discriminate | reflexivity].
Defined.

End LoginFacts.

Section AuthContextFacts.
Import Types AuthContext.


End AuthContextFacts.
